(** * Uttar Pradesh news dashboard: the client-side logic of [script.js]

    A shallow embedding of the filtering, pagination and rendering code of
    [script.js], and the properties of it that the specification states.

    Conventions of the embedding.
    - A JavaScript string is a sequence of UTF-16 code units; the model
      keeps the strings whose code units are below 256, one [ascii] per
      code unit.  Relational comparison of two strings ([<], [>=]) is the
      lexicographic comparison of code units, [String.compare].
    - A JavaScript number that the code uses as an integer (page numbers,
      lengths, time values in milliseconds) is a [Z], and [NaN] among
      time values is [None].  The page size, which [parseInt] reads from
      a text, is a [Number]: [NaN], an integer or an infinity.
    - The closure variables of the [DOMContentLoaded] callback and the DOM
      elements the script reads and writes form one record, [Page]; the
      functions of the script are computations over it that may throw. *)

From Stdlib Require Import ZArith List String Ascii Bool Lia Sorted Permutation.
From stdpp Require Import base list.

Import ListNotations.
Local Open Scope string_scope.
Local Open Scope Z_scope.

(** ** The JavaScript built-ins the script calls *)

Module JS.

(** *** Strings *)

(** [ToBoolean] of a string: only the empty string is falsy. *)
Definition truthy (s : string) : bool :=
  match s with
  | EmptyString => false
  | String _ _ => true
  end.

(** [a < b] and [a >= b] on two strings. *)
Definition lt (a b : string) : bool := String.ltb a b.
Definition ge (a b : string) : bool := negb (String.ltb a b).

(** [s.startsWith(p)]. *)
Definition startsWith (s p : string) : bool := String.prefix p s.

(** [s.split(sep)[0]]: the text before the first occurrence of the
    one-unit separator, the whole string when there is none. *)
Fixpoint split_head (sep : ascii) (s : string) : string :=
  match s with
  | EmptyString => EmptyString
  | String c r =>
      if Ascii.eqb c sep then EmptyString else String c (split_head sep r)
  end.

(** One code unit of [String.prototype.toLowerCase]: A-Z, and the
    Latin-1 capitals U+00C0-U+00DE except the multiplication sign. *)
Definition lower_unit (c : ascii) : ascii :=
  let n := N_of_ascii c in
  if ((65 <=? n) && (n <=? 90))%N
     || ((192 <=? n) && (n <=? 222) && negb (n =? 215))%N
  then ascii_of_N (n + 32)
  else c.

Fixpoint toLowerCase (s : string) : string :=
  match s with
  | EmptyString => EmptyString
  | String c r => String (lower_unit c) (toLowerCase r)
  end.

(** The regular-expression class [\s] on code units below 256:
    TAB, LF, VT, FF, CR, SPACE and NO-BREAK SPACE. *)
Definition is_space (c : ascii) : bool :=
  let n := N_of_ascii c in
  (((9 <=? n) && (n <=? 13)) || (n =? 32) || (n =? 160))%N.

(** [s.replace(/\s+/g, r)]: every maximal run of white space is replaced
    by one copy of [r].  [in_run] tells that the previous code unit was
    white space, so the current run has been replaced already. *)
Fixpoint replace_space_runs (r : string) (in_run : bool) (s : string)
  : string :=
  match s with
  | EmptyString => EmptyString
  | String c rest =>
      if is_space c then
        if in_run then replace_space_runs r true rest
        else r ++ replace_space_runs r true rest
      else String c (replace_space_runs r false rest)
  end.

(** What reading an optional text property of a parsed JSON object
    gives: [undefined] when the object has no such property, [null] when
    the document says so, or a string. *)
Inductive Value :=
| Undefined
| Null
| Text (s : string).

(** Interpolation [${v}] in a template literal. *)
Definition interpolate (v : Value) : string :=
  match v with
  | Undefined => "undefined"
  | Null => "null"
  | Text s => s
  end.

(** [ToBoolean] of such a value, as in [!!v]. *)
Definition truthy_value (v : Value) : bool :=
  match v with
  | Text s => truthy s
  | _ => false
  end.

(** [v || d] with a string default. *)
Definition or_default (v : Value) (d : string) : string :=
  match v with
  | Text s => if truthy s then s else d
  | _ => d
  end.

(** [v === s] with a string. *)
Definition strict_eq (v : Value) (s : string) : bool :=
  match v with
  | Text x => String.eqb x s
  | _ => false
  end.

(** *** Numbers read from text *)

Definition digit_value (c : ascii) : option Z :=
  let n := N_of_ascii c in
  if ((48 <=? n) && (n <=? 57))%N then Some (Z.of_N n - 48) else None.

(** The longest prefix of decimal digits, read as a number after [acc];
    [seen] tells whether a digit has been read. *)
Fixpoint read_digits (acc : Z) (seen : bool) (s : string) : option Z :=
  match s with
  | EmptyString => if seen then Some acc else None
  | String c r =>
      match digit_value c with
      | Some d => read_digits (10 * acc + d) true r
      | None => if seen then Some acc else None
      end
  end.

Fixpoint skip_spaces (s : string) : string :=
  match s with
  | EmptyString => EmptyString
  | String c r => if is_space c then skip_spaces r else s
  end.

(** The numbers of the script: a page size read by [parseInt], and its
    products and sums with page numbers.  Such a number is [NaN], an
    integer, or an infinity with its sign. *)
Inductive Number :=
| NaN
| Num (z : Z)
| Infinity (negative : bool).

(** The double of an integer: the integer itself below 2^53 in size,
    otherwise the nearest multiple of the unit in the last place of its
    53-bit significand, a tie going to the even significand; from
    2^1024 - 2^970 on, an infinity. *)
Definition to_double (n : Z) : Number :=
  let a := Z.abs n in
  if a <? 2 ^ 53 then Num n
  else
    let shift := Z.log2 a - 52 in
    let q := a / 2 ^ shift in
    let r := a mod 2 ^ shift in
    let half := 2 ^ (shift - 1) in
    let q' := if (r <? half) || ((r =? half) && Z.even q) then q else q + 1 in
    let m := q' * 2 ^ shift in
    if m <? 2 ^ 1024 then Num (Z.sgn n * m) else Infinity (n <? 0).

Definition number_of (sign : Z) (digits : option Z) : Number :=
  match digits with
  | Some n => to_double (sign * n)
  | None => NaN
  end.

(** [parseInt(s, 10)]: leading white space, an optional sign, then the
    longest run of digits, whose value is rounded to a double; [NaN]
    when there is no digit.  (The standard lets an implementation read
    the digits after the twentieth significant one as zeros; the
    rounding here is that of the exact value, as the engines have it.) *)
Definition parseInt (s : string) : Number :=
  match skip_spaces s with
  | String "-" r => number_of (-1) (read_digits 0 false r)
  | String "+" r => number_of 1 (read_digits 0 false r)
  | t => number_of 1 (read_digits 0 false t)
  end.

(** [n || d] on numbers: [NaN] and zero are falsy. *)
Definition num_or (n : Number) (d : Z) : Number :=
  match n with
  | NaN => Num d
  | Num v => if v =? 0 then Num d else Num v
  | Infinity _ => n
  end.

(** [k * x] and [x + y], for an integer [k].  (On integers the result is
    exact: a double rounds a product or a sum only from 2^53 on, past
    every index of an array.) *)
Definition times (k : Z) (x : Number) : Number :=
  match x with
  | NaN => NaN
  | Num z => Num (k * z)
  | Infinity negative =>
      if k =? 0 then NaN else Infinity (xorb negative (k <? 0))
  end.

Definition plus (x y : Number) : Number :=
  match x, y with
  | NaN, _ => NaN
  | _, NaN => NaN
  | Num a, Num b => Num (a + b)
  | Num _, Infinity negative => Infinity negative
  | Infinity negative, Num _ => Infinity negative
  | Infinity negative, Infinity negative' =>
      if Bool.eqb negative negative' then Infinity negative else NaN
  end.

(** [Math.ceil(a / b)] for an array length [a] and a non-zero integer
    [b]: the quotient of two integers below 2^32 is never rounded across
    an integer, and that by a larger [b] lies between -1 and 1 and is
    zero for [a = 0] only, so the result is the exact ceiling. *)
Definition ceil_div (a b : Z) : Z := - ((- a) / b).

(** [Math.ceil(a / x)] for an array length [a] and a number [x] other
    than zero, as far as the comparisons of lines 170 and 173 tell: the
    quotient by an infinity is a zero, and that by [NaN] is [NaN], for
    which, as for 0, no button is made. *)
Definition ceil_quotient (a : Z) (x : Number) : Z :=
  match x with
  | Num b => ceil_div a b
  | _ => 0
  end.

(** *** Arrays *)

(** [a.slice(start, end)] with integer arguments: a negative index counts
    from the end, and both are clamped to the array. *)
Definition clamp_index (len i : Z) : Z :=
  if i <? 0 then Z.max (len + i) 0 else Z.min i len.

Definition slice {A} (a : list A) (start end_ : Z) : list A :=
  let len := Z.of_nat (length a) in
  let k := clamp_index len start in
  let final := clamp_index len end_ in
  take (Z.to_nat (final - k)) (drop (Z.to_nat k) a).

(** The integer an index is read as ([ToIntegerOrInfinity]) for an array
    of length [len]: [NaN] is 0, and an infinity is clamped as every
    index past that end is. *)
Definition index_of (len : Z) (x : Number) : Z :=
  match x with
  | NaN => 0
  | Num z => z
  | Infinity negative => if negative then - len else len
  end.

(** [a.slice(start, end)] with two numbers. *)
Definition slice_at {A} (a : list A) (start end_ : Number) : list A :=
  let len := Z.of_nat (length a) in
  slice a (index_of len start) (index_of len end_).

(** *** Dates

    A time value is a number of milliseconds since the epoch, in UTC.
    The calendar functions are those of the language standard
    ([Day], [TimeWithinDay], [MakeDay], [MakeDate], [TimeClip]); the
    year, month and day of a day number are computed with the civil-date
    arithmetic on 400-year eras. *)

Definition msPerDay : Z := 86400000.

Definition Day (t : Z) : Z := t / msPerDay.
Definition TimeWithinDay (t : Z) : Z := t mod msPerDay.

(** Day number of the civil date [y]-[m]-[d] ([m] from 1). *)
Definition days_from_civil (y m d : Z) : Z :=
  let y' := if m <=? 2 then y - 1 else y in
  let era := y' / 400 in
  let yoe := y' - era * 400 in
  let mp := if 2 <? m then m - 3 else m + 9 in
  let doy := (153 * mp + 2) / 5 + d - 1 in
  let doe := yoe * 365 + yoe / 4 - yoe / 100 + doy in
  era * 146097 + doe - 719468.

(** Civil date (year, month from 1, day of month) of a day number. *)
Definition civil_from_days (z : Z) : Z * Z * Z :=
  let z' := z + 719468 in
  let era := z' / 146097 in
  let doe := z' - era * 146097 in
  let yoe := (doe - doe / 1460 + doe / 36524 - doe / 146096) / 365 in
  let doy := doe - (365 * yoe + yoe / 4 - yoe / 100) in
  let mp := (5 * doy + 2) / 153 in
  let d := doy - (153 * mp + 2) / 5 + 1 in
  let m := if mp <? 10 then mp + 3 else mp - 9 in
  ((if m <=? 2 then yoe + era * 400 + 1 else yoe + era * 400), m, d).

Definition YearFromTime (t : Z) : Z := fst (fst (civil_from_days (Day t))).
(** [MonthFromTime] counts months from 0. *)
Definition MonthFromTime (t : Z) : Z :=
  snd (fst (civil_from_days (Day t))) - 1.
Definition DateFromTime (t : Z) : Z := snd (civil_from_days (Day t)).

Definition MakeDay (year month date : Z) : Z :=
  days_from_civil (year + month / 12) (month mod 12 + 1) 1 + date - 1.
Definition MakeDate (day time : Z) : Z := day * msPerDay + time.

Definition TimeClip (t : Z) : option Z :=
  if Z.abs t <=? 8640000000000000 then Some t else None.

(** The time zone of the viewer: the offset of local time from UTC, in
    milliseconds, at a UTC time value and at a local time value. *)
Record TimeZone := {
  offset_at_utc : Z -> Z;
  offset_at_local : Z -> Z
}.

Definition LocalTime (tz : TimeZone) (t : Z) : Z := t + offset_at_utc tz t.
Definition UTC (tz : TimeZone) (t : Z) : Z := t - offset_at_local tz t.

(** A zone whose offset never changes. *)
Definition fixed_zone (offset : Z) : TimeZone :=
  {| offset_at_utc := fun _ => offset; offset_at_local := fun _ => offset |}.

(** [width] decimal digits of [n], most significant first. *)
Definition digit_unit (n : Z) : ascii := ascii_of_N (Z.to_N (48 + n mod 10)).

Fixpoint pad (width : nat) (n : Z) : string :=
  match width with
  | O => EmptyString
  | S w => pad w (n / 10) ++ String (digit_unit n) EmptyString
  end.

(** The year of the ISO format: four digits from 0 to 9999, otherwise a
    sign and six digits. *)
Definition iso_year (y : Z) : string :=
  if (0 <=? y) && (y <=? 9999) then pad 4 y
  else (if y <? 0 then "-" else "+") ++ pad 6 (Z.abs y).

Definition iso_date (t : Z) : string :=
  match civil_from_days (Day t) with
  | (y, m, d) => iso_year y ++ "-" ++ pad 2 m ++ "-" ++ pad 2 d
  end.

Definition iso_time (t : Z) : string :=
  let ms := TimeWithinDay t in
  pad 2 (ms / 3600000) ++ ":" ++ pad 2 (ms / 60000 mod 60) ++ ":"
    ++ pad 2 (ms / 1000 mod 60) ++ "." ++ pad 3 (ms mod 1000).

(** Exceptions: the [RangeError] of the date functions and the plain
    [Error] the script constructs itself; each carries its message. *)
Inductive Error :=
| RangeError (message : string)
| PlainError (message : string).

Definition message_of (e : Error) : string :=
  match e with
  | RangeError m => m
  | PlainError m => m
  end.

(** [d.toISOString()]: raises [RangeError] on an invalid date. *)
Definition toISOString (d : option Z) : Error + string :=
  match d with
  | None => inl (RangeError "Invalid time value")
  | Some t => inr (iso_date t ++ "T" ++ iso_time t ++ "Z")
  end.

(** [d.getDate()]: the day of the month in local time. *)
Definition getDate (tz : TimeZone) (d : option Z) : option Z :=
  option_map (fun t => DateFromTime (LocalTime tz t)) d.

(** [d.setDate(dt)]: the same local year, month and time of day with the
    day of the month [dt], converted back to UTC. *)
Definition setDate (tz : TimeZone) (d : option Z) (dt : option Z)
  : option Z :=
  match d, dt with
  | Some t, Some dt =>
      let lt := LocalTime tz t in
      TimeClip (UTC tz (MakeDate
        (MakeDay (YearFromTime lt) (MonthFromTime lt) dt)
        (TimeWithinDay lt)))
  | _, _ => None
  end.

Definition is_leap (y : Z) : bool :=
  ((y mod 4 =? 0) && negb (y mod 100 =? 0)) || (y mod 400 =? 0).

Definition days_in_month (y m : Z) : Z :=
  if m =? 2 then (if is_leap y then 29 else 28)
  else if (m =? 4) || (m =? 6) || (m =? 9) || (m =? 11) then 30
  else 31.

(** Exactly [n] decimal digits at the head of [s]. *)
Fixpoint take_digits (n : nat) (acc : Z) (s : string) : option (Z * string) :=
  match n with
  | O => Some (acc, s)
  | S k =>
      match s with
      | EmptyString => None
      | String c r =>
          match digit_value c with
          | Some d => take_digits k (10 * acc + d) r
          | None => None
          end
      end
  end.

(** The date-only form [YYYY-MM-DD] of the date-time string format, the
    form a date control gives: midnight UTC of that day. *)
Definition parse_date (s : string) : option Z :=
  match take_digits 4 0 s with
  | Some (y, String "-" s1) =>
      match take_digits 2 0 s1 with
      | Some (m, String "-" s2) =>
          match take_digits 2 0 s2 with
          | Some (d, EmptyString) =>
              if (1 <=? m) && (m <=? 12) && (1 <=? d)
                 && (d <=? days_in_month y m)
              then Some (days_from_civil y m d * msPerDay)
              else None
          | _ => None
          end
      | _ => None
      end
  | _ => None
  end.

(** The host of the script: the time zone of the viewer, and what its
    [Date] makes of a text that is not a date of the form above, which
    the language leaves to the implementation. *)
Record Host := {
  zone : TimeZone;
  parse_other : string -> option Z
}.

(** [new Date(s)] for a string. *)
Definition new_Date (host : Host) (s : string) : option Z :=
  match parse_date s with
  | Some t => Some t
  | None => parse_other host s
  end.

End JS.

(** ** The page: data, closure variables and DOM elements *)

Module Dashboard.
Import JS.

(** One record of [data/news.json].  The script reads [district] and
    [category] as properties that may be missing or null ([!!d],
    [item.category || ...]); the others are always strings. *)
Record Story := {
  title : string;
  link : string;
  pubDate : string;
  source : string;
  district : Value;
  category : Value;
  summary : string
}.

(** A [<select>] element shown as a drop-down (one choice, one row): the
    values of its options and its value, the value of the option that
    is selected.  Assigning a value that no option has leaves nothing
    selected, and the value then reads as the empty string. *)
Record Select := {
  options : list string;
  value : string
}.

Definition has_option (v : string) (s : Select) : bool :=
  existsb (String.eqb v) (options s).

Definition set_value (v : string) (s : Select) : Select :=
  {| options := options s;
     value := if has_option v s then v else EmptyString |}.

(** [s.appendChild(opt)] for a new option of value [v].  When an option
    is inserted into a drop-down in which none is selected, the first
    option of the list becomes selected: the new one, in a drop-down
    without options. *)
Definition appendOption (v : string) (s : Select) : Select :=
  {| options := options s ++ [v];
     value := if has_option (value s) s then value s else hd v (options s) |}.

(** The five filter controls, named after their element ids. *)
Record Controls := {
  start_date : string;
  end_date : string;
  category_select : Select;
  district_select : Select;
  items_per_page : Select
}.

(** A rendered card: its class and the texts interpolated into its
    markup, in the order of the template. *)
Record Card := {
  card_class : string;
  card_href : string;
  card_title : string;
  meta_date : string;
  meta_source : string;
  meta_district : string;
  badge_class : string;
  badge_label : string;
  card_summary : string
}.

(** The content of [#news-container]: the markup last assigned to its
    [innerHTML], and the cards appended since. *)
Record Container := {
  markup : string;
  cards : list Card
}.

Definition set_innerHTML (html : string) : Container :=
  {| markup := html; cards := [] |}.

Definition appendChild (c : Card) (k : Container) : Container :=
  {| markup := markup k; cards := cards k ++ [c] |}.

(** A button of [#pagination]: its text and whether it has the class
    [active] next to [page-link]. *)
Record Button := {
  btn_text : Z;
  btn_active : bool
}.

Record Page := {
  stories : list Story;
  filteredStories : list Story;
  currentPage : Z;
  itemsPerPage : Number;
  controls : Controls;
  news_container : Container;
  pagination : list Button
}.

Definition with_stories (v : list Story) (p : Page) : Page :=
  {| stories := v; filteredStories := filteredStories p;
     currentPage := currentPage p; itemsPerPage := itemsPerPage p;
     controls := controls p; news_container := news_container p;
     pagination := pagination p |}.

Definition with_filteredStories (v : list Story) (p : Page) : Page :=
  {| stories := stories p; filteredStories := v;
     currentPage := currentPage p; itemsPerPage := itemsPerPage p;
     controls := controls p; news_container := news_container p;
     pagination := pagination p |}.

Definition with_currentPage (v : Z) (p : Page) : Page :=
  {| stories := stories p; filteredStories := filteredStories p;
     currentPage := v; itemsPerPage := itemsPerPage p;
     controls := controls p; news_container := news_container p;
     pagination := pagination p |}.

Definition with_itemsPerPage (v : Number) (p : Page) : Page :=
  {| stories := stories p; filteredStories := filteredStories p;
     currentPage := currentPage p; itemsPerPage := v;
     controls := controls p; news_container := news_container p;
     pagination := pagination p |}.

Definition with_controls (v : Controls) (p : Page) : Page :=
  {| stories := stories p; filteredStories := filteredStories p;
     currentPage := currentPage p; itemsPerPage := itemsPerPage p;
     controls := v; news_container := news_container p;
     pagination := pagination p |}.

Definition with_news_container (v : Container) (p : Page) : Page :=
  {| stories := stories p; filteredStories := filteredStories p;
     currentPage := currentPage p; itemsPerPage := itemsPerPage p;
     controls := controls p; news_container := v;
     pagination := pagination p |}.

Definition with_pagination (v : list Button) (p : Page) : Page :=
  {| stories := stories p; filteredStories := filteredStories p;
     currentPage := currentPage p; itemsPerPage := itemsPerPage p;
     controls := controls p; news_container := news_container p;
     pagination := v |}.

Definition with_start_date (v : string) (c : Controls) : Controls :=
  {| start_date := v; end_date := end_date c;
     category_select := category_select c;
     district_select := district_select c;
     items_per_page := items_per_page c |}.

Definition with_end_date (v : string) (c : Controls) : Controls :=
  {| start_date := start_date c; end_date := v;
     category_select := category_select c;
     district_select := district_select c;
     items_per_page := items_per_page c |}.

Definition with_category_select (v : Select) (c : Controls) : Controls :=
  {| start_date := start_date c; end_date := end_date c;
     category_select := v;
     district_select := district_select c;
     items_per_page := items_per_page c |}.

Definition with_district_select (v : Select) (c : Controls) : Controls :=
  {| start_date := start_date c; end_date := end_date c;
     category_select := category_select c;
     district_select := v;
     items_per_page := items_per_page c |}.

Definition with_items_per_page (v : Select) (c : Controls) : Controls :=
  {| start_date := start_date c; end_date := end_date c;
     category_select := category_select c;
     district_select := district_select c;
     items_per_page := v |}.

(** *** Computations of the script

    A function of the script reads and writes the page and either
    returns or throws; what it wrote before throwing stays written. *)
Definition Script (A : Type) : Type := Page -> (Error + A) * Page.

Definition ret {A} (a : A) : Script A := fun p => (inr a, p).

Definition bind {A B} (c : Script A) (k : A -> Script B) : Script B :=
  fun p =>
    match c p with
    | (inr a, p') => k a p'
    | (inl e, p') => (inl e, p')
    end.

Definition read {A} (f : Page -> A) : Script A := fun p => (inr (f p), p).
Definition write (f : Page -> Page) : Script unit := fun p => (inr tt, f p).

(** The result of a built-in that may raise. *)
Definition lift {A} (r : Error + A) : Script A := fun p => (r, p).

(** An event handler that ends with an uncaught exception leaves the
    page as it was at the throw. *)
Definition run {A} (c : Script A) (p : Page) : Page := snd (c p).

Definition completes {A} (c : Script A) (p : Page) : Prop :=
  exists a, fst (c p) = inr a.

Definition on_controls (f : Controls -> Controls) (p : Page) : Page :=
  with_controls (f (controls p)) p.

Notation "x <- c ;; k" := (bind c (fun x => k))
  (at level 100, c at next level, right associativity).
Notation "c ;; k" := (bind c (fun _ => k))
  (at level 100, k at level 200, right associativity).

(** [list.forEach(f)]. *)
Fixpoint forEach {A} (l : list A) (f : A -> Script unit) : Script unit :=
  match l with
  | [] => ret tt
  | x :: r => f x ;; forEach r f
  end.

(** The integers [from], [from + 1], ... of a counting loop of [n]
    iterations. *)
Fixpoint count_from (from : Z) (n : nat) : list Z :=
  match n with
  | O => []
  | S k => from :: count_from (from + 1) k
  end.

(** [Array.from(new Set(a))]: the first occurrence of each value. *)
Fixpoint unique (seen : list string) (a : list string) : list string :=
  match a with
  | [] => []
  | x :: r =>
      if existsb (String.eqb x) seen then unique seen r
      else x :: unique (x :: seen) r
  end.

(** [a.sort()] on distinct strings: ascending code-unit order. *)
Fixpoint insert_sorted (x : string) (a : list string) : list string :=
  match a with
  | [] => [x]
  | y :: r => if String.leb x y then x :: a else y :: insert_sorted x r
  end.

Definition sort (a : list string) : list string :=
  fold_right insert_sorted [] a.

(** The strings of [a.filter(d => !!d)]. *)
Fixpoint truthy_values (a : list Value) : list string :=
  match a with
  | [] => []
  | Text d :: r => if truthy d then d :: truthy_values r else truthy_values r
  | _ :: r => truthy_values r
  end.

Section Script.

(** The viewer's environment: the host, and the text that
    [new Date(pubDate).toLocaleString(undefined, {...})] gives for a
    publication date in the viewer's locale. *)
Context (host : Host) (toLocaleString : string -> string).

(** Lines 124-126. *)
Definition categoryToSlug (cat : string) : string :=
  replace_space_runs "-" false (toLowerCase cat).

(** The body of the [forEach] of [render], lines 138-153. *)
Definition card_of (item : Story) : Card :=
  let localDateString := toLocaleString (pubDate item) in
  let catSlug := categoryToSlug (or_default (category item) "Uncategorised") in
  let badgeClass := "badge-" ++ catSlug in
  {| card_class := "news-card";
     card_href := link item;
     card_title := title item;
     meta_date := localDateString;
     meta_source := source item;
     meta_district := interpolate (district item);
     badge_class := badgeClass;
     badge_label := interpolate (category item);
     card_summary := summary item |}.

Definition no_match_notice : string :=
  "<p>No news articles match the selected filters.</p>".

(** Lines 128-156. *)
Definition render (list : list Story) : Script unit :=
  write (with_news_container (set_innerHTML "")) ;;
  if (Z.of_nat (length list) =? 0) then
    write (with_news_container (set_innerHTML no_match_notice))
  else
    forEach list (fun item =>
      write (fun p =>
        with_news_container (appendChild (card_of item) (news_container p)) p)).

(** Lines 166-186; the click listener of a button is [pageBtn_click]
    below. *)
Definition renderPagination : Script unit :=
  write (with_pagination []) ;;
  filtered <- read filteredStories ;;
  perPage <- read itemsPerPage ;;
  let totalPages := ceil_quotient (Z.of_nat (length filtered)) perPage in
  if totalPages <=? 1 then ret tt
  else
    forEach (count_from 1 (Z.to_nat totalPages)) (fun i =>
      current <- read currentPage ;;
      write (fun p =>
        with_pagination
          (pagination p ++ [{| btn_text := i; btn_active := i =? current |}])
          p)).

(** Lines 158-164. *)
Definition renderPage (page : Z) : Script unit :=
  perPage <- read itemsPerPage ;;
  let startIndex := times (page - 1) perPage in
  let endIndex := plus startIndex perPage in
  filtered <- read filteredStories ;;
  let pageItems := slice_at filtered startIndex endIndex in
  render pageItems ;;
  renderPagination.

(** Lines 105-107: the date text of the day after the end date. *)
Definition isoNext (endDate : string) : Error + string :=
  let end0 := new_Date host endDate in
  let end1 :=
    setDate (zone host) end0
      (option_map (fun d => d + 1) (getDate (zone host) end0)) in
  match toISOString end1 with
  | inl e => inl e
  | inr iso => inr (split_head "T" iso)
  end.

(** The [if] of lines 111 and 115. *)
Definition selects (v : string) : bool :=
  truthy v && negb (String.eqb v "All").

(** Lines 91-122. *)
Definition applyFilters : Script unit :=
  startDate <- read (fun p => start_date (controls p)) ;;
  endDate <- read (fun p => end_date (controls p)) ;;
  categoryValue <- read (fun p => value (category_select (controls p))) ;;
  districtValue <- read (fun p => value (district_select (controls p))) ;;
  filtered <- read stories ;;
  let filtered :=
    if truthy startDate
    then List.filter (fun s => ge (pubDate s) startDate) filtered
    else filtered in
  filtered <-
    (if truthy endDate then
       next <- lift (isoNext endDate) ;;
       ret (List.filter (fun s => lt (pubDate s) next) filtered)
     else ret filtered) ;;
  let filtered :=
    if selects categoryValue
    then List.filter (fun s => strict_eq (category s) categoryValue) filtered
    else filtered in
  let filtered :=
    if selects districtValue
    then List.filter (fun s => strict_eq (district s) districtValue) filtered
    else filtered in
  write (with_filteredStories filtered) ;;
  write (with_currentPage 1) ;;
  current <- read currentPage ;;
  renderPage current.

(** Lines 63-67. *)
Definition itemsSelect_change : Script unit :=
  text <- read (fun p => value (items_per_page (controls p))) ;;
  write (with_itemsPerPage (num_or (parseInt text) 50)) ;;
  write (with_currentPage 1) ;;
  applyFilters.

(** Lines 70-77; [now] is the time value of [new Date()]. *)
Definition todayBtn_click (now : Z) : Script unit :=
  iso <- lift (toISOString (Some now)) ;;
  let todayStr := split_head "T" iso in
  all <- read stories ;;
  let todayStories :=
    List.filter (fun s => startsWith (pubDate s) todayStr) all in
  write (with_filteredStories (slice todayStories 0 50)) ;;
  write (with_itemsPerPage (Num 50)) ;;
  write (with_currentPage 1) ;;
  current <- read currentPage ;;
  renderPage current.

(** Lines 79-88. *)
Definition resetBtn_click : Script unit :=
  write (on_controls (with_start_date "")) ;;
  write (on_controls (with_end_date "")) ;;
  write (on_controls (fun c =>
    with_category_select (set_value "All" (category_select c)) c)) ;;
  write (on_controls (fun c =>
    with_district_select (set_value "All" (district_select c)) c)) ;;
  write (on_controls (fun c =>
    with_items_per_page (set_value "50" (items_per_page c)) c)) ;;
  write (with_itemsPerPage (Num 50)) ;;
  write (with_currentPage 1) ;;
  applyFilters.

(** Lines 180-183: the listener of the pagination button [i]. *)
Definition pageBtn_click (i : Z) : Script unit :=
  write (with_currentPage i) ;;
  current <- read currentPage ;;
  renderPage current.

(** Lines 37-57; the listeners it registers are the handlers above. *)
Definition initialiseFilters : Script unit :=
  all <- read stories ;;
  let districts := sort (unique [] (truthy_values (map district all))) in
  forEach districts (fun d =>
    write (on_controls (fun c =>
      with_district_select (appendOption d (district_select c)) c))) ;;
  write (on_controls (fun c =>
    with_items_per_page (set_value "50" (items_per_page c)) c)).

(** Lines 26-31, and 32-35 for the rejection. *)
Definition on_data (data : list Story) : Script unit :=
  write (with_stories data) ;;
  initialiseFilters ;;
  applyFilters.

Definition on_rejection (err : Error) : Script unit :=
  write (with_news_container
    (set_innerHTML ("<p>Error loading news: " ++ message_of err ++ "</p>"))).

(** The promise chain of lines 19-35: [response] is the parsed
    document, or the error that rejected the fetch.  [catch] also
    receives what the [then] callback throws. *)
Definition load (response : Error + list Story) (p : Page) : Page :=
  match response with
  | inl err => run (on_rejection err) p
  | inr data =>
      match on_data data p with
      | (inr _, p') => p'
      | (inl err, p') => run (on_rejection err) p'
      end
  end.

(** What the viewer does once the listeners are registered.  A change
    event carries the new text of its control. *)
Inductive Event :=
| ChangeStartDate (v : string)
| ChangeEndDate (v : string)
| ChangeCategory (v : string)
| ChangeDistrict (v : string)
| ChangeItemsPerPage (v : string)
| ClickToday (now : Z)
| ClickReset
| ClickPage (i : Z).

Definition fire (e : Event) : Script unit :=
  match e with
  | ChangeStartDate v =>
      write (on_controls (with_start_date v)) ;; applyFilters
  | ChangeEndDate v =>
      write (on_controls (with_end_date v)) ;; applyFilters
  | ChangeCategory v =>
      write (on_controls (fun c =>
        with_category_select (set_value v (category_select c)) c)) ;;
      applyFilters
  | ChangeDistrict v =>
      write (on_controls (fun c =>
        with_district_select (set_value v (district_select c)) c)) ;;
      applyFilters
  | ChangeItemsPerPage v =>
      write (on_controls (fun c =>
        with_items_per_page (set_value v (items_per_page c)) c)) ;;
      itemsSelect_change
  | ClickToday now => todayBtn_click now
  | ClickReset => resetBtn_click
  | ClickPage i =>
      shown <- read pagination ;;
      if existsb (fun b => btn_text b =? i) shown
      then pageBtn_click i
      else ret tt
  end.

Definition dispatch (e : Event) (p : Page) : Page := run (fire e) p.

End Script.

(** The page as the markup delivers it, before the data arrives: the
    closure variables of lines 13-16 and the controls of the document. *)
Definition initial (c : Controls) : Page :=
  {| stories := []; filteredStories := []; currentPage := 1;
     itemsPerPage := Num 50; controls := c;
     news_container := set_innerHTML ""; pagination := [] |}.

End Dashboard.

Import JS Dashboard.

(** ** What the functions compute, as pure descriptions

    The computations above, read off as functions of the page; the lemmas
    of the next part prove that the script computes them. *)

Section Descriptions.

Context (host : Host) (toLocaleString : string -> string).

(** The container after [render items]. *)
Definition shows (items : list Story) : Container :=
  match items with
  | [] => set_innerHTML no_match_notice
  | _ :: _ =>
      {| markup := EmptyString; cards := map (card_of toLocaleString) items |}
  end.

(** The buttons after [renderPagination]. *)
Definition page_links (totalPages current : Z) : list Button :=
  if totalPages <=? 1 then []
  else map (fun i => {| btn_text := i; btn_active := i =? current |})
           (count_from 1 (Z.to_nat totalPages)).

Definition totalPages (p : Page) : Z :=
  ceil_quotient (Z.of_nat (length (filteredStories p))) (itemsPerPage p).

(** The stories [renderPage page] passes to [render]. *)
Definition pageItems (p : Page) (page : Z) : list Story :=
  slice_at (filteredStories p) (times (page - 1) (itemsPerPage p))
           (plus (times (page - 1) (itemsPerPage p)) (itemsPerPage p)).

(** The page after [renderPage page]. *)
Definition painted (page : Z) (p : Page) : Page :=
  with_pagination (page_links (totalPages p) (currentPage p))
    (with_news_container (shows (pageItems p page)) p).

(** The bound of the end-date predicate: none for an empty control,
    otherwise the text [isoNext] computes, or its exception. *)
Definition end_bound (endDate : string) : Error + option string :=
  if truthy endDate then
    match isoNext host endDate with
    | inl e => inl e
    | inr next => inr (Some next)
    end
  else inr None.

(** The conjunction of the predicates that are switched on. *)
Definition passes (c : Controls) (bound : option string) (s : Story) : bool :=
  (if truthy (start_date c) then ge (pubDate s) (start_date c) else true)
  && match bound with
     | Some next => lt (pubDate s) next
     | None => true
     end
  && (if selects (value (category_select c))
      then strict_eq (category s) (value (category_select c)) else true)
  && (if selects (value (district_select c))
      then strict_eq (district s) (value (district_select c)) else true).

(** The page after a filter pass that found the bound [bound]. *)
Definition filtered_page (bound : option string) (p : Page) : Page :=
  painted 1
    (with_currentPage 1
      (with_filteredStories
        (List.filter (passes (controls p) bound) (stories p)) p)).

(** A property that is absent (missing or null) or empty. *)
Definition missing (v : Value) : Prop :=
  v = Undefined \/ v = Null \/ v = Text EmptyString.

(** The controls after Reset. *)
Definition cleared (c : Controls) : Controls :=
  {| start_date := EmptyString;
     end_date := EmptyString;
     category_select := set_value "All" (category_select c);
     district_select := set_value "All" (district_select c);
     items_per_page := set_value "50" (items_per_page c) |}.

(** The text [todayBtn]'s listener compares publication dates with. *)
Definition todayStr (now : Z) : string :=
  match toISOString (Some now) with
  | inr iso => split_head "T" iso
  | inl _ => EmptyString
  end.

(** The page shows a contiguous run of the filtered stories. *)
Definition shows_slice (p : Page) : Prop :=
  exists before items after,
    filteredStories p = (before ++ items ++ after)%list
    /\ cards (news_container p) = map (card_of toLocaleString) items.

(** The page shows the first page of its filtered collection. *)
Definition shows_first_page (p : Page) : Prop :=
  currentPage p = 1
  /\ news_container p = shows (pageItems p 1)
  /\ pagination p = page_links (totalPages p) 1.

(** The collection a response loads. *)
Definition loaded (response : Error + list Story) : list Story :=
  match response with
  | inr data => data
  | inl _ => []
  end.

(** The events that re-filter or change the page size: all but a click
    on a pagination button. *)
Definition refilters (e : Event) : bool :=
  match e with
  | ClickPage _ => false
  | _ => true
  end.

(** Today's calendar date on the viewer's local clock, the date the
    specification names for the Today shortcut. *)
Definition local_today (now : Z) : string := iso_date (LocalTime (zone host) now).

(** Every code unit of a string satisfies [f]. *)
Fixpoint every (f : ascii -> bool) (s : string) : bool :=
  match s with
  | EmptyString => true
  | String c r => f c && every f r
  end.

(** The code units of a date text: digits and the two signs. *)
Definition date_unit (c : ascii) : bool :=
  match digit_value c with
  | Some _ => true
  | None => Ascii.eqb c "-" || Ascii.eqb c "+"
  end.

(** The date after [y]-[m]-[d] in the calendar. *)
Definition next_civil (y m d : Z) : Z * Z * Z :=
  if d <? days_in_month y m then (y, m, d + 1)
  else if m <? 12 then (y, m + 1, 1)
  else (y + 1, 1, 1).

(** The pages of a session: the data arrives, then the viewer acts. *)
Definition session (c : Controls) (response : Error + list Story)
    (events : list Event) : Page :=
  fold_left (fun p e => dispatch host toLocaleString e p) events
    (load host toLocaleString response (initial c)).

End Descriptions.

(** ** The fetch of the data *)

(** What [fetch] resolves with: the [ok] flag of the response and what
    [response.json()] settles with. *)
Record Response := {
  ok : bool;
  json : Error + list Story
}.

(** Lines 19-25: the first [then] of the promise chain.  [fetched] is the
    response, or the error the fetch was rejected with; the result is the
    document the second callback receives, or the error [catch]
    receives. *)
Definition first_then (fetched : Error + Response) : Error + list Story :=
  match fetched with
  | inl err => inl err
  | inr response =>
      if negb (ok response)
      then inl (PlainError "Failed to load news data")
      else json response
  end.

(** The text [catch] writes for an error. *)
Definition error_notice (err : Error) : string :=
  "<p>Error loading news: " ++ message_of err ++ "</p>".

(** No digit at the head of a text. *)
Definition no_leading_digit (s : string) : Prop :=
  match s with
  | EmptyString => True
  | String c _ => digit_value c = None
  end.

(** ** The district chosen after the set-up *)

(** The value of a drop-down after the options [added] are appended to
    it, one by one: the value it had when that is the value of one of
    its options or nothing is appended; otherwise none was selected, and
    the first option of the new list is. *)
Definition value_after (s : Select) (added : list string) : string :=
  match added with
  | [] => value s
  | first :: _ =>
      if has_option (value s) s then value s else hd first (options s)
  end.

(** ** The page on show *)

(** The page shows what its variables say: the container holds the slice
    of the page [currentPage], the buttons are those of [totalPages] with
    [currentPage] marked, and [currentPage] is one of the pages. *)
Definition in_step (toLocaleString : string -> string) (p : Page) : Prop :=
  news_container p = shows toLocaleString (pageItems p (currentPage p))
  /\ pagination p = page_links (totalPages p) (currentPage p)
  /\ 1 <= currentPage p <= Z.max 1 (totalPages p).

(** Every listener of a run of events returns: none of them throws. *)
Fixpoint all_complete (host : Host) (toLocaleString : string -> string)
    (events : list Event) (p : Page) : Prop :=
  match events with
  | [] => True
  | e :: rest =>
      completes (fire host toLocaleString e) p
      /\ all_complete host toLocaleString rest
           (dispatch host toLocaleString e p)
  end.

(** The events whose listener ends in a filter pass over the controls as
    the event leaves them. *)
Definition changes_control (e : Event) : bool :=
  match e with
  | ChangeStartDate _ | ChangeEndDate _ | ChangeCategory _
  | ChangeDistrict _ | ChangeItemsPerPage _ => true
  | _ => false
  end.

(** ** Sample data *)

Definition story (date : string) (where_ what : Value) : Story :=
  {| title := "Headline"; link := "https://example.org/story";
     pubDate := date; source := "Dainik Bhaskar";
     district := where_; category := what; summary := "Summary." |}.

(** The [n]th of a run of stories, told apart by their titles. *)
Definition numbered (n : nat) : Story :=
  {| title := pad 3 (Z.of_nat n); link := "https://example.org/story";
     pubDate := "2024-05-02T09:00:00"; source := "Yugmarg";
     district := Text "Lucknow"; category := Text "NDA Activity";
     summary := "Summary." |}.

(** Controls as a document would deliver them: no dates, every select on
    its first option. *)
Definition plain_controls : Controls :=
  {| start_date := EmptyString;
     end_date := EmptyString;
     category_select :=
       {| options := ["All"; "Opposition Activity"; "NDA Activity";
                      "Governance issues"; "Judicial cases"];
          value := "All" |};
     district_select := {| options := ["All"]; value := "All" |};
     items_per_page := {| options := ["25"; "50"; "100"]; value := "50" |} |}.

Definition choose (startDate endDate cat dist : string) : Controls :=
  {| start_date := startDate;
     end_date := endDate;
     category_select :=
       {| options := options (category_select plain_controls); value := cat |};
     district_select := {| options := ["All"; "Agra"; "Lucknow"]; value := dist |};
     items_per_page := items_per_page plain_controls |}.

Definition page_of (c : Controls) (all shown : list Story) : Page :=
  {| stories := all; filteredStories := shown; currentPage := 1;
     itemsPerPage := Num 50; controls := c;
     news_container := set_innerHTML EmptyString; pagination := [] |}.

(** A host that reads no other text as a date. *)
Definition strict_host (tz : TimeZone) : Host :=
  {| zone := tz; parse_other := fun _ => None |}.

(** Indian Standard Time: UTC+05:30 all year. *)
Definition india : Host := strict_host (fixed_zone 19800000).

(** New York in 2024: UTC-05:00, and UTC-04:00 from 10 March 07:00 UTC to
    3 November 06:00 UTC; in local time, from 02:00 on 10 March to 02:00 on
    3 November. *)
Definition new_york_2024 : Host :=
  strict_host
    {| offset_at_utc := fun t =>
         if (1710054000000 <=? t) && (t <? 1730613600000)
         then -14400000 else -18000000;
       offset_at_local := fun t =>
         if (1710036000000 <=? t) && (t <? 1730599200000)
         then -14400000 else -18000000 |}.

(** Two stories a day apart, and an instant at which the date of the
    Indian clock, 2 May 2024 01:00, is a day ahead of the date in UTC,
    1 May 2024 19:30. *)
Definition first_of_may : Story :=
  story "2024-05-01T09:00" (Text "Lucknow") (Text "NDA Activity").
Definition second_of_may : Story :=
  story "2024-05-02T09:00" (Text "Lucknow") (Text "NDA Activity").
Definition after_midnight_in_india : Z := 1714591800000.

(** A story of the day the clocks of New York went forward. *)
Definition tenth_of_march : Story :=
  story "2024-03-10T09:00:00" (Text "Lucknow") (Text "Governance issues").

(** Stories with the category or the district missing or empty. *)
Definition unlabelled : Story := story "2024-05-02T09:00" Undefined Undefined.
Definition blank_labels : Story :=
  story "2024-05-02T09:00" (Text EmptyString) (Text EmptyString).

(** 125 stories, all of them filtered in. *)
Definition long_page : Page :=
  page_of plain_controls (map numbered (seq 0 125)) (map numbered (seq 0 125)).

(** Stories of two categories and two districts, and a page on which
    "Governance issues" and "Lucknow" are chosen. *)
Definition governance_lucknow : Story :=
  story "2024-05-01T08:00" (Text "Lucknow") (Text "Governance issues").
Definition governance_agra : Story :=
  story "2024-05-01T10:00" (Text "Agra") (Text "Governance issues").
Definition judicial_lucknow : Story :=
  story "2024-05-02T11:00" (Text "Lucknow") (Text "Judicial cases").

Definition mixed_stories : list Story :=
  [governance_lucknow; governance_agra; judicial_lucknow; unlabelled].

Definition governance_in_lucknow : Page :=
  page_of (choose "" "" "Governance issues" "Lucknow") mixed_stories [].

(** A page whose start date is 2 May 2024. *)
Definition from_second_of_may : Page :=
  page_of (choose "2024-05-02" "" "All" "All") [first_of_may; second_of_may] [].

(** A page whose end date is 10 March 2024. *)
Definition until_tenth_of_march : Page :=
  page_of (choose "" "2024-03-10" "All" "All") [tenth_of_march] [].

(** A locale that shows a publication date as it is written. *)
Definition as_written (date : string) : string := date.

(** A response the server refused, with no document in it. *)
Definition not_found : Response :=
  {| ok := false; json := inl (PlainError "Unexpected end of JSON input") |}.

(** The first page of [long_page] on show, with its three buttons. *)
Definition long_page_shown : Page := run (renderPage as_written 1) long_page.

(** [long_page] with 25 chosen in the items select. *)
Definition twenty_five_chosen : Page :=
  on_controls
    (with_items_per_page (set_value "25" (items_per_page plain_controls)))
    long_page.

(** A page on which a category without stories is chosen. *)
Definition opposition_only : Page :=
  page_of (choose "" "" "Opposition Activity" "All") mixed_stories [].

(** Controls whose district select has no option in the markup. *)
Definition no_district_options : Controls :=
  with_district_select {| options := []; value := EmptyString |}
    plain_controls.

(** A page whose end date is no date. *)
Definition end_date_misread : Page :=
  page_of (choose "" "tomorrow" "All" "All") mixed_stories mixed_stories.

(** The page [governance_in_lucknow] after other use: every story on
    show, on the third page. *)
Definition governance_in_lucknow_used : Page :=
  with_currentPage 3 (with_filteredStories mixed_stories governance_in_lucknow).

(** A visit: 25 stories a page, the third page, a button that is not
    there, then a category. *)
Definition a_visit : list Event :=
  [ChangeItemsPerPage "25"; ClickPage 3; ClickPage 9;
   ChangeCategory "NDA Activity"].


(** [long_page] with an items select that offers a size one above 2^53,
    and one that offers 2^1024, of 309 digits. *)
Definition beyond_exact_chosen : Page :=
  on_controls
    (with_items_per_page
       {| options := ["9007199254740993"]; value := "9007199254740993" |})
    long_page.

Definition endless_chosen : Page :=
  on_controls
    (with_items_per_page
       {| options := [pad 309 (2 ^ 1024)]; value := pad 309 (2 ^ 1024) |})
    long_page.

(** [long_page] at a page size of -5. *)
Definition minus_five_a_page : Page :=
  with_itemsPerPage (Num (-5)) long_page.

(** ** The script computes the descriptions *)

Section Runs.

Context (host : Host) (toLocaleString : string -> string).

Abbreviation card_of := (card_of toLocaleString).
Abbreviation render := (render toLocaleString).
Abbreviation renderPage := (renderPage toLocaleString).
Abbreviation applyFilters := (applyFilters host toLocaleString).

Lemma with_news_container_same (p : Page) :
  with_news_container (news_container p) p = p.
Proof. destruct p; reflexivity. Qed.

Lemma forEach_appendChild (items : list Story) (p : Page) :
  forEach items (fun item =>
      write (fun q =>
        with_news_container (appendChild (card_of item) (news_container q)) q))
    p
  = (inr tt,
     with_news_container
       {| markup := markup (news_container p);
          cards := cards (news_container p) ++ map card_of items |} p).
Proof.
  revert p. induction items as [|item items IH]; intros p.
  - cbn. rewrite app_nil_r. destruct p as [? ? ? ? ? [? ?] ?]. reflexivity.
  - cbn [forEach]. unfold bind at 1. unfold write at 1. rewrite IH.
    destruct p as [? ? ? ? ? [? ?] ?]. cbn.
    rewrite <- app_assoc. reflexivity.
Qed.

Lemma render_runs (items : list Story) (p : Page) :
  render items p = (inr tt, with_news_container (shows toLocaleString items) p).
Proof.
  unfold Dashboard.render. destruct items as [|item items].
  - reflexivity.
  - unfold bind at 1. unfold write at 1.
    replace (Z.of_nat (length (item :: items)) =? 0) with false
      by (symmetry; apply Z.eqb_neq; cbn [length]; lia).
    rewrite forEach_appendChild. destruct p; reflexivity.
Qed.

Lemma forEach_append_button (l : list Z) (p : Page) :
  forEach l (fun i =>
      current <- read currentPage ;;
      write (fun q =>
        with_pagination
          (pagination q ++ [{| btn_text := i; btn_active := i =? current |}])
          q))
    p
  = (inr tt,
     with_pagination
       (pagination p
          ++ map (fun i => {| btn_text := i; btn_active := i =? currentPage p |}) l)
       p).
Proof.
  revert p. induction l as [|i l IH]; intros p.
  - cbn. rewrite app_nil_r. destruct p; reflexivity.
  - cbn [forEach]. unfold bind at 1. unfold bind at 1, read at 1, write at 1.
    rewrite IH. destruct p; cbn. rewrite <- app_assoc. reflexivity.
Qed.

Lemma renderPagination_runs (p : Page) :
  renderPagination p
  = (inr tt, with_pagination (page_links (totalPages p) (currentPage p)) p).
Proof.
  unfold renderPagination, page_links, totalPages.
  unfold bind at 1, write at 1. unfold bind at 1, read at 1.
  unfold bind at 1, read at 1. cbn [filteredStories itemsPerPage with_pagination].
  destruct (_ <=? 1).
  - destruct p; reflexivity.
  - rewrite forEach_append_button. destruct p; reflexivity.
Qed.

Lemma renderPage_runs (page : Z) (p : Page) :
  renderPage page p = (inr tt, painted toLocaleString page p).
Proof.
  unfold Dashboard.renderPage, painted, pageItems.
  unfold bind at 1, read at 1. unfold bind at 1, read at 1.
  unfold bind at 1. rewrite render_runs, renderPagination_runs.
  destruct p; reflexivity.
Qed.

Lemma filter_all {A} (l : list A) : List.filter (fun _ => true) l = l.
Proof. induction l as [|x l IH]; cbn; [reflexivity | now rewrite IH]. Qed.

Lemma filter_when {A} (b : bool) (f : A -> bool) (l : list A) :
  (if b then List.filter f l else l)
  = List.filter (fun x => if b then f x else true) l.
Proof. destruct b; [reflexivity | now rewrite filter_all]. Qed.

Lemma filter_twice {A} (f g : A -> bool) (l : list A) :
  List.filter f (List.filter g l) = List.filter (fun x => g x && f x) l.
Proof.
  induction l as [|x l IH]; cbn; [reflexivity|].
  destruct (g x); cbn; [destruct (f x)|]; now rewrite IH.
Qed.

(** The four conditional filters of lines 100-117 keep the stories that
    pass every predicate switched on. *)
Lemma cascade_passes (c : Controls) (bound : option string) (l : list Story) :
  (let l0 :=
     if truthy (start_date c)
     then List.filter (fun s => ge (pubDate s) (start_date c)) l else l in
   let l1 :=
     match bound with
     | Some next => List.filter (fun s => lt (pubDate s) next) l0
     | None => l0
     end in
   let l2 :=
     if selects (value (category_select c))
     then List.filter
            (fun s => strict_eq (category s) (value (category_select c))) l1
     else l1 in
   if selects (value (district_select c))
   then List.filter
          (fun s => strict_eq (district s) (value (district_select c))) l2
   else l2)
  = List.filter (passes c bound) l.
Proof.
  cbv zeta. rewrite !filter_when.
  destruct bound as [next|]; rewrite !filter_twice;
    apply List.filter_ext; intros s; unfold passes;
    rewrite ?andb_true_r, ?andb_assoc; reflexivity.
Qed.

Lemma applyFilters_runs (p : Page) :
  applyFilters p
  = match end_bound host (end_date (controls p)) with
    | inl e => (inl e, p)
    | inr bound => (inr tt, filtered_page toLocaleString bound p)
    end.
Proof.
  unfold end_bound, filtered_page.
  cbv beta iota zeta delta [Dashboard.applyFilters bind read write lift ret].
  destruct (truthy (end_date (controls p))).
  - destruct (isoNext host (end_date (controls p))) as [e|next];
      [reflexivity|].
    rewrite <- cascade_passes.
    cbn [currentPage with_currentPage]. now rewrite renderPage_runs.
  - rewrite <- cascade_passes.
    cbn [currentPage with_currentPage]. now rewrite renderPage_runs.
Qed.

Lemma itemsSelect_change_runs (p : Page) :
  itemsSelect_change host toLocaleString p
  = applyFilters
      (with_currentPage 1
        (with_itemsPerPage
          (num_or (parseInt (value (items_per_page (controls p)))) 50) p)).
Proof. reflexivity. Qed.

Lemma todayBtn_click_runs (now : Z) (p : Page) :
  todayBtn_click toLocaleString now p
  = (inr tt,
     painted toLocaleString 1
       (with_currentPage 1
         (with_itemsPerPage (Num 50)
           (with_filteredStories
             (slice
               (List.filter (fun s => startsWith (pubDate s) (todayStr now))
                            (stories p))
               0 50)
             p)))).
Proof.
  cbv beta iota zeta delta [todayBtn_click bind read write lift ret
                            toISOString todayStr].
  cbn [currentPage with_currentPage]. now rewrite renderPage_runs.
Qed.

Lemma resetBtn_click_runs (p : Page) :
  resetBtn_click host toLocaleString p
  = applyFilters
      (with_currentPage 1
        (with_itemsPerPage (Num 50) (with_controls (cleared (controls p)) p))).
Proof. destruct p; reflexivity. Qed.

Lemma pageBtn_click_runs (i : Z) (p : Page) :
  pageBtn_click toLocaleString i p
  = (inr tt, painted toLocaleString i (with_currentPage i p)).
Proof.
  cbv beta iota zeta delta [pageBtn_click bind read write].
  cbn [currentPage with_currentPage]. now rewrite renderPage_runs.
Qed.

End Runs.

(** ** Arrays: what [slice] returns *)

Section Slices.

Context {A : Type}.

Lemma slice_forward (a : list A) (start end_ : Z) :
  0 <= start <= end_ ->
  slice a start end_ = take (Z.to_nat (end_ - start)) (drop (Z.to_nat start) a).
Proof.
  intros H. unfold slice, clamp_index.
  destruct (Z.ltb_spec start 0) as [?|_]; [lia|].
  destruct (Z.ltb_spec end_ 0) as [?|_]; [lia|].
  destruct (Z.le_gt_cases (Z.of_nat (length a)) start) as [Hs|Hs].
  - rewrite !drop_ge by lia. now rewrite !take_nil.
  - rewrite (Z.min_l start) by lia.
    destruct (Z.le_gt_cases end_ (Z.of_nat (length a))) as [He|He].
    + now rewrite Z.min_l by lia.
    + rewrite Z.min_r by lia.
      rewrite !take_ge; [reflexivity | |]; rewrite length_drop; lia.
Qed.

Lemma slice_first (a : list A) (n : Z) :
  0 <= n -> slice a 0 n = take (Z.to_nat n) a.
Proof.
  intros H. rewrite slice_forward by lia.
  now rewrite Z.sub_0_r.
Qed.

(** Whatever the indices, a slice is a contiguous run of the array. *)
Lemma slice_infix (a : list A) (start end_ : Z) :
  exists before after, a = (before ++ slice a start end_ ++ after)%list.
Proof.
  unfold slice.
  set (k := Z.to_nat (clamp_index _ start)).
  set (n := Z.to_nat (_ - _)).
  exists (take k a), (drop n (drop k a)).
  now rewrite take_drop, take_drop.
Qed.

Lemma slice_sublist (a : list A) (start end_ : Z) :
  sublist (slice a start end_) a.
Proof.
  unfold slice. etransitivity; [apply sublist_take | apply sublist_drop].
Qed.

Lemma filter_sublist (f : A -> bool) (a : list A) :
  sublist (List.filter f a) a.
Proof.
  induction a as [|x a IH]; cbn; [constructor|].
  destruct (f x); now constructor.
Qed.

End Slices.

(** ** Dates: the text of a date *)

Lemma append_assoc3 (a b c : string) : (a ++ b) ++ c = a ++ (b ++ c).
Proof. induction a as [|x a IH]; cbn; [reflexivity | now rewrite IH]. Qed.

Lemma every_app (f : ascii -> bool) (a b : string) :
  every f (a ++ b) = every f a && every f b.
Proof.
  induction a as [|c a IH]; cbn; [reflexivity|].
  now rewrite IH, andb_assoc.
Qed.

Lemma digit_unit_date (n : Z) : date_unit (digit_unit n) = true.
Proof.
  unfold digit_unit.
  pose proof (Z.mod_pos_bound n 10 eq_refl) as H.
  assert (Hk : n mod 10 = 0 \/ n mod 10 = 1 \/ n mod 10 = 2 \/ n mod 10 = 3
               \/ n mod 10 = 4 \/ n mod 10 = 5 \/ n mod 10 = 6
               \/ n mod 10 = 7 \/ n mod 10 = 8 \/ n mod 10 = 9) by lia.
  repeat (destruct Hk as [Hk|Hk]; [rewrite Hk; reflexivity|]).
  rewrite Hk; reflexivity.
Qed.

Lemma pad_date (w : nat) (n : Z) : every date_unit (pad w n) = true.
Proof.
  revert n. induction w as [|w IH]; intros n; cbn [pad]; [reflexivity|].
  rewrite every_app, IH. cbn. now rewrite digit_unit_date.
Qed.

Lemma iso_date_units (t : Z) : every date_unit (iso_date t) = true.
Proof.
  unfold iso_date. destruct (civil_from_days (Day t)) as [[y m] d].
  rewrite !every_app, !pad_date. cbn [every andb].
  replace (date_unit "-") with true by reflexivity. cbn [andb].
  unfold iso_year. destruct ((0 <=? y) && (y <=? 9999)).
  - now rewrite pad_date.
  - rewrite every_app, pad_date. now destruct (y <? 0).
Qed.

Lemma date_unit_not_T (c : ascii) :
  date_unit c = true -> Ascii.eqb c "T" = false.
Proof.
  intros H. destruct (Ascii.eqb_spec c "T") as [->|]; [|reflexivity].
  discriminate H.
Qed.

Lemma split_head_date (a b : string) :
  every date_unit a = true -> split_head "T" (a ++ String "T" b) = a.
Proof.
  induction a as [|c a IH]; cbn; [reflexivity|].
  intros H. apply andb_true_iff in H as [Hc Ha].
  now rewrite (date_unit_not_T c Hc), IH.
Qed.

(** The text the listener compares with is the UTC calendar date of the
    clock. *)
Lemma todayStr_utc_date (now : Z) : todayStr now = iso_date now.
Proof.
  unfold todayStr, toISOString. apply split_head_date, iso_date_units.
Qed.

(** ** Dates: the day after the end date *)

Section Dates.

(** The day number of the civil date of a day number is that day number:
    distinct days have distinct dates. *)
Lemma civil_from_days_inverse (z : Z) :
  match civil_from_days z with
  | (y, m, d) => days_from_civil y m d = z /\ 1 <= m <= 12
  end.
Proof.
  unfold civil_from_days.
  set (z' := z + 719468).
  set (era := z' / 146097).
  set (doe := z' - era * 146097).
  set (yoe := (doe - doe / 1460 + doe / 36524 - doe / 146096) / 365).
  set (doy := doe - (365 * yoe + yoe / 4 - yoe / 100)).
  set (mp := (5 * doy + 2) / 153).
  assert (Hdoe : 0 <= doe <= 146096)
    by (subst doe era; Z.div_mod_to_equations; lia).
  assert (Hyoe : 0 <= yoe <= 399) by (subst yoe; Z.div_mod_to_equations; lia).
  assert (Hdoy : 0 <= doy <= 365)
    by (subst doy yoe; Z.div_mod_to_equations; lia).
  assert (Hmp : 0 <= mp <= 11) by (subst mp; Z.div_mod_to_equations; lia).
  assert (Hera : (yoe + era * 400) / 400 = era)
    by (Z.div_mod_to_equations; lia).
  unfold days_from_civil.
  destruct (Z.ltb_spec mp 10) as [E1|E1].
  - destruct (Z.leb_spec (mp + 3) 2) as [E2|E2]; [lia|].
    destruct (Z.ltb_spec 2 (mp + 3)) as [E3|E3]; [|lia].
    rewrite Hera. split; [|lia].
    replace (mp + 3 - 3) with mp by lia.
    replace (yoe + era * 400 - era * 400) with yoe by lia.
    subst doy doe z'. lia.
  - destruct (Z.leb_spec (mp - 9) 2) as [E2|E2]; [|lia].
    destruct (Z.ltb_spec 2 (mp - 9)) as [E3|E3]; [lia|].
    replace (yoe + era * 400 + 1 - 1) with (yoe + era * 400) by lia.
    rewrite Hera. split; [|lia].
    replace (mp - 9 + 9) with mp by lia.
    replace (yoe + era * 400 - era * 400) with yoe by lia.
    subst doy doe z'. lia.
Qed.

(** The day of the month after that of [t], in the year and month of [t],
    is the next day. *)
Lemma MakeDay_next_date (t : Z) :
  MakeDay (YearFromTime t) (MonthFromTime t) (DateFromTime t + 1) = Day t + 1.
Proof.
  unfold MakeDay, YearFromTime, MonthFromTime, DateFromTime.
  pose proof (civil_from_days_inverse (Day t)) as H.
  destruct (civil_from_days (Day t)) as [[y m] d]. cbn [fst snd].
  destruct H as [H Hm].
  replace ((m - 1) / 12) with 0 by (Z.div_mod_to_equations; lia).
  replace ((m - 1) mod 12 + 1) with m by (Z.div_mod_to_equations; lia).
  rewrite Z.add_0_r, <- H. unfold days_from_civil. lia.
Qed.

(** [end.setDate(end.getDate() + 1)] moves the local clock a day on and
    reads the result back with the offset in force then. *)
Lemma setDate_next_day (tz : TimeZone) (t : Z) :
  setDate tz (Some t) (option_map (fun d => d + 1) (getDate tz (Some t)))
  = TimeClip (UTC tz (LocalTime tz t + msPerDay)).
Proof.
  cbn [getDate option_map setDate]. rewrite MakeDay_next_date.
  do 2 f_equal. unfold MakeDate, Day, TimeWithinDay, msPerDay.
  Z.div_mod_to_equations. lia.
Qed.

(** The instant whose date [isoNext] returns: a day after midnight UTC of
    the end date, moved by the change of the offset over that day. *)
Lemma isoNext_instant (host : Host) (endDate : string) (t : Z) :
  new_Date host endDate = Some t ->
  isoNext host endDate
  = match TimeClip (UTC (zone host) (LocalTime (zone host) t + msPerDay)) with
    | Some u => inr (iso_date u)
    | None => inl (RangeError "Invalid time value")
    end.
Proof.
  intros H. unfold isoNext. rewrite H, setDate_next_day.
  destruct (TimeClip _) as [u|]; [|reflexivity].
  cbn [toISOString]. f_equal. apply split_head_date, iso_date_units.
Qed.

Lemma take_digits_range (n : nat) (acc : Z) (s : string) (v : Z) (r : string) :
  take_digits n acc s = Some (v, r) ->
  acc * 10 ^ Z.of_nat n <= v < (acc + 1) * 10 ^ Z.of_nat n.
Proof.
  revert acc s. induction n as [|n IH]; intros acc s H.
  - cbn in H. injection H as <- _. cbn. lia.
  - cbn [take_digits] in H. destruct s as [|c s]; [discriminate|].
    destruct (digit_value c) as [d|] eqn:Hd; [|discriminate].
    assert (0 <= d <= 9).
    { unfold digit_value in Hd.
      destruct ((48 <=? N_of_ascii c)%N && (N_of_ascii c <=? 57)%N) eqn:E;
        [|discriminate].
      injection Hd as <-. apply andb_true_iff in E as [E1 E2].
      apply N.leb_le in E1, E2. lia. }
    apply IH in H. rewrite Nat2Z.inj_succ, Z.pow_succ_r by lia. nia.
Qed.

(** A date of the form [YYYY-MM-DD] lies between 0000-01-01 and
    9999-12-31. *)
Lemma parse_date_range (s : string) (t : Z) :
  parse_date s = Some t -> -62167219200000 <= t <= 253402214400000.
Proof.
  unfold parse_date. intros H.
  destruct (take_digits 4 0 s) as [[y [|c1 s1]]|] eqn:Hy; try discriminate.
  destruct (Ascii.eqb_spec c1 "-") as [->|Hc]; cycle 1.
  { destruct c1 as [[] [] [] [] [] [] [] []]; try discriminate;
      now contradiction Hc. }
  destruct (take_digits 2 0 s1) as [[m [|c2 s2]]|] eqn:Hm; try discriminate.
  destruct (Ascii.eqb_spec c2 "-") as [->|Hc]; cycle 1.
  { destruct c2 as [[] [] [] [] [] [] [] []]; try discriminate;
      now contradiction Hc. }
  destruct (take_digits 2 0 s2) as [[d [|c3 s3]]|] eqn:Hd; try discriminate.
  destruct ((1 <=? m) && (m <=? 12) && (1 <=? d) && (d <=? days_in_month y m))
    eqn:E; [|discriminate].
  injection H as <-.
  apply take_digits_range in Hy, Hm, Hd.
  apply andb_true_iff in E as [E E4]. apply andb_true_iff in E as [E E3].
  apply andb_true_iff in E as [E1 E2].
  apply Z.leb_le in E1, E2, E3, E4.
  assert (days_in_month y m <= 31).
  { unfold days_in_month. repeat destruct (_ =? _); cbn; try lia.
    destruct (is_leap y); lia. }
  change (10 ^ Z.of_nat 4) with 10000 in Hy.
  unfold days_from_civil, msPerDay.
  destruct (Z.leb_spec m 2); destruct (Z.ltb_spec 2 m); try lia;
    Z.div_mod_to_equations; lia.
Qed.

(** Where the offset does not change, the bound is the date of the
    instant one day after the end date. *)
Lemma isoNext_fixed_zone (host : Host) (offset : Z) (endDate : string) (t : Z) :
  zone host = fixed_zone offset ->
  parse_date endDate = Some t ->
  isoNext host endDate = inr (iso_date (t + msPerDay)).
Proof.
  intros Hz Ht.
  rewrite (isoNext_instant host endDate t) by (unfold new_Date; now rewrite Ht).
  rewrite Hz. unfold UTC, LocalTime, fixed_zone; cbn [offset_at_utc offset_at_local].
  replace (t + offset + msPerDay - offset) with (t + msPerDay) by lia.
  apply parse_date_range in Ht. unfold TimeClip, msPerDay.
  destruct (Z.leb_spec (Z.abs (t + 86400000)) 8640000000000000); [reflexivity|lia].
Qed.

(** The year of the era is recovered from the day of the era. *)
Lemma year_of_era_recovered (yoe doy : Z) :
  0 <= yoe <= 399 ->
  0 <= doy <= 364
             + (if ((yoe + 1) mod 4 =? 0)
                   && (negb ((yoe + 1) mod 100 =? 0)
                       || ((yoe + 1) mod 400 =? 0))
                then 1 else 0) ->
  let doe := yoe * 365 + yoe / 4 - yoe / 100 + doy in
  (doe - doe / 1460 + doe / 36524 - doe / 146096) / 365 = yoe.
Proof.
  intros Hy Hd doe. subst doe.
  destruct ((yoe + 1) mod 4 =? 0) eqn:E4;
  destruct ((yoe + 1) mod 100 =? 0) eqn:E100;
  destruct ((yoe + 1) mod 400 =? 0) eqn:E400; cbn in Hd;
  rewrite ?Z.eqb_eq, ?Z.eqb_neq in *;
  Z.div_mod_to_equations; lia.
Qed.

(** The civil date of the day number of a date is that date. *)
Lemma civil_from_days_of_date (y m d : Z) :
  1 <= m <= 12 ->
  1 <= d <= days_in_month y m ->
  civil_from_days (days_from_civil y m d) = (y, m, d).
Proof.
  intros Hm Hd.
  unfold days_from_civil.
  set (y' := if m <=? 2 then y - 1 else y).
  set (era := y' / 400).
  set (yoe := y' - era * 400).
  set (mp := if 2 <? m then m - 3 else m + 9).
  set (doy := (153 * mp + 2) / 5 + d - 1).
  set (doe := yoe * 365 + yoe / 4 - yoe / 100 + doy).
  assert (Hyoe : 0 <= yoe <= 399)
    by (subst yoe era; Z.div_mod_to_equations; lia).
  assert (Hy : y = y' + (if m <=? 2 then 1 else 0))
    by (subst y'; destruct (m <=? 2); lia).
  assert (Hmp : 0 <= mp <= 11 /\ m = if mp <? 10 then mp + 3 else mp - 9).
  { subst mp. destruct (Z.ltb_spec 2 m).
    - destruct (Z.ltb_spec (m - 3) 10); lia.
    - destruct (Z.ltb_spec (m + 9) 10); lia. }
  destruct Hmp as [Hmp Hmm].
  assert (Hdoy : 0 <= doy <= 364
                 + (if ((yoe + 1) mod 4 =? 0)
                       && (negb ((yoe + 1) mod 100 =? 0)
                           || ((yoe + 1) mod 400 =? 0))
                    then 1 else 0)
                 /\ (5 * doy + 2) / 153 = mp).
  { assert (Hcases : m = 1 \/ m = 2 \/ m = 3 \/ m = 4 \/ m = 5 \/ m = 6 \/ m = 7
                     \/ m = 8 \/ m = 9 \/ m = 10 \/ m = 11 \/ m = 12) by lia.
    unfold days_in_month, is_leap in Hd.
    assert (Hleap : y mod 4 = (yoe + 1) mod 4 /\ y mod 100 = (yoe + 1) mod 100
                    /\ y mod 400 = (yoe + 1) mod 400 \/ 2 < m).
    { destruct (Z.leb_spec m 2); [left|right; lia].
      subst yoe era. rewrite Hy. Z.div_mod_to_equations. lia. }
    subst doy mp.
    repeat (destruct Hcases as [->|Hcases]); try subst m;
      cbn in Hd |- *;
      (destruct Hleap as [(L4 & L100 & L400)|Hl]; [try rewrite L4, L100, L400 in Hd|try lia]);
      repeat match goal with
             | H : context [if ?b then _ else _] |- _ => destruct b eqn:?
             | |- context [if ?b then _ else _] => destruct b eqn:?
             end;
      cbn in *; try discriminate; split; try lia;
      Z.div_mod_to_equations; lia. }
  destruct Hdoy as [Hdoy Hmp'].
  pose proof (year_of_era_recovered yoe doy Hyoe Hdoy) as HK. cbv zeta in HK. fold doe in HK.
  assert (Hdoe : 0 <= doe <= 146096).
  { assert (doy <= 365)
      by (match type of Hdoy with
          | context [if ?b then _ else _] => destruct b
          end; lia).
    subst doe. clear HK. Z.div_mod_to_equations. lia. }
  unfold civil_from_days.
  replace (era * 146097 + doe - 719468 + 719468) with (era * 146097 + doe)
    by lia.
  replace ((era * 146097 + doe) / 146097) with era
    by (Z.div_mod_to_equations; lia).
  replace (era * 146097 + doe - era * 146097) with doe by lia.
  rewrite HK.
  replace (doe - (365 * yoe + yoe / 4 - yoe / 100)) with doy
    by (subst doe; lia).
  rewrite Hmp', <- Hmm.
  replace (doy - (153 * mp + 2) / 5 + 1) with d by (subst doy; lia).
  f_equal. f_equal. subst yoe. rewrite Hy. destruct (m <=? 2); lia.
Qed.

Lemma days_in_month_range (y m : Z) : 28 <= days_in_month y m <= 31.
Proof.
  unfold days_in_month.
  destruct (m =? 2); [destruct (is_leap y); lia|].
  destruct ((m =? 4) || (m =? 6) || (m =? 9) || (m =? 11)); lia.
Qed.

(** The next date of the calendar is the date of the next day number. *)
Lemma days_from_civil_next (y m d : Z) :
  1 <= m <= 12 ->
  1 <= d <= days_in_month y m ->
  match next_civil y m d with
  | (y2, m2, d2) =>
      days_from_civil y2 m2 d2 = days_from_civil y m d + 1
      /\ 1 <= m2 <= 12 /\ 1 <= d2 <= days_in_month y2 m2
  end.
Proof.
  intros Hm Hd. unfold next_civil.
  destruct (Z.ltb_spec d (days_in_month y m)) as [H1|H1].
  - split; [|lia]. unfold days_from_civil. lia.
  - assert (Hdim : d = days_in_month y m) by lia.
    pose proof (days_in_month_range y (m + 1)).
    pose proof (days_in_month_range (y + 1) 1).
    destruct (Z.ltb_spec m 12) as [H2|H2].
    + split; [|lia]. rewrite Hdim. clear Hd H1 Hdim.
      assert (Hcases : m = 1 \/ m = 2 \/ m = 3 \/ m = 4 \/ m = 5 \/ m = 6
                       \/ m = 7 \/ m = 8 \/ m = 9 \/ m = 10 \/ m = 11) by lia.
      unfold days_from_civil, days_in_month, is_leap.
      repeat (destruct Hcases as [->|Hcases]); try subst m; cbn;
        repeat match goal with
               | |- context [if ?b then _ else _] => destruct b eqn:?
               end;
        rewrite ?andb_true_iff, ?andb_false_iff, ?orb_true_iff, ?orb_false_iff,
                ?negb_true_iff, ?negb_false_iff, ?Z.eqb_eq, ?Z.eqb_neq in *;
        Z.div_mod_to_equations; lia.
    + split; [|lia]. assert (m = 12) by lia. subst m d.
      unfold days_from_civil. cbn. Z.div_mod_to_equations. lia.
Qed.

Lemma compare_app_same (p x y : string) :
  String.compare (p ++ x) (p ++ y) = String.compare x y.
Proof.
  induction p as [|c p IH]; cbn; [reflexivity|].
  unfold Ascii.compare. now rewrite N.compare_refl.
Qed.

Lemma digit_unit_code (n : Z) :
  N_of_ascii (digit_unit n) = Z.to_N (48 + n mod 10).
Proof.
  unfold digit_unit. apply N_ascii_embedding.
  pose proof (Z.mod_pos_bound n 10 eq_refl). lia.
Qed.

(** Numbers of the same width are ordered as their texts are, whatever
    follows the texts. *)
Lemma pad_lt (w : nat) (a b : Z) (x y : string) :
  0 <= a < b ->
  b < 10 ^ Z.of_nat w ->
  String.compare (pad w a ++ x) (pad w b ++ y) = Lt.
Proof.
  revert a b x y. induction w as [|w IH]; intros a b x y Hab Hb.
  - cbn in Hb. lia.
  - cbn [pad]. rewrite !append_assoc3. cbn [append].
    rewrite Nat2Z.inj_succ, Z.pow_succ_r in Hb by lia.
    destruct (Z.eq_dec (a / 10) (b / 10)) as [E|E].
    + rewrite E, compare_app_same. cbn.
      unfold Ascii.compare. rewrite !digit_unit_code.
      assert (Hlt : (Z.to_N (48 + a mod 10) < Z.to_N (48 + b mod 10))%N)
        by (Z.div_mod_to_equations; lia).
      apply N.compare_lt_iff in Hlt. now rewrite Hlt.
    + apply IH; Z.div_mod_to_equations; lia.
Qed.

Lemma pad_left (k : nat) (v : Z) :
  pad (S k) v = String (digit_unit (v / 10 ^ Z.of_nat k)) (pad k v).
Proof.
  revert v. induction k as [|k IH]; intros v.
  - cbn. now rewrite Z.div_1_r.
  - change (pad (S (S k)) v)
      with (pad (S k) (v / 10) ++ String (digit_unit v) EmptyString).
    rewrite IH. cbn [append pad]. do 2 f_equal.
    rewrite Nat2Z.inj_succ, Z.pow_succ_r by lia.
    now rewrite Z.div_div by lia.
Qed.

Lemma digit_value_unit (c : ascii) (d : Z) :
  digit_value c = Some d -> 0 <= d <= 9 /\ c = digit_unit d.
Proof.
  unfold digit_value. intros H.
  destruct ((48 <=? N_of_ascii c)%N && (N_of_ascii c <=? 57)%N) eqn:E;
    [|discriminate].
  injection H as <-. apply andb_true_iff in E as [E1 E2].
  apply N.leb_le in E1, E2. split; [lia|].
  unfold digit_unit.
  replace (Z.to_N (48 + (Z.of_N (N_of_ascii c) - 48) mod 10))
    with (N_of_ascii c)
    by (Z.div_mod_to_equations; lia).
  now rewrite ascii_N_embedding.
Qed.

Lemma digit_unit_mod (n : Z) : digit_unit (n mod 10) = digit_unit n.
Proof. unfold digit_unit. now rewrite Z.mod_mod by lia. Qed.

Lemma take_digits_pad (n : nat) (acc : Z) (s : string) (v : Z) (r : string) :
  take_digits n acc s = Some (v, r) -> s = pad n v ++ r.
Proof.
  revert acc s. induction n as [|n IH]; intros acc s H.
  - cbn in H. now injection H as _ <-.
  - cbn [take_digits] in H. destruct s as [|c s]; [discriminate|].
    destruct (digit_value c) as [d|] eqn:Hd; [|discriminate].
    apply digit_value_unit in Hd as [Hd ->].
    pose proof (take_digits_range _ _ _ _ _ H) as Hr.
    apply IH in H. rewrite pad_left. cbn [append]. rewrite <- H. f_equal.
    rewrite <- (digit_unit_mod (v / _)). f_equal.
    assert (Hq : v / 10 ^ Z.of_nat n = 10 * acc + d).
    { symmetry. apply Z.div_unique with (v - (10 * acc + d) * 10 ^ Z.of_nat n);
        nia. }
    rewrite Hq. Z.div_mod_to_equations. lia.
Qed.

Lemma append_empty_r (s : string) : s ++ "" = s.
Proof. induction s as [|c s IH]; cbn; [reflexivity | now rewrite IH]. Qed.

(** A text that [parse_date] accepts is the ISO text of a date of the
    calendar in the years 0 to 9999. *)
Lemma parse_date_inv (s : string) (t : Z) :
  parse_date s = Some t ->
  exists y m d,
    s = pad 4 y ++ "-" ++ pad 2 m ++ "-" ++ pad 2 d
    /\ 0 <= y <= 9999
    /\ 1 <= m <= 12
    /\ 1 <= d <= days_in_month y m
    /\ t = days_from_civil y m d * msPerDay.
Proof.
  unfold parse_date. intros H.
  destruct (take_digits 4 0 s) as [[y [|c1 s1]]|] eqn:Hy; try discriminate.
  destruct (Ascii.eqb_spec c1 "-") as [->|Hc]; cycle 1.
  { destruct c1 as [[] [] [] [] [] [] [] []]; try discriminate;
      now contradiction Hc. }
  destruct (take_digits 2 0 s1) as [[m [|c2 s2]]|] eqn:Hm; try discriminate.
  destruct (Ascii.eqb_spec c2 "-") as [->|Hc]; cycle 1.
  { destruct c2 as [[] [] [] [] [] [] [] []]; try discriminate;
      now contradiction Hc. }
  destruct (take_digits 2 0 s2) as [[d [|c3 s3]]|] eqn:Hd; try discriminate.
  destruct ((1 <=? m) && (m <=? 12) && (1 <=? d) && (d <=? days_in_month y m))
    eqn:E; [|discriminate].
  injection H as <-.
  pose proof (take_digits_range _ _ _ _ _ Hy) as Ry.
  apply take_digits_pad in Hy, Hm, Hd.
  apply andb_true_iff in E as [E E4]. apply andb_true_iff in E as [E E3].
  apply andb_true_iff in E as [E1 E2].
  apply Z.leb_le in E1, E2, E3, E4.
  change (10 ^ Z.of_nat 4) with 10000 in Ry.
  exists y, m, d. repeat split; try lia.
  subst s s1 s2. now rewrite append_empty_r.
Qed.

Lemma iso_date_next (y m d : Z) :
  1 <= m <= 12 ->
  1 <= d <= days_in_month y m ->
  iso_date (days_from_civil y m d * msPerDay + msPerDay)
  = match next_civil y m d with
    | (y2, m2, d2) => iso_year y2 ++ "-" ++ pad 2 m2 ++ "-" ++ pad 2 d2
    end.
Proof.
  intros Hm Hd. unfold iso_date.
  replace (Day (days_from_civil y m d * msPerDay + msPerDay))
    with (days_from_civil y m d + 1)
    by (unfold Day, msPerDay; Z.div_mod_to_equations; lia).
  pose proof (days_from_civil_next y m d Hm Hd) as H.
  destruct (next_civil y m d) as [[y2 m2] d2].
  destruct H as (H & Hm2 & Hd2).
  now rewrite <- H, civil_from_days_of_date.
Qed.

Lemma compare_cons_same (c : ascii) (x y : string) :
  String.compare (String c x) (String c y) = String.compare x y.
Proof. cbn. unfold Ascii.compare. now rewrite N.compare_refl. Qed.

(** A publication date that starts with a date before 31 December 9999
    comes, in the order of strings, before the date of the next day. *)
Lemma starts_before_next_day (s rest : string) (t : Z) :
  parse_date s = Some t ->
  t < 253402214400000 ->
  lt (s ++ rest) (iso_date (t + msPerDay)) = true.
Proof.
  intros Hs Hlast.
  destruct (parse_date_inv s t Hs) as (y & m & d & -> & Hy & Hm & Hd & ->).
  rewrite iso_date_next by assumption.
  pose proof (days_in_month_range y m) as Hdim.
  unfold lt, String.ltb, next_civil, iso_year.
  destruct (Z.ltb_spec d (days_in_month y m)) as [H1|H1];
    [|destruct (Z.ltb_spec m 12) as [H2|H2]].
  - replace ((0 <=? y) && (y <=? 9999)) with true
      by (symmetry; apply andb_true_iff; split; apply Z.leb_le; lia).
    rewrite !append_assoc3. cbn [append].
    rewrite compare_app_same, compare_cons_same.
    rewrite compare_app_same, compare_cons_same.
    rewrite <- (append_empty_r (pad 2 (d + 1))).
    rewrite pad_lt; [reflexivity | lia | cbn; lia].
  - replace ((0 <=? y) && (y <=? 9999)) with true
      by (symmetry; apply andb_true_iff; split; apply Z.leb_le; lia).
    rewrite !append_assoc3. cbn [append].
    rewrite compare_app_same, compare_cons_same.
    rewrite pad_lt; [reflexivity | lia | cbn; lia].
  - assert (m = 12) by lia. subst m.
    change (days_in_month y 12) with 31 in *.
    assert (d = 31) by lia. subst d.
    assert (y <> 9999).
    { intros ->. vm_compute in Hlast. discriminate Hlast. }
    replace ((0 <=? y + 1) && (y + 1 <=? 9999)) with true
      by (symmetry; apply andb_true_iff; split; apply Z.leb_le; lia).
    rewrite !append_assoc3.
    rewrite pad_lt; [reflexivity | lia | cbn; lia].
Qed.

End Dates.

(** ** The arithmetic of a page

    With an integer page size the indices and the number of pages are
    integers; with an infinite one there is nothing on any page. *)

Lemma pageItems_finite (p : Page) (page perPage : Z) :
  itemsPerPage p = Num perPage ->
  pageItems p page
  = slice (filteredStories p) ((page - 1) * perPage)
          ((page - 1) * perPage + perPage).
Proof. intros H. unfold pageItems. rewrite H. reflexivity. Qed.

Lemma totalPages_finite (p : Page) (perPage : Z) :
  itemsPerPage p = Num perPage ->
  totalPages p = ceil_div (Z.of_nat (length (filteredStories p))) perPage.
Proof. intros H. unfold totalPages. rewrite H. reflexivity. Qed.

Lemma slice_empty_range {A} (a : list A) (start end_ : Z) :
  clamp_index (Z.of_nat (length a)) end_
  <= clamp_index (Z.of_nat (length a)) start ->
  slice a start end_ = [].
Proof.
  intros H. unfold slice. cbv zeta.
  replace (Z.to_nat _) with 0%nat by lia. apply take_0.
Qed.

Lemma pageItems_infinite (p : Page) (page : Z) (negative : bool) :
  itemsPerPage p = Infinity negative -> pageItems p page = [].
Proof.
  intros H. unfold pageItems, slice_at. rewrite H.
  apply slice_empty_range. unfold times, plus, index_of, clamp_index.
  pose proof (Zle_0_nat (length (filteredStories p))) as Hlen.
  destruct (Z.eqb_spec (page - 1) 0) as [_|_]; [cbn; lia|].
  destruct negative, (page - 1 <? 0); cbn [xorb Bool.eqb];
    repeat match goal with
           | |- context [?a <? ?b] => destruct (Z.ltb_spec a b)
           end; lia.
Qed.

Lemma totalPages_infinite (p : Page) (negative : bool) :
  itemsPerPage p = Infinity negative -> totalPages p = 0.
Proof. intros H. unfold totalPages. now rewrite H. Qed.

(** ** The claims *)

Section Claims.

Context (host : Host) (toLocaleString : string -> string).

Abbreviation applyFilters := (applyFilters host toLocaleString).
Abbreviation renderPage := (renderPage toLocaleString).

Lemma applyFilters_completes (p : Page) :
  completes applyFilters p
  <-> exists bound, end_bound host (end_date (controls p)) = inr bound.
Proof.
  unfold completes. rewrite applyFilters_runs.
  destruct (end_bound host (end_date (controls p))) as [e|bound]; cbn.
  - split; intros [x H]; discriminate H.
  - split; intros _; eauto.
Qed.

(** With no end date, or with a date as the end date on a host whose
    offset never changes, the filter pass completes. *)
Lemma applyFilters_completes_fixed_zone (p : Page) (offset : Z) :
  zone host = fixed_zone offset ->
  end_date (controls p) = ""
  \/ (exists t, parse_date (end_date (controls p)) = Some t) ->
  completes applyFilters p.
Proof.
  intros Hz H. apply applyFilters_completes. unfold end_bound.
  destruct H as [->|[t Ht]]; [now exists None|].
  destruct (truthy (end_date (controls p))); [|now exists None].
  rewrite (isoNext_fixed_zone host offset _ t Hz Ht). eauto.
Qed.

Lemma applyFilters_result (p : Page) (bound : option string) :
  end_bound host (end_date (controls p)) = inr bound ->
  run applyFilters p = filtered_page toLocaleString bound p.
Proof. intros H. unfold run. now rewrite applyFilters_runs, H. Qed.

Lemma selects_iff (v : string) :
  selects v = true <-> v <> "" /\ v <> "All".
Proof.
  unfold selects. rewrite andb_true_iff, negb_true_iff, String.eqb_neq.
  destruct v; cbn; intuition congruence.
Qed.

Lemma strict_eq_iff (v : Value) (s : string) :
  strict_eq v s = true <-> v = Text s.
Proof.
  destruct v as [| |x]; cbn; [| |rewrite String.eqb_eq]; split; congruence.
Qed.

Lemma end_bound_empty (endDate : string) :
  endDate = "" -> end_bound host endDate = inr None.
Proof. intros ->. reflexivity. Qed.

(** C3.  With a page number and an integer page size of at least one,
    [renderPage] shows the stories of the filtered collection at the
    indices from
    [(page - 1) * itemsPerPage] up to, not including,
    [page * itemsPerPage], as far as the collection goes; a page past the
    end shows no story and the function returns normally.  For 125
    filtered stories and a page size of 50 there are three page buttons,
    page 3 holds the last 25 stories and page 4 none. *)
Theorem paginator_slice (p : Page) (page perPage : Z) :
  1 <= page ->
  itemsPerPage p = Num perPage ->
  1 <= perPage ->
  let start := Z.to_nat ((page - 1) * perPage) in
  let size := Z.to_nat perPage in
  let p' := run (renderPage page) p in
  completes (renderPage page) p
  /\ news_container p' = shows toLocaleString (pageItems p page)
  /\ pageItems p page = take size (drop start (filteredStories p))
  /\ (forall i : nat,
        pageItems p page !! i
        = if decide (i < size)%nat then filteredStories p !! (start + i)%nat
          else None)
  /\ ((length (filteredStories p) <= start)%nat ->
        pageItems p page = []
        /\ news_container p' = set_innerHTML no_match_notice)
  /\ (length (filteredStories p) = 125%nat ->
      perPage = 50 ->
        totalPages p = 3
        /\ map btn_text (pagination p') = [1; 2; 3]
        /\ (page = 3 ->
              pageItems p page = drop 100 (filteredStories p)
              /\ length (pageItems p page) = 25%nat)
        /\ (page = 4 -> pageItems p page = [])).
Proof.
  intros Hpage Hnum Hsize start size p'.
  assert (Hitems : pageItems p page = take size (drop start (filteredStories p))).
  { rewrite (pageItems_finite p page perPage Hnum).
    rewrite slice_forward by nia.
    subst start size. do 2 f_equal. lia. }
  assert (Hrun : p' = painted toLocaleString page p).
  { subst p'. unfold run. now rewrite renderPage_runs. }
  split; [|split; [|split; [|split; [|split]]]].
  - unfold completes. rewrite renderPage_runs. now exists tt.
  - rewrite Hrun. reflexivity.
  - exact Hitems.
  - intros i. rewrite Hitems. case_decide as Hi.
    + now rewrite lookup_take_lt, lookup_drop by exact Hi.
    + apply lookup_take_ge. lia.
  - intros Hpast.
    assert (Hnil : pageItems p page = []).
    { rewrite Hitems, drop_ge by exact Hpast. apply take_nil. }
    split; [exact Hnil|]. rewrite Hrun. cbn. now rewrite Hnil.
  - intros Hlen H50.
    assert (Htotal : totalPages p = 3).
    { rewrite (totalPages_finite p perPage Hnum), Hlen, H50. reflexivity. }
    split; [exact Htotal|]. split; [|split].
    + rewrite Hrun. cbn. rewrite Htotal. reflexivity.
    + intros ->. rewrite Hitems. subst start size. rewrite H50.
      change (Z.to_nat ((3 - 1) * 50)) with 100%nat.
      change (Z.to_nat 50) with 50%nat.
      split.
      * apply take_ge. rewrite length_drop. lia.
      * rewrite length_take, length_drop. lia.
    + intros ->. rewrite Hitems. subst start size. rewrite H50.
      rewrite drop_ge; [apply take_nil|].
      change (Z.to_nat ((4 - 1) * 50)) with 150%nat. lia.
Qed.

Lemma passes_iff (c : Controls) (bound : option string) (s : Story) :
  passes c bound s = true
  <-> (start_date c <> "" -> ge (pubDate s) (start_date c) = true)
      /\ (forall next, bound = Some next -> lt (pubDate s) next = true)
      /\ (value (category_select c) <> "" ->
          value (category_select c) <> "All" ->
          category s = Text (value (category_select c)))
      /\ (value (district_select c) <> "" ->
          value (district_select c) <> "All" ->
          district s = Text (value (district_select c))).
Proof.
  unfold passes. rewrite !andb_true_iff.
  assert (Hsel : forall v (f : Value),
            (if selects v then strict_eq f v else true) = true
            <-> (v <> "" -> v <> "All" -> f = Text v)).
  { intros v f. destruct (selects v) eqn:Hv.
    - apply selects_iff in Hv. rewrite strict_eq_iff. tauto.
    - split; [|reflexivity]. intros _ H1 H2.
      assert (selects v = true) by (apply selects_iff; tauto). congruence. }
  rewrite !Hsel.
  assert (Hstart : (if truthy (start_date c)
                    then ge (pubDate s) (start_date c) else true) = true
                   <-> (start_date c <> "" ->
                        ge (pubDate s) (start_date c) = true)).
  { destruct (start_date c); cbn; [tauto|]. split; [auto|].
    intros H; apply H; discriminate. }
  rewrite Hstart.
  assert (Hend : match bound with
                 | Some next => lt (pubDate s) next
                 | None => true
                 end = true
                 <-> (forall next, bound = Some next ->
                                   lt (pubDate s) next = true)).
  { destruct bound as [n|]; split; auto.
    - intros H next [= <-]. exact H.
    - intros _ next [=]. }
  rewrite Hend. tauto.
Qed.

(** What a completed filter pass keeps. *)
Lemma filter_pass_result (p : Page) (bound : option string) :
  end_bound host (end_date (controls p)) = inr bound ->
  filteredStories (run applyFilters p)
  = List.filter (passes (controls p) bound) (stories p).
Proof. intros H. now rewrite (applyFilters_result _ _ H). Qed.

Lemma filter_pass_member (p : Page) (bound : option string) (s : Story) :
  end_bound host (end_date (controls p)) = inr bound ->
  In s (filteredStories (run applyFilters p))
  <-> In s (stories p) /\ passes (controls p) bound s = true.
Proof. intros H. rewrite (filter_pass_result _ _ H). apply filter_In. Qed.

(** C4.  A filter pass keeps, in their order, exactly the stories that
    pass every predicate that is switched on, and a category or district
    control that is empty or on "All" puts no condition on a story.  With
    a category [C] and a district [D] chosen and no dates, the result is
    the stories whose category is [C] and whose district is [D]: those
    that both the category filter alone and the district filter alone
    keep. *)
Theorem filters_combine_by_and (p : Page) (bound : option string) :
  end_bound host (end_date (controls p)) = inr bound ->
  let c := controls p in
  let C := value (category_select c) in
  let D := value (district_select c) in
  let result := filteredStories (run applyFilters p) in
  result = List.filter (passes c bound) (stories p)
  /\ (forall s,
        In s result
        <-> In s (stories p)
            /\ (start_date c <> "" -> ge (pubDate s) (start_date c) = true)
            /\ (forall next, bound = Some next -> lt (pubDate s) next = true)
            /\ (C <> "" -> C <> "All" -> category s = Text C)
            /\ (D <> "" -> D <> "All" -> district s = Text D))
  /\ (start_date c = "" -> bound = None ->
      C <> "" -> C <> "All" -> D <> "" -> D <> "All" ->
        result
        = List.filter (fun s => strict_eq (category s) C && strict_eq (district s) D)
                      (stories p)
        /\ (forall s,
              In s result
              <-> In s (List.filter (fun s => strict_eq (category s) C) (stories p))
                  /\ In s (List.filter (fun s => strict_eq (district s) D)
                                       (stories p)))).
Proof.
  intros Hbound c C D result.
  assert (Hres : result = List.filter (passes c bound) (stories p))
    by exact (filter_pass_result p bound Hbound).
  split; [exact Hres|]. split.
  - intros s. rewrite Hres, filter_In, passes_iff. reflexivity.
  - intros Hstart -> HC1 HC2 HD1 HD2.
    assert (HselC : selects C = true) by (apply selects_iff; tauto).
    assert (HselD : selects D = true) by (apply selects_iff; tauto).
    assert (Hboth : result
              = List.filter
                  (fun s => strict_eq (category s) C && strict_eq (district s) D)
                  (stories p)).
    { rewrite Hres. apply List.filter_ext. intros s. unfold passes.
      fold c. rewrite Hstart. fold C D. rewrite HselC, HselD. reflexivity. }
    split; [exact Hboth|].
    intros s. rewrite Hboth, !filter_In, andb_true_iff. tauto.
Qed.

Lemma startsWith_app (s p : string) :
  startsWith s p = true -> exists rest, s = p ++ rest.
Proof.
  unfold startsWith. revert s. induction p as [|c p IH]; intros s H.
  - now exists s.
  - destruct s as [|c' s]; [discriminate|]. cbn in H.
    destruct (ascii_dec c c') as [<-|]; [|discriminate].
    destruct (IH s H) as [rest ->]. now exists rest.
Qed.

(** X1.  The end date where the clocks do not change.  On a host whose offset
    from UTC is constant, with an end date [D] before 31 December 9999,
    the filter pass completes, every story it keeps is dated before the
    day after [D], and it keeps every story whose publication date starts
    with [D] and that the other predicates let through. *)
Theorem end_date_inclusive_without_clock_change (p : Page) (offset t : Z) :
  zone host = fixed_zone offset ->
  parse_date (end_date (controls p)) = Some t ->
  t < 253402214400000 ->
  let D := end_date (controls p) in
  let result := filteredStories (run applyFilters p) in
  completes applyFilters p
  /\ (forall s, In s result ->
        lt (pubDate s) (iso_date (t + msPerDay)) = true)
  /\ (forall s, In s (stories p) ->
        startsWith (pubDate s) D = true ->
        passes (controls p) None s = true ->
        In s result).
Proof.
  intros Hz Ht Hlast D result.
  assert (Hbound : end_bound host D = inr (Some (iso_date (t + msPerDay)))).
  { unfold end_bound. subst D.
    rewrite (isoNext_fixed_zone host offset _ t Hz Ht).
    destruct (end_date (controls p)); [discriminate Ht | reflexivity]. }
  split; [apply applyFilters_completes; eauto|]. split.
  - intros s Hs. apply (filter_pass_member p _ s Hbound) in Hs as [_ Hs].
    apply passes_iff in Hs as (_ & Hs & _). now apply Hs.
  - intros s Hs Hstart Hpass. apply (filter_pass_member p _ s Hbound).
    split; [exact Hs|].
    destruct (startsWith_app _ _ Hstart) as [rest Hrest].
    unfold passes in Hpass |- *.
    apply andb_true_iff in Hpass as [Hpass H4].
    apply andb_true_iff in Hpass as [Hpass H3].
    apply andb_true_iff in Hpass as [H1 _].
    rewrite H1, H3, H4, !andb_true_r. cbn [andb].
    rewrite Hrest. subst D. now apply starts_before_next_day.
Qed.

Lemma set_value_twice (v : string) (s : Select) :
  set_value v (set_value v s) = set_value v s.
Proof. reflexivity. Qed.

Lemma cleared_twice (c : Controls) : cleared (cleared c) = cleared c.
Proof. reflexivity. Qed.

Lemma selects_set_value_All (s : Select) :
  selects (value (set_value "All" s)) = false.
Proof. cbn. destruct (has_option "All" s); reflexivity. Qed.

Lemma passes_cleared (c : Controls) (s : Story) :
  passes (cleared c) None s = true.
Proof.
  unfold passes. cbn [cleared start_date category_select district_select truthy].
  now rewrite !selects_set_value_All.
Qed.

Lemma resetBtn_click_result (p : Page) :
  resetBtn_click host toLocaleString p
  = (inr tt,
     painted toLocaleString 1
       (with_currentPage 1
         (with_filteredStories (stories p)
           (with_itemsPerPage (Num 50) (with_controls (cleared (controls p)) p))))).
Proof.
  rewrite resetBtn_click_runs, applyFilters_runs.
  cbn [controls with_controls with_currentPage with_itemsPerPage
       end_date cleared end_bound truthy].
  unfold filtered_page.
  cbn [controls stories with_controls with_currentPage with_itemsPerPage].
  rewrite (List.filter_ext _ (fun _ => true) (passes_cleared (controls p))).
  rewrite filter_all. destruct p; reflexivity.
Qed.

(** C5.  Reset always completes; the page it leaves has every story in
    the filtered collection, fifty stories per page and page 1 current,
    and a second Reset leaves exactly that page. *)
Theorem reset_idempotent (p : Page) :
  let reset := resetBtn_click host toLocaleString in
  let once := run reset p in
  completes reset p
  /\ run reset once = once
  /\ filteredStories once = stories p
  /\ itemsPerPage once = Num 50
  /\ currentPage once = 1
  /\ news_container once = shows toLocaleString (slice (stories p) 0 50).
Proof.
  intros reset once.
  assert (Honce : once
    = painted toLocaleString 1
        (with_currentPage 1
          (with_filteredStories (stories p)
            (with_itemsPerPage (Num 50) (with_controls (cleared (controls p)) p))))).
  { subst once reset. unfold run. now rewrite resetBtn_click_result. }
  split; [|split; [|repeat split]].
  - unfold completes. subst reset. rewrite resetBtn_click_result. now exists tt.
  - subst reset. unfold run at 1. rewrite resetBtn_click_result.
    rewrite Honce. destruct p; reflexivity.
  - now rewrite Honce.
  - now rewrite Honce.
  - now rewrite Honce.
  - now rewrite Honce.
Qed.

(** C6.  With a start date [D] chosen, every story a completed filter
    pass keeps has a publication date at or after [D] in the order of
    strings, and no story dated before [D] is kept. *)
Theorem start_date_lower_bound (p : Page) :
  start_date (controls p) <> "" ->
  completes applyFilters p ->
  let D := start_date (controls p) in
  let result := filteredStories (run applyFilters p) in
  (forall s, In s result ->
     ge (pubDate s) D = true /\ String.compare (pubDate s) D <> Lt)
  /\ (forall s, In s (stories p) -> lt (pubDate s) D = true -> ~ In s result).
Proof.
  intros HD Hdone D result.
  apply applyFilters_completes in Hdone as [bound Hbound].
  assert (Hge : forall s, In s result -> ge (pubDate s) D = true).
  { intros s Hs. apply (filter_pass_member p bound s Hbound) in Hs as [_ Hs].
    apply passes_iff in Hs as (Hs & _). now apply Hs. }
  split.
  - intros s Hs. split; [now apply Hge|].
    specialize (Hge s Hs). unfold ge, String.ltb in Hge.
    intros Hlt. rewrite Hlt in Hge. discriminate Hge.
  - intros s _ Hlt Hs. specialize (Hge s Hs).
    unfold ge in Hge. unfold lt in Hlt. rewrite Hlt in Hge. discriminate Hge.
Qed.

(** What an event handler leaves behind: the listener either stops at
    the exception of the end date, before it touches the filtered
    collection or the container, or it repaints some page. *)
Lemma fire_cases (e : Event) (p : Page) :
  let q := dispatch host toLocaleString e p in
  stories q = stories p
  /\ ((~ completes (fire host toLocaleString e) p
       /\ filteredStories q = filteredStories p
       /\ news_container q = news_container p
       /\ pagination q = pagination p
       /\ (itemsPerPage q = itemsPerPage p \/ currentPage q = 1))
      \/ (completes (fire host toLocaleString e) p
          /\ refilters e = true
          /\ sublist (filteredStories q) (stories p)
          /\ shows_first_page toLocaleString q)
      \/ (completes (fire host toLocaleString e) p
          /\ refilters e = false
          /\ filteredStories q = filteredStories p
          /\ itemsPerPage q = itemsPerPage p
          /\ (q = p \/ exists i, news_container q = shows toLocaleString (pageItems q i)))).
Proof.
  assert (Hpass : forall q0 : Page,
    let q := run applyFilters q0 in
    stories q = stories q0
    /\ ((~ completes applyFilters q0 /\ q = q0)
        \/ (completes applyFilters q0
            /\ sublist (filteredStories q) (stories q0)
            /\ shows_first_page toLocaleString q))).
  { intros q0 q. subst q. unfold run, completes. rewrite applyFilters_runs.
    destruct (end_bound host (end_date (controls q0))) as [err|bound]; cbn [fst snd].
    - split; [reflexivity|]. left. split; [|reflexivity].
      intros [x Hx]; discriminate Hx.
    - split; [reflexivity|]. right. split; [now exists tt|].
      split; [apply filter_sublist|]. repeat split. }
  assert (Hvia : forall q0 : Page,
    stories q0 = stories p ->
    filteredStories q0 = filteredStories p ->
    news_container q0 = news_container p ->
    pagination q0 = pagination p ->
    itemsPerPage q0 = itemsPerPage p \/ currentPage q0 = 1 ->
    forall c : Script unit,
    (forall r, c r = applyFilters r) ->
    let q := run c q0 in
    stories q = stories p
    /\ ((~ completes c q0
         /\ filteredStories q = filteredStories p
         /\ news_container q = news_container p
         /\ pagination q = pagination p
         /\ (itemsPerPage q = itemsPerPage p \/ currentPage q = 1))
        \/ (completes c q0
            /\ sublist (filteredStories q) (stories p)
            /\ shows_first_page toLocaleString q))).
  { intros q0 H1 H2 H3 H5 H4 c Hc q. subst q.
    pose proof (Hpass q0) as HP. cbv zeta in HP.
    unfold run, completes in HP |- *. rewrite Hc.
    destruct HP as (Hs & [(Hn & Hq)|(Hd & Hsub & Hshow)]).
    - split; [congruence|]. left. rewrite Hq. auto.
    - split; [congruence|]. right. rewrite <- H1. auto. }
  destruct e as [v|v|v|v|v|now| |i]; intros q; subst q; unfold dispatch.
  - destruct (Hvia (on_controls (with_start_date v) p) eq_refl eq_refl eq_refl eq_refl (or_introl eq_refl)
                applyFilters (fun _ => eq_refl)) as (Hs & [H|H]);
      (split; [exact Hs|]); [left | right; left]; tauto.
  - destruct (Hvia (on_controls (with_end_date v) p) eq_refl eq_refl eq_refl eq_refl (or_introl eq_refl)
                applyFilters (fun _ => eq_refl)) as (Hs & [H|H]);
      (split; [exact Hs|]); [left | right; left]; tauto.
  - destruct (Hvia (on_controls (fun c =>
                  with_category_select (set_value v (category_select c)) c) p)
                eq_refl eq_refl eq_refl eq_refl (or_introl eq_refl)
                applyFilters (fun _ => eq_refl)) as (Hs & [H|H]);
      (split; [exact Hs|]); [left | right; left]; tauto.
  - destruct (Hvia (on_controls (fun c =>
                  with_district_select (set_value v (district_select c)) c) p)
                eq_refl eq_refl eq_refl eq_refl (or_introl eq_refl)
                applyFilters (fun _ => eq_refl)) as (Hs & [H|H]);
      (split; [exact Hs|]); [left | right; left]; tauto.
  - set (q1 := on_controls (fun c =>
                  with_items_per_page (set_value v (items_per_page c)) c) p).
    destruct (Hvia
                (with_currentPage 1
                  (with_itemsPerPage
                    (num_or (parseInt (value (items_per_page (controls q1)))) 50)
                    q1))
                eq_refl eq_refl eq_refl eq_refl (or_intror eq_refl)
                applyFilters (fun _ => eq_refl)) as (Hs & [H|H]);
      (split; [exact Hs|]); [left | right; left]; tauto.
  - unfold run, completes. cbn [fire]. rewrite todayBtn_click_runs.
    cbn [fst snd]. split; [reflexivity|]. right; left.
    split; [now exists tt|]. split; [reflexivity|]. split.
    + cbn. etransitivity; [apply slice_sublist | apply filter_sublist].
    + repeat split.
  - unfold run, completes. cbn [fire]. rewrite resetBtn_click_result.
    cbn [fst snd]. split; [reflexivity|]. right; left.
    split; [now exists tt|]. split; [reflexivity|]. split.
    + cbn. reflexivity.
    + repeat split.
  - unfold run, completes.
    cbv beta iota delta [fire bind read].
    destruct (existsb _ (pagination p)).
    + rewrite pageBtn_click_runs. cbn [fst snd].
      split; [reflexivity|]. right; right.
      split; [now exists tt|]. repeat split. right. exists i. reflexivity.
    + cbn. split; [reflexivity|]. right; right.
      split; [now exists tt|]. repeat split. now left.
Qed.


Lemma shows_slice_first_page (p : Page) :
  shows_first_page toLocaleString p -> shows_slice toLocaleString p.
Proof.
  intros (_ & H & _). unfold shows_slice.
  destruct (slice_infix (filteredStories p)
              (index_of (Z.of_nat (length (filteredStories p)))
                 (times (1 - 1) (itemsPerPage p)))
              (index_of (Z.of_nat (length (filteredStories p)))
                 (plus (times (1 - 1) (itemsPerPage p)) (itemsPerPage p))))
    as (a & b & Hab).
  exists a, (pageItems p 1), b. split; [exact Hab|].
  rewrite H. unfold shows. destruct (pageItems p 1); reflexivity.
Qed.

Lemma shows_slice_page (p : Page) (i : Z) :
  news_container p = shows toLocaleString (pageItems p i) ->
  shows_slice toLocaleString p.
Proof.
  intros H. unfold shows_slice.
  destruct (slice_infix (filteredStories p)
              (index_of (Z.of_nat (length (filteredStories p)))
                 (times (i - 1) (itemsPerPage p)))
              (index_of (Z.of_nat (length (filteredStories p)))
                 (plus (times (i - 1) (itemsPerPage p)) (itemsPerPage p))))
    as (a & b & Hab).
  exists a, (pageItems p i), b. split; [exact Hab|].
  rewrite H. unfold shows. destruct (pageItems p i); reflexivity.
Qed.

(** One event keeps the collection, the subsequence and the slice. *)
Lemma dispatch_preserves (e : Event) (p : Page) :
  sublist (filteredStories p) (stories p) ->
  shows_slice toLocaleString p ->
  let q := dispatch host toLocaleString e p in
  stories q = stories p
  /\ sublist (filteredStories q) (stories q)
  /\ shows_slice toLocaleString q.
Proof.
  intros Hsub Hshow q.
  destruct (fire_cases e p) as (Hs & H). fold q in Hs, H.
  split; [exact Hs|]. rewrite Hs.
  destruct H as [(_ & Hf & Hc & _)|[(_ & _ & Hsub' & Hfirst)|(_ & _ & Hf & _ & Hq)]].
  - split; [now rewrite Hf|].
    destruct Hshow as (a & items & b & H1 & H2).
    exists a, items, b. now rewrite Hf, Hc.
  - split; [exact Hsub'|]. now apply shows_slice_first_page.
  - split; [now rewrite Hf|].
    destruct Hq as [->|[i Hi]]; [exact Hshow|].
    now apply shows_slice_page with i.
Qed.

Lemma shows_slice_blank (p : Page) :
  cards (news_container p) = [] -> shows_slice toLocaleString p.
Proof.
  intros H. exists [], [], (filteredStories p). now rewrite H.
Qed.

Lemma forEach_on_controls {A} (f : A -> Controls -> Controls) (l : list A)
    (p : Page) :
  exists c,
    forEach l (fun x => write (on_controls (f x))) p
    = (inr tt, with_controls c p).
Proof.
  revert p. induction l as [|x l IH]; intros p.
  - exists (controls p). destruct p; reflexivity.
  - cbn [forEach]. unfold bind at 1, write at 1.
    destruct (IH (on_controls (f x) p)) as [c Hc]. rewrite Hc.
    exists c. destruct p; reflexivity.
Qed.

Lemma initialiseFilters_runs (p : Page) :
  exists c, initialiseFilters p = (inr tt, with_controls c p).
Proof.
  unfold initialiseFilters. unfold bind at 1, read at 1. unfold bind at 1.
  destruct (forEach_on_controls
              (fun d c => with_district_select (appendOption d (district_select c)) c)
              (sort (unique [] (truthy_values (map district (stories p))))) p)
    as [c Hc].
  rewrite Hc. eexists. unfold write, on_controls. destruct p; reflexivity.
Qed.

Lemma on_data_runs (data : list Story) (p : Page) :
  exists c,
    on_data host toLocaleString data p
    = applyFilters (with_controls c (with_stories data p)).
Proof.
  unfold on_data. unfold bind at 1, write at 1. unfold bind at 1.
  destruct (initialiseFilters_runs (with_stories data p)) as [c Hc].
  rewrite Hc. now exists c.
Qed.

Lemma load_establishes (c : Controls) (response : Error + list Story) :
  let p := load host toLocaleString response (initial c) in
  stories p = loaded response
  /\ sublist (filteredStories p) (stories p)
  /\ shows_slice toLocaleString p.
Proof.
  destruct response as [err|data]; cbn [load loaded].
  - repeat split; [constructor | now apply shows_slice_blank].
  - destruct (on_data_runs data (initial c)) as [c' Hc'].
    rewrite Hc', applyFilters_runs.
    destruct (end_bound _ _) as [err|bound].
    + repeat split; [apply sublist_nil_l | now apply shows_slice_blank].
    + split; [reflexivity|]. split; [apply filter_sublist|].
      apply shows_slice_first_page. repeat split.
Qed.

(** C10.  Throughout a session, whatever the response and whatever the
    viewer does, the story collection is the one that was loaded, the
    filtered collection is a subsequence of it in the same order, and the
    cards in the container are those of a contiguous run of the filtered
    collection; the next event, whichever it is, leaves the collection
    as it is. *)
Theorem collection_never_mutated (c : Controls)
    (response : Error + list Story) (events : list Event) :
  let p := session host toLocaleString c response events in
  stories p = loaded response
  /\ sublist (filteredStories p) (stories p)
  /\ shows_slice toLocaleString p
  /\ (forall e, stories (dispatch host toLocaleString e p) = stories p).
Proof.
  unfold session.
  pose proof (load_establishes c response) as H. cbv zeta in H.
  revert H. generalize (load host toLocaleString response (initial c)).
  induction events as [|e events IH]; intros p (Hs & Hsub & Hshow).
  - cbn. repeat split; try assumption.
    intros e. now destruct (dispatch_preserves e p Hsub Hshow).
  - cbn [fold_left]. apply IH.
    destruct (dispatch_preserves e p Hsub Hshow) as (H1 & H2 & H3).
    split; [congruence|]. split; assumption.
Qed.

(** C1, as amended.  The Today listener always completes.  It keeps, in
    their order, the first fifty of the stories whose [pubDate] starts
    with the calendar date of the system clock in UTC, sets itemsPerPage
    to 50 and currentPage to 1, and shows those stories; it leaves the
    filter controls and the collection as they are, and its result does
    not depend on the controls. *)
Theorem today_shortcut_utc_date (now : Z) (p : Page) :
  let today := todayBtn_click toLocaleString now in
  let p' := run today p in
  completes today p
  /\ filteredStories p'
     = take 50 (List.filter (fun s => startsWith (pubDate s) (iso_date now))
                            (stories p))
  /\ itemsPerPage p' = Num 50
  /\ currentPage p' = 1
  /\ news_container p' = shows toLocaleString (filteredStories p')
  /\ controls p' = controls p
  /\ stories p' = stories p
  /\ (forall c, filteredStories (run today (with_controls c p))
               = filteredStories p').
Proof.
  intros today p'.
  assert (Hrun : forall q, today q
    = (inr tt,
       painted toLocaleString 1
         (with_currentPage 1
           (with_itemsPerPage (Num 50)
             (with_filteredStories
               (take 50 (List.filter
                           (fun s => startsWith (pubDate s) (iso_date now))
                           (stories q)))
               q))))).
  { intros q. subst today. rewrite todayBtn_click_runs, todayStr_utc_date.
    now rewrite slice_first by lia. }
  subst p'. unfold run, completes. rewrite Hrun. cbn [fst snd].
  split; [now exists tt|]. repeat split.
  - cbn [painted news_container with_pagination with_news_container].
    erewrite pageItems_finite by reflexivity.
    cbn [filteredStories with_currentPage with_itemsPerPage
         with_filteredStories with_pagination with_news_container].
    change ((1 - 1) * 50) with 0. change (0 + 50) with 50.
    rewrite slice_first by lia.
    change (Z.to_nat 50) with 50%nat. rewrite take_take.
    reflexivity.
  - intros c. now rewrite Hrun.
Qed.

(** *** The slug of a category *)

Lemma toLowerCase_app (a b : string) :
  toLowerCase (a ++ b) = toLowerCase a ++ toLowerCase b.
Proof. induction a as [|c a IH]; cbn; [reflexivity | now rewrite IH]. Qed.

Lemma is_space_lower_unit (c : ascii) : is_space (lower_unit c) = is_space c.
Proof. destruct c as [[] [] [] [] [] [] [] []]; reflexivity. Qed.

Lemma every_space_toLowerCase (s : string) :
  every is_space (toLowerCase s) = every is_space s.
Proof.
  induction s as [|c s IH]; cbn; [reflexivity|].
  now rewrite is_space_lower_unit, IH.
Qed.

(** After a code unit that is not white space, replacement starts
    afresh. *)
Lemma replace_after_unit (r a : string) (x : ascii) (rest : string)
    (in_run : bool) :
  is_space x = false ->
  replace_space_runs r in_run (a ++ String x rest)
  = replace_space_runs r in_run (a ++ String x EmptyString)
    ++ replace_space_runs r false rest.
Proof.
  intros Hx. revert in_run. induction a as [|c a IH]; intros in_run.
  - cbn. now rewrite Hx.
  - cbn. destruct (is_space c); [destruct in_run|]; rewrite IH;
      cbn; now rewrite ?append_assoc3.
Qed.

(** Inside a run of white space nothing more is written. *)
Lemma replace_in_run (r ws : string) (y : ascii) (b : string) :
  every is_space ws = true ->
  is_space y = false ->
  replace_space_runs r true (ws ++ String y b)
  = replace_space_runs r false (String y b).
Proof.
  intros Hws Hy. induction ws as [|c ws IH].
  - cbn. now rewrite Hy.
  - cbn in Hws |- *. apply andb_true_iff in Hws as [Hc Hws].
    rewrite Hc. now apply IH.
Qed.

Lemma replace_without_space (r s : string) :
  every (fun c => negb (is_space c)) s = true ->
  replace_space_runs r false s = s.
Proof.
  induction s as [|c s IH]; cbn; [reflexivity|].
  intros H. apply andb_true_iff in H as [Hc Hs].
  apply negb_true_iff in Hc. rewrite Hc. now rewrite IH.
Qed.

Lemma replace_leaves_no_space (s : string) (in_run : bool) :
  every (fun c => negb (is_space c)) (replace_space_runs "-" in_run s) = true.
Proof.
  revert in_run. induction s as [|c s IH]; intros in_run; cbn; [reflexivity|].
  destruct (is_space c) eqn:Hc; [destruct in_run|]; cbn; rewrite ?Hc, IH;
    reflexivity.
Qed.

Lemma every_negb_space_toLowerCase (s : string) :
  every (fun c => negb (is_space c)) (toLowerCase s)
  = every (fun c => negb (is_space c)) s.
Proof.
  induction s as [|c s IH]; cbn; [reflexivity|].
  now rewrite is_space_lower_unit, IH.
Qed.

(** C7.  The badge class of a card is "badge-" followed by the slug of
    the category, a function of the category text alone.  The slug is the
    lower-cased text with every run of white space between two other code
    units replaced by one hyphen, and no white space is left in it; a text
    without white space is only lower-cased.  "NDA Activity" gives
    "nda-activity", and a missing or empty category gives the class of
    "uncategorised". *)
Theorem category_badge_class :
  categoryToSlug "NDA Activity" = "nda-activity"
  /\ (forall item,
        category item = Text "NDA Activity" ->
        badge_class (card_of toLocaleString item) = "badge-nda-activity")
  /\ (forall item,
        missing (category item) ->
        badge_class (card_of toLocaleString item) = "badge-uncategorised")
  /\ (forall item,
        badge_class (card_of toLocaleString item)
        = "badge-" ++ categoryToSlug (or_default (category item) "Uncategorised"))
  /\ (forall item item',
        category item = category item' ->
        badge_class (card_of toLocaleString item)
        = badge_class (card_of toLocaleString item'))
  /\ (forall cat,
        every (fun c => negb (is_space c)) cat = true ->
        categoryToSlug cat = toLowerCase cat)
  /\ (forall a x ws y b,
        is_space x = false ->
        is_space y = false ->
        ws <> "" ->
        every is_space ws = true ->
        categoryToSlug (a ++ String x (ws ++ String y b))
        = categoryToSlug (a ++ String x "") ++ "-" ++ categoryToSlug (String y b))
  /\ (forall cat,
        every (fun c => negb (is_space c)) (categoryToSlug cat) = true).
Proof.
  split; [reflexivity|]. split; [|split; [|split; [|split; [|split; [|split]]]]].
  - intros item H. unfold card_of. cbn. now rewrite H.
  - intros item [H|[H|H]]; unfold card_of; cbn; now rewrite H.
  - reflexivity.
  - intros item item' H. unfold card_of. cbn. now rewrite H.
  - intros cat H. unfold categoryToSlug. apply replace_without_space.
    now rewrite every_negb_space_toLowerCase.
  - intros a x ws y b Hx Hy Hne Hws. unfold categoryToSlug.
    rewrite !toLowerCase_app. cbn [toLowerCase]. rewrite toLowerCase_app.
    cbn [toLowerCase].
    rewrite replace_after_unit by now rewrite is_space_lower_unit.
    f_equal.
    destruct ws as [|w ws]; [contradiction|].
    cbn in Hws. apply andb_true_iff in Hws as [Hw Hws].
    cbn [toLowerCase append].
    cbn [replace_space_runs]. rewrite is_space_lower_unit, Hw.
    rewrite replace_in_run;
      [reflexivity | now rewrite every_space_toLowerCase
                   | now rewrite is_space_lower_unit].
  - intros cat. apply replace_leaves_no_space.
Qed.

(** C8, as amended.  [render] never throws, and it makes one card for
    each story it is given, whatever fields are missing.  A story whose
    category is absent or empty gets the badge class of "uncategorised".
    The district is written as it is read, with no label standing in for
    it: the text "undefined" for a missing district, "null" for a null
    one, nothing for an empty one. *)
Theorem missing_fields_render (items : list Story) (p : Page) (item : Story) :
  In item items ->
  let p' := run (render toLocaleString items) p in
  completes (render toLocaleString items) p
  /\ cards (news_container p') = map (card_of toLocaleString) items
  /\ In (card_of toLocaleString item) (cards (news_container p'))
  /\ (missing (category item) ->
      badge_class (card_of toLocaleString item) = "badge-uncategorised")
  /\ meta_district (card_of toLocaleString item) = interpolate (district item)
  /\ (district item = Undefined ->
      meta_district (card_of toLocaleString item) = "undefined")
  /\ (district item = Null ->
      meta_district (card_of toLocaleString item) = "null")
  /\ (district item = Text "" ->
      meta_district (card_of toLocaleString item) = "").
Proof.
  intros Hin p'.
  assert (Hcards : cards (news_container p') = map (card_of toLocaleString) items).
  { subst p'. unfold run. rewrite render_runs. cbn.
    destruct items; reflexivity. }
  split; [|split; [exact Hcards|split; [|split; [|split; [|split; [|split]]]]]].
  - unfold completes. rewrite render_runs. now exists tt.
  - rewrite Hcards. now apply in_map.
  - intros [H|[H|H]]; unfold card_of; cbn; now rewrite H.
  - reflexivity.
  - intros H. unfold card_of. cbn. now rewrite H.
  - intros H. unfold card_of. cbn. now rewrite H.
  - intros H. unfold card_of. cbn. now rewrite H.
Qed.

End Claims.

(** ** Instances and counterexamples *)

(** C1, as stated: the date is that of the viewer's local clock.  In
    India, shortly after local midnight, the local date is 2 May while the
    listener still selects the stories of 1 May. *)
Lemma today_local_date_counterexample :
  local_today india after_midnight_in_india = "2024-05-02"
  /\ filteredStories
       (run (todayBtn_click as_written after_midnight_in_india)
            (page_of plain_controls [first_of_may; second_of_may] []))
     = [first_of_may]
  /\ take 50
       (List.filter
          (fun s => startsWith (pubDate s)
                      (local_today india after_midnight_in_india))
          [first_of_may; second_of_may])
     = [second_of_may]
  /\ filteredStories
       (run (todayBtn_click as_written after_midnight_in_india)
            (page_of plain_controls [first_of_may; second_of_may] []))
     <> take 50
          (List.filter
             (fun s => startsWith (pubDate s)
                         (local_today india after_midnight_in_india))
             [first_of_may; second_of_may]).
Proof.
  repeat split; try (vm_compute; reflexivity).
  vm_compute. discriminate.
Qed.

(** C2 at a failing input.  In New York the clocks went forward on
    10 March 2024.  With that day as the end date, the bound the filter
    computes is the end date itself, and a story of that day is dropped;
    in India the bound is the next day and the story is kept. *)
Theorem end_date_drops_spring_forward_day :
  isoNext new_york_2024 "2024-03-10" = inr "2024-03-10"
  /\ startsWith (pubDate tenth_of_march) "2024-03-10" = true
  /\ filteredStories
       (run (applyFilters new_york_2024 as_written) until_tenth_of_march)
     = []
  /\ isoNext india "2024-03-10" = inr "2024-03-11"
  /\ filteredStories
       (run (applyFilters india as_written) until_tenth_of_march)
     = [tenth_of_march].
Proof. repeat split; vm_compute; reflexivity. Qed.

(** C8, as stated: fallback labels.  The badge label and the district of
    a card are the texts of the properties as read, "undefined" when
    missing and nothing when empty, so no fixed label stands in for a
    missing or empty category, nor for a missing or empty district. *)
Lemma missing_fields_fallback_label_counterexample :
  badge_label (card_of as_written unlabelled) = "undefined"
  /\ badge_label (card_of as_written unlabelled)
     <> or_default (category unlabelled) "Uncategorised"
  /\ meta_district (card_of as_written unlabelled) = "undefined"
  /\ badge_label (card_of as_written blank_labels) = ""
  /\ meta_district (card_of as_written blank_labels) = ""
  /\ ~ (exists label,
          forall item,
            missing (category item) ->
            badge_label (card_of as_written item) = label)
  /\ ~ (exists place,
          forall item,
            missing (district item) ->
            meta_district (card_of as_written item) = place).
Proof.
  split; [reflexivity|]. split; [discriminate|]. repeat split.
  - intros [label H].
    pose proof (H unlabelled (or_introl eq_refl)) as H1.
    pose proof (H blank_labels (or_intror (or_intror eq_refl))) as H2.
    cbn in H1, H2. congruence.
  - intros [place H].
    pose proof (H unlabelled (or_introl eq_refl)) as H1.
    pose proof (H blank_labels (or_intror (or_intror eq_refl))) as H2.
    cbn in H1, H2. congruence.
Qed.


(** *** The theorems at concrete pages *)

Lemma paginator_slice_witness :
  1 <= 3
  /\ itemsPerPage long_page = Num 50
  /\ 1 <= 50
  /\ pageItems long_page 3 = drop 100 (filteredStories long_page)
  /\ map btn_text (pagination (run (renderPage as_written 3) long_page))
     = [1; 2; 3].
Proof.
  assert (H1 : 1 <= 3) by lia.
  assert (H2 : itemsPerPage long_page = Num 50) by reflexivity.
  assert (H3 : 1 <= 50) by lia.
  split; [exact H1|]. split; [exact H2|]. split; [exact H3|].
  destruct (paginator_slice as_written long_page 3 50 H1 H2 H3)
    as (_ & _ & _ & _ & _ & H).
  destruct (H eq_refl eq_refl) as (_ & Hbuttons & Hthird & _).
  split; [apply Hthird; reflexivity | exact Hbuttons].
Defined.

Lemma filters_combine_by_and_witness :
  end_bound india (end_date (controls governance_in_lucknow)) = inr None
  /\ filteredStories (run (applyFilters india as_written) governance_in_lucknow)
     = List.filter
         (fun s => strict_eq (category s) "Governance issues"
                   && strict_eq (district s) "Lucknow")
         mixed_stories.
Proof.
  split; [reflexivity|].
  destruct (filters_combine_by_and india as_written governance_in_lucknow None
              eq_refl) as (_ & _ & H).
  assert (H1 : value (category_select (controls governance_in_lucknow)) <> "")
    by (cbn; discriminate).
  assert (H2 : value (category_select (controls governance_in_lucknow)) <> "All")
    by (cbn; discriminate).
  assert (H3 : value (district_select (controls governance_in_lucknow)) <> "")
    by (cbn; discriminate).
  assert (H4 : value (district_select (controls governance_in_lucknow)) <> "All")
    by (cbn; discriminate).
  exact (proj1 (H eq_refl eq_refl H1 H2 H3 H4)).
Defined.

Lemma start_date_lower_bound_witness :
  start_date (controls from_second_of_may) <> ""
  /\ completes (applyFilters india as_written) from_second_of_may
  /\ forall s,
       In s (filteredStories (run (applyFilters india as_written)
                                  from_second_of_may)) ->
       ge (pubDate s) "2024-05-02" = true.
Proof.
  assert (H1 : start_date (controls from_second_of_may) <> "")
    by (cbn; discriminate).
  assert (H2 : completes (applyFilters india as_written) from_second_of_may)
    by (exists tt; reflexivity).
  split; [exact H1|]. split; [exact H2|].
  intros s Hs.
  apply (proj1 (start_date_lower_bound india as_written from_second_of_may H1 H2)
           s Hs).
Defined.


Lemma category_badge_class_witness :
  categoryToSlug ("Judicial" ++ String "l" (" " ++ String "C" "ases"))
  = categoryToSlug ("Judicial" ++ String "l" "") ++ "-"
    ++ categoryToSlug (String "C" "ases").
Proof.
  destruct (category_badge_class as_written) as (_ & _ & _ & _ & _ & _ & H & _).
  apply H; [reflexivity | reflexivity | discriminate | reflexivity].
Defined.

Lemma missing_fields_render_witness :
  In unlabelled [unlabelled; blank_labels]
  /\ badge_class (card_of as_written unlabelled) = "badge-uncategorised"
  /\ meta_district (card_of as_written unlabelled) = "undefined".
Proof.
  assert (H : In unlabelled [unlabelled; blank_labels]) by (left; reflexivity).
  split; [exact H|].
  destruct (missing_fields_render as_written [unlabelled; blank_labels]
              (page_of plain_controls [] []) unlabelled H)
    as (_ & _ & _ & Hclass & _ & Hplace & _).
  split; [apply Hclass; left; reflexivity | apply Hplace; reflexivity].
Defined.

Lemma end_date_inclusive_in_india :
  zone india = fixed_zone 19800000
  /\ parse_date (end_date (controls until_tenth_of_march)) = Some 1710028800000
  /\ In tenth_of_march
       (filteredStories (run (applyFilters india as_written)
                             until_tenth_of_march)).
Proof.
  assert (H1 : zone india = fixed_zone 19800000) by reflexivity.
  assert (H2 : parse_date (end_date (controls until_tenth_of_march))
               = Some 1710028800000) by reflexivity.
  split; [exact H1|]. split; [exact H2|].
  destruct (end_date_inclusive_without_clock_change india as_written
              until_tenth_of_march 19800000 1710028800000 H1 H2 eq_refl)
    as (_ & _ & H).
  apply H; [left; reflexivity | reflexivity | reflexivity].
Defined.

(** ** Further properties of the script *)

Section Further.

Context (host : Host) (toLocaleString : string -> string).

Abbreviation applyFilters := (applyFilters host toLocaleString).
Abbreviation renderPage := (renderPage toLocaleString).
Abbreviation card_of := (card_of toLocaleString).

Lemma truthy_empty (s : string) : truthy s = false <-> s = "".
Proof. destruct s; cbn; split; congruence. Qed.

Lemma isoNext_invalid (endDate : string) :
  new_Date host endDate = None ->
  isoNext host endDate = inl (RangeError "Invalid time value").
Proof. intros H. unfold isoNext. now rewrite H. Qed.

(** X2.  The filter pass throws only over the end date: it completes when
    the end-date control is empty, or holds a text the host reads as a
    date whose next local day is a time value in range.  Otherwise it
    throws [RangeError] before it writes anything, and the page stays
    exactly as it was.  When it completes with an end date, the bound of
    the end-date filter is the UTC date of that next local day. *)
Theorem filter_pass_throws_only_on_end_date (p : Page) :
  let endDate := end_date (controls p) in
  let next t := TimeClip (UTC (zone host) (LocalTime (zone host) t + msPerDay)) in
  (completes applyFilters p
   <-> endDate = ""
       \/ exists t u, new_Date host endDate = Some t /\ next t = Some u)
  /\ (~ completes applyFilters p ->
      applyFilters p = (inl (RangeError "Invalid time value"), p))
  /\ (forall t u,
        endDate <> "" ->
        new_Date host endDate = Some t ->
        next t = Some u ->
        filteredStories (run applyFilters p)
        = List.filter (passes (controls p) (Some (iso_date u))) (stories p)).
Proof.
  intros endDate next.
  assert (Hcases :
    (endDate = "" /\ end_bound host endDate = inr None)
    \/ (endDate <> "" /\ new_Date host endDate = None
        /\ end_bound host endDate = inl (RangeError "Invalid time value"))
    \/ (exists t, endDate <> "" /\ new_Date host endDate = Some t
          /\ next t = None
          /\ end_bound host endDate = inl (RangeError "Invalid time value"))
    \/ (exists t u, endDate <> "" /\ new_Date host endDate = Some t
          /\ next t = Some u
          /\ end_bound host endDate = inr (Some (iso_date u)))).
  { unfold end_bound. destruct (truthy endDate) eqn:Ht.
    - assert (endDate <> "") by (intros E; rewrite E in Ht; discriminate Ht).
      right. destruct (new_Date host endDate) as [t|] eqn:Hd.
      + right. rewrite (isoNext_instant host endDate t Hd). fold (next t).
        destruct (next t) as [u|] eqn:Hu.
        * right. exists t, u. auto.
        * left. exists t. auto.
      + left. rewrite (isoNext_invalid endDate Hd). auto.
    - left. apply truthy_empty in Ht. auto. }
  subst endDate.
  split; [|split].
  - rewrite applyFilters_completes.
    destruct Hcases as [(E & H)|[(E & Hd & H)|[(t & E & Hd & Hu & H)|(t & u & E & Hd & Hu & H)]]];
      rewrite H; split.
    + auto.
    + eauto.
    + intros [b Hb]; discriminate Hb.
    + intros [E'|(t & u & Ht & _)]; [contradiction | congruence].
    + intros [b Hb]; discriminate Hb.
    + intros [E'|(t' & u & Ht & Hu')]; [contradiction|].
      assert (t' = t) by congruence. subst t'. congruence.
    + intros _. right. eauto.
    + eauto.
  - intros Hn. rewrite applyFilters_runs.
    rewrite applyFilters_completes in Hn.
    destruct Hcases as [(E & H)|[(E & Hd & H)|[(t & E & Hd & Hu & H)|(t & u & E & Hd & Hu & H)]]];
      rewrite H in *; try reflexivity; exfalso; apply Hn; eauto.
  - intros t u E Hd Hu.
    destruct Hcases as [(E' & H)|[(_ & Hd' & H)|[(t' & _ & Hd' & Hu' & H)|(t' & u' & _ & Hd' & Hu' & H)]]];
      try contradiction; try congruence.
    assert (t' = t) by congruence. subst t'.
    assert (u' = u) by congruence. subst u'.
    exact (filter_pass_result host toLocaleString p _ H).
Qed.

(** X3.  A filter pass forgets what was on the page: of the page it reads
    only the collection, the controls and the page size.  Two pages that
    agree on those complete together and are then left as the same page;
    so a second pass right after a completed one changes nothing. *)
Theorem filter_pass_forgets_history (p q : Page) :
  stories p = stories q ->
  controls p = controls q ->
  itemsPerPage p = itemsPerPage q ->
  (completes applyFilters p <-> completes applyFilters q)
  /\ (completes applyFilters p ->
      run applyFilters p = run applyFilters q
      /\ completes applyFilters (run applyFilters p)
      /\ run applyFilters (run applyFilters p) = run applyFilters p).
Proof.
  intros Hs Hc Hi.
  split.
  - rewrite !applyFilters_completes, Hc. reflexivity.
  - intros Hdone. apply applyFilters_completes in Hdone as [bound Hb].
    assert (Hq : end_bound host (end_date (controls q)) = inr bound)
      by now rewrite <- Hc.
    rewrite (applyFilters_result host toLocaleString p bound Hb).
    rewrite (applyFilters_result host toLocaleString q bound Hq).
    assert (Hpq : filtered_page toLocaleString bound p
                  = filtered_page toLocaleString bound q).
    { destruct p, q; cbn in Hs, Hc, Hi; subst.
      reflexivity. }
    split; [exact Hpq|].
    assert (Hb' : end_bound host
                    (end_date (controls (filtered_page toLocaleString bound p)))
                  = inr bound) by exact Hb.
    split; [apply applyFilters_completes; eauto|].
    rewrite (applyFilters_result host toLocaleString _ bound Hb').
    destruct p; reflexivity.
Qed.

Lemma ceil_div_bounds (n k : Z) :
  0 <= n -> 1 <= k ->
  (ceil_div n k - 1) * k < n <= ceil_div n k * k \/ (n = 0 /\ ceil_div n k = 0).
Proof.
  intros Hn Hk. unfold ceil_div.
  destruct (Z.eq_dec n 0) as [->|Hne].
  - right. split; [reflexivity|]. cbn. reflexivity.
  - left. pose proof (Z.div_mod (- n) k ltac:(lia)) as H.
    pose proof (Z.mod_pos_bound (- n) k ltac:(lia)) as Hr.
    nia.
Qed.

(** An empty selection, and only that, shows the notice. *)
Lemma shows_notice_iff (items : list Story) :
  shows toLocaleString items = set_innerHTML no_match_notice <-> items = [].
Proof.
  destruct items; cbn; split; intros H; try reflexivity; discriminate H.
Qed.

(** X9.  Today's selection always fits one page.  After the Today button
    there are at most 50 filtered stories, no pagination button, and one
    card for each filtered story; the notice of no match is shown exactly
    when nothing is selected, which is exactly when no story of the
    collection has a publication date that starts with the UTC date of
    the clock. *)
Theorem today_fits_one_page (now : Z) (p : Page) :
  let p' := run (todayBtn_click toLocaleString now) p in
  (length (filteredStories p') <= 50)%nat
  /\ pagination p' = []
  /\ cards (news_container p') = map card_of (filteredStories p')
  /\ (filteredStories p' = []
      <-> news_container p' = set_innerHTML no_match_notice)
  /\ (filteredStories p' = []
      <-> forall s, In s (stories p) ->
                    startsWith (pubDate s) (iso_date now) = false).
Proof.
  intros p'. subst p'. unfold run. rewrite todayBtn_click_runs, todayStr_utc_date.
  cbn [snd]. rewrite slice_first by lia. change (Z.to_nat 50) with 50%nat.
  set (matching := List.filter _ (stories p)).
  set (q := with_currentPage 1 _).
  assert (Hf : filteredStories (painted toLocaleString 1 q) = take 50 matching)
    by reflexivity.
  assert (Hlen : (length (take 50 matching) <= 50)%nat)
    by (rewrite length_take; lia).
  assert (Hitems : pageItems q 1 = take 50 matching).
  { rewrite (pageItems_finite q 1 50 eq_refl).
    change (filteredStories q) with (take 50 matching).
    change ((1 - 1) * 50) with 0. change (0 + 50) with 50.
    rewrite slice_first by lia. change (Z.to_nat 50) with 50%nat.
    now rewrite take_take. }
  assert (Hc : news_container (painted toLocaleString 1 q)
               = shows toLocaleString (take 50 matching))
    by (rewrite <- Hitems; reflexivity).
  assert (Hp : pagination (painted toLocaleString 1 q) = []).
  { change (pagination (painted toLocaleString 1 q))
      with (page_links (totalPages q) 1).
    unfold page_links. rewrite (totalPages_finite q 50 eq_refl).
    change (filteredStories q) with (take 50 matching).
    destruct (Z.leb_spec (ceil_div (Z.of_nat (length (take 50 matching))) 50) 1)
      as [_|H]; [reflexivity|].
    destruct (ceil_div_bounds (Z.of_nat (length (take 50 matching))) 50
                ltac:(lia) ltac:(lia)) as [Hb|[_ Hb]]; lia. }
  rewrite Hf, Hc, Hp.
  split; [exact Hlen|]. split; [reflexivity|]. split; [|split].
  - destruct (take 50 matching); reflexivity.
  - symmetry. apply shows_notice_iff.
  - assert (Hnil : take 50 matching = [] <-> matching = [])
      by (destruct matching; cbn; split; congruence).
    rewrite Hnil. subst matching. split.
    + intros H s Hs.
      destruct (startsWith (pubDate s) (iso_date now)) eqn:E; [|reflexivity].
      assert (Hin : In s (List.filter
                (fun s => startsWith (pubDate s) (iso_date now)) (stories p)))
        by (apply filter_In; auto).
      rewrite H in Hin. contradiction.
    + intros H.
      destruct (List.filter _ (stories p)) as [|s m] eqn:E; [reflexivity|].
      assert (Hin : In s (List.filter
                (fun s => startsWith (pubDate s) (iso_date now)) (stories p)))
        by (rewrite E; now left).
      apply filter_In in Hin as [Hs Hp']. rewrite (H s Hs) in Hp'.
      discriminate Hp'.
Qed.

Lemma count_from_seq (a : Z) (n : nat) :
  count_from a n = map (fun i => a + Z.of_nat i) (seq 0 n).
Proof.
  revert a. induction n as [|n IH]; intros a; [reflexivity|].
  cbn [count_from seq map]. rewrite IH, <- seq_shift, map_map.
  replace (a + Z.of_nat 0) with a by lia.
  f_equal. apply map_ext. intros i. lia.
Qed.

Lemma in_count_from (a : Z) (n : nat) (i : Z) :
  In i (count_from a n) <-> a <= i < a + Z.of_nat n.
Proof.
  rewrite count_from_seq, in_map_iff. split.
  - intros (k & <- & Hk). apply in_seq in Hk. lia.
  - intros H. exists (Z.to_nat (i - a)). split; [lia|]. apply in_seq. lia.
Qed.

(** Consecutive runs of [k] elements, enough of them, make up the list. *)
Lemma concat_chunks {A} (k : nat) (l : list A) (n : nat) :
  (length l <= n * k)%nat ->
  concat (map (fun i => take k (drop (i * k) l)) (seq 0 n)) = l.
Proof.
  revert l. induction n as [|n IH]; intros l H.
  - destruct l; [reflexivity | cbn in H; lia].
  - cbn [seq map concat]. rewrite <- seq_shift, map_map.
    rewrite (map_ext _ (fun i => take k (drop (i * k) (drop k l)))).
    + rewrite IH by (rewrite length_drop; lia).
      cbn [Nat.mul drop]. apply take_drop.
    + intros i. rewrite drop_drop. do 2 f_equal; lia.
Qed.

Lemma pageItems_chunk (p : Page) (perPage : Z) (i : nat) :
  itemsPerPage p = Num perPage ->
  1 <= perPage ->
  pageItems p (1 + Z.of_nat i)
  = take (Z.to_nat perPage)
         (drop (i * Z.to_nat perPage) (filteredStories p)).
Proof.
  intros Hnum H. rewrite (pageItems_finite p _ perPage Hnum).
  rewrite slice_forward by nia.
  do 2 f_equal; nia.
Qed.

Lemma renderPage_cards (page : Z) (p : Page) :
  cards (news_container (run (renderPage page) p))
  = map card_of (pageItems p page).
Proof.
  unfold run. rewrite renderPage_runs. cbn.
  destruct (pageItems p page); reflexivity.
Qed.

Lemma totalPages_bounds (p : Page) (perPage : Z) :
  itemsPerPage p = Num perPage ->
  1 <= perPage ->
  0 <= totalPages p
  /\ Z.of_nat (length (filteredStories p)) <= totalPages p * perPage
  /\ (filteredStories p <> [] ->
      (totalPages p - 1) * perPage
      < Z.of_nat (length (filteredStories p))).
Proof.
  intros Hnum H. rewrite (totalPages_finite p perPage Hnum).
  destruct (ceil_div_bounds (Z.of_nat (length (filteredStories p)))
              perPage ltac:(lia) H) as [Hb|[H0 Hb]].
  - split; [nia|]. split; [lia|]. intros _. lia.
  - rewrite Hb. split; [lia|]. split; [lia|].
    intros Hne. destruct (filteredStories p); [contradiction | cbn in H0; lia].
Qed.

Lemma totalPages_nil (p : Page) :
  filteredStories p = [] -> totalPages p = 0.
Proof.
  intros E. unfold totalPages, ceil_quotient, ceil_div. rewrite E.
  now destruct (itemsPerPage p).
Qed.

(** X5.  The pages partition the filtered stories.  With an integer page
    size of at least one, the cards [renderPage] shows for the pages 1 to
    [totalPages], put end to end, are the cards of [filteredStories] in
    their order: no story is lost between two pages and none is shown
    twice.  Each of these pages holds at least one story, and every page
    but the last holds exactly [itemsPerPage] of them. *)
Theorem pages_partition_filtered (p : Page) (perPage : Z) :
  itemsPerPage p = Num perPage ->
  1 <= perPage ->
  let pages := count_from 1 (Z.to_nat (totalPages p)) in
  concat (map (fun page => cards (news_container (run (renderPage page) p)))
              pages)
  = map card_of (filteredStories p)
  /\ concat (map (pageItems p) pages) = filteredStories p
  /\ (forall page, In page pages <-> 1 <= page <= totalPages p)
  /\ (forall page, In page pages -> pageItems p page <> [])
  /\ (forall page, In page pages -> page < totalPages p ->
        length (pageItems p page) = Z.to_nat perPage).
Proof.
  intros Hnum Hk pages.
  destruct (totalPages_bounds p perPage Hnum Hk) as (HT0 & HTn & HTlast).
  assert (Hin : forall page, In page pages <-> 1 <= page <= totalPages p).
  { intros page. subst pages. rewrite in_count_from. lia. }
  assert (Hcat : concat (map (pageItems p) pages) = filteredStories p).
  { subst pages. rewrite count_from_seq, map_map.
    rewrite (map_ext _ (fun i => take (Z.to_nat perPage)
                                   (drop (i * Z.to_nat perPage)
                                         (filteredStories p))))
      by (intros i; now apply pageItems_chunk).
    apply concat_chunks. nia. }
  split; [|split; [exact Hcat|split; [exact Hin|split]]].
  - rewrite (map_ext _ (fun page => map card_of (pageItems p page)))
      by (intros page; apply renderPage_cards).
    transitivity (map card_of (concat (map (pageItems p) pages)));
      [|now rewrite Hcat].
    now rewrite concat_map, map_map.
  - intros page Hp. apply Hin in Hp.
    replace page with (1 + Z.of_nat (Z.to_nat (page - 1))) by lia.
    rewrite (pageItems_chunk p perPage _ Hnum Hk).
    assert (Hne : filteredStories p <> []).
    { intros E. rewrite (totalPages_nil p E) in Hp. lia. }
    specialize (HTlast Hne).
    intros E. apply (f_equal (@length Story)) in E.
    rewrite length_take, length_drop in E. cbn in E. nia.
  - intros page Hp Hlt. apply Hin in Hp.
    replace page with (1 + Z.of_nat (Z.to_nat (page - 1))) by lia.
    rewrite (pageItems_chunk p perPage _ Hnum Hk).
    assert (Hne : filteredStories p <> []).
    { intros E. rewrite (totalPages_nil p E) in Hp. lia. }
    specialize (HTlast Hne).
    rewrite length_take, length_drop. nia.
Qed.

Lemma page_links_texts (T c : Z) :
  map btn_text (page_links T c)
  = if T <=? 1 then [] else count_from 1 (Z.to_nat T).
Proof.
  unfold page_links. destruct (T <=? 1); [reflexivity|].
  rewrite map_map. cbn. apply map_id.
Qed.

Lemma page_links_active (T c : Z) (b : Button) :
  In b (page_links T c) ->
  1 <= btn_text b <= T /\ (btn_active b = true <-> btn_text b = c).
Proof.
  unfold page_links. destruct (T <=? 1); [contradiction|].
  intros H. apply in_map_iff in H as (i & <- & Hi).
  apply in_count_from in Hi. cbn. rewrite Z.eqb_eq. split; [lia | reflexivity].
Qed.

Lemma renderPage_pagination (page : Z) (p : Page) :
  pagination (run (renderPage page) p)
  = page_links (totalPages p) (currentPage p).
Proof. unfold run. now rewrite renderPage_runs. Qed.

Lemma one_page_iff (p : Page) (perPage : Z) :
  itemsPerPage p = Num perPage ->
  1 <= perPage ->
  totalPages p <= 1
  <-> Z.of_nat (length (filteredStories p)) <= perPage.
Proof.
  intros Hnum Hk.
  destruct (totalPages_bounds p perPage Hnum Hk) as (H0 & Hn & Hlast).
  destruct (filteredStories p) as [|s l] eqn:E.
  - cbn. rewrite (totalPages_nil p E). lia.
  - assert (Hne : s :: l <> []) by discriminate.
    specialize (Hlast Hne). split; intros H; nia.
Qed.

(** X6.  The pagination buttons.  With an integer page size of at least
    one,
    [renderPage] leaves no button exactly when the filtered stories fit
    on one page.  Otherwise the buttons are numbered 1, 2, ... up to
    [totalPages] in this order, there are at least two of them, and
    [totalPages] is the least number of pages that holds the stories.
    A button is marked active exactly when its number is [currentPage]. *)
Theorem pagination_buttons (p : Page) (page perPage : Z) :
  itemsPerPage p = Num perPage ->
  1 <= perPage ->
  let p' := run (renderPage page) p in
  let n := Z.of_nat (length (filteredStories p)) in
  (pagination p' = [] <-> n <= perPage)
  /\ (perPage < n ->
      map btn_text (pagination p') = count_from 1 (Z.to_nat (totalPages p))
      /\ 2 <= totalPages p
      /\ (totalPages p - 1) * perPage < n <= totalPages p * perPage)
  /\ (forall b, In b (pagination p') ->
        1 <= btn_text b <= totalPages p
        /\ (btn_active b = true <-> btn_text b = currentPage p)).
Proof.
  intros Hnum Hk p' n. subst p'. rewrite renderPage_pagination.
  pose proof (one_page_iff p perPage Hnum Hk) as Hone. fold n in Hone.
  destruct (totalPages_bounds p perPage Hnum Hk) as (H0 & Hn & Hlast).
  fold n in Hn, Hlast.
  pose proof (page_links_texts (totalPages p) (currentPage p)) as Htexts.
  split; [|split].
  - rewrite <- Hone. split.
    + intros E. rewrite E in Htexts. cbn in Htexts.
      destruct (Z.leb_spec (totalPages p) 1) as [H|H]; [exact H|].
      destruct (Z.to_nat (totalPages p)) eqn:ET; [lia | discriminate Htexts].
    + intros H. unfold page_links.
      destruct (Z.leb_spec (totalPages p) 1); [reflexivity | lia].
  - intros Hmany.
    assert (HT : 2 <= totalPages p) by lia.
    split; [|split; [exact HT|]].
    + rewrite Htexts. destruct (Z.leb_spec (totalPages p) 1); [lia | reflexivity].
    + split; [|exact Hn]. apply Hlast. intros E. subst n. rewrite E in Hmany.
      cbn in Hmany. lia.
  - intros b Hb. now apply page_links_active.
Qed.

Lemma existsb_button (i : Z) (l : list Button) :
  existsb (fun b => btn_text b =? i) l = true <-> In i (map btn_text l).
Proof.
  rewrite existsb_exists, in_map_iff. split.
  - intros (b & Hb & E). apply Z.eqb_eq in E. eauto.
  - intros (b & E & Hb). exists b. split; [exact Hb | now apply Z.eqb_eq].
Qed.

Lemma ClickPage_runs (i : Z) (p : Page) :
  dispatch host toLocaleString (ClickPage i) p
  = if existsb (fun b => btn_text b =? i) (pagination p)
    then painted toLocaleString i (with_currentPage i p)
    else p.
Proof.
  unfold dispatch, run. cbv beta iota delta [fire bind read].
  destruct (existsb _ (pagination p)); [|reflexivity].
  now rewrite pageBtn_click_runs.
Qed.

(** X7.  A click on a pagination button only turns the page.  On a page
    whose buttons are those [renderPagination] left, the click on button
    [i] sets [currentPage] to [i] and shows the [i]th slice of the
    filtered stories; the collection, the filtered stories, the page size
    and the controls stay as they were (nothing is filtered again); the
    same buttons are shown, with [i] and no other marked active; and a
    later click on a button [j] gives the page a click on [j] alone would
    have given.  An event for a button that is not shown changes nothing. *)
Theorem page_click_shows_that_page (i : Z) (p : Page) :
  pagination p = page_links (totalPages p) (currentPage p) ->
  let click k := dispatch host toLocaleString (ClickPage k) in
  (~ In i (map btn_text (pagination p)) -> click i p = p)
  /\ (In i (map btn_text (pagination p)) ->
      currentPage (click i p) = i
      /\ stories (click i p) = stories p
      /\ filteredStories (click i p) = filteredStories p
      /\ itemsPerPage (click i p) = itemsPerPage p
      /\ controls (click i p) = controls p
      /\ news_container (click i p) = shows toLocaleString (pageItems p i)
      /\ map btn_text (pagination (click i p)) = map btn_text (pagination p)
      /\ (forall b, In b (pagination (click i p)) ->
            (btn_active b = true <-> btn_text b = i))
      /\ (forall j, In j (map btn_text (pagination p)) ->
            click j (click i p) = click j p)).
Proof.
  intros Hlinks click. subst click. cbv beta. split.
  - intros Hno. rewrite ClickPage_runs.
    destruct (existsb _ (pagination p)) eqn:E; [|reflexivity].
    apply existsb_button in E. contradiction.
  - intros Hi. rewrite ClickPage_runs.
    replace (existsb (fun b => btn_text b =? i) (pagination p)) with true
      by (symmetry; now apply existsb_button).
    set (p1 := painted toLocaleString i (with_currentPage i p)).
    assert (Hp1 : pagination p1 = page_links (totalPages p) i) by reflexivity.
    assert (Htexts : map btn_text (pagination p1) = map btn_text (pagination p))
      by (rewrite Hp1, Hlinks, !page_links_texts; reflexivity).
    do 6 (split; [reflexivity|]). split; [exact Htexts|]. split.
    + intros b Hb. apply (page_links_active (totalPages p) i b).
      now rewrite <- Hp1.
    + intros j Hj. rewrite !ClickPage_runs.
      replace (existsb (fun b => btn_text b =? j) (pagination p)) with true
        by (symmetry; now apply existsb_button).
      replace (existsb (fun b => btn_text b =? j) (pagination p1)) with true
        by (symmetry; apply existsb_button; now rewrite Htexts).
      subst p1. destruct p; reflexivity.
Qed.

(** X10.  The notice of no match.  After a completed filter pass, with an
    integer page size of at least one, the container holds the notice
    exactly when no story passes the filters, and then no pagination
    button is shown.
    When some story passes, the text of the container is empty and it
    holds at least one card: the cards of the first [itemsPerPage]
    filtered stories. *)
Theorem no_match_shows_notice (p : Page) (perPage : Z) :
  completes applyFilters p ->
  itemsPerPage p = Num perPage ->
  1 <= perPage ->
  let p' := run applyFilters p in
  (filteredStories p' = []
   <-> news_container p' = set_innerHTML no_match_notice)
  /\ (filteredStories p' = [] -> pagination p' = [])
  /\ (filteredStories p' <> [] ->
      markup (news_container p') = ""
      /\ cards (news_container p')
         = map card_of (take (Z.to_nat perPage) (filteredStories p'))
      /\ cards (news_container p') <> []).
Proof.
  intros Hdone Hnum Hk p'.
  apply applyFilters_completes in Hdone as [bound Hb].
  subst p'. rewrite (applyFilters_result host toLocaleString p bound Hb).
  unfold filtered_page.
  set (kept := List.filter _ (stories p)).
  set (q := with_currentPage 1 (with_filteredStories kept p)).
  change (filteredStories (painted toLocaleString 1 q)) with kept.
  change (news_container (painted toLocaleString 1 q))
    with (shows toLocaleString (pageItems q 1)).
  change (pagination (painted toLocaleString 1 q))
    with (page_links (totalPages q) 1).
  assert (Hitems : pageItems q 1 = take (Z.to_nat perPage) kept).
  { rewrite (pageItems_finite q 1 perPage Hnum).
    change (filteredStories q) with kept.
    replace ((1 - 1) * perPage) with 0 by lia. rewrite Z.add_0_l.
    now rewrite slice_first by lia. }
  assert (Hnil : take (Z.to_nat perPage) kept = [] <-> kept = []).
  { destruct kept as [|s l]; [now rewrite take_nil|].
    destruct (Z.to_nat perPage) eqn:E; [lia|].
    cbn. split; discriminate. }
  rewrite Hitems, shows_notice_iff, Hnil.
  split; [reflexivity|]. split.
  - intros E. rewrite (totalPages_nil q E). reflexivity.
  - intros Hne. rewrite <- Hnil in Hne.
    destruct (take (Z.to_nat perPage) kept) as [|s l];
      [contradiction|].
    cbn. repeat split. discriminate.
Qed.

(** X12.  A story without a label is hidden by a selection.  When a category
    is selected, a completed filter pass keeps no story whose category is
    absent, null or empty; when a district is selected, none whose
    district is absent, null or empty. *)
Theorem unlabelled_hidden_by_selection (p : Page) (s : Story) :
  completes applyFilters p ->
  let c := controls p in
  let result := filteredStories (run applyFilters p) in
  (selects (value (category_select c)) = true ->
     missing (category s) -> ~ In s result)
  /\ (selects (value (district_select c)) = true ->
      missing (district s) -> ~ In s result).
Proof.
  intros Hdone c result.
  apply applyFilters_completes in Hdone as [bound Hb].
  assert (Hmiss : forall v t, missing v -> t <> "" -> v <> Text t).
  { intros v t [-> | [-> | ->]] Ht E; try discriminate E.
    injection E as <-. now apply Ht. }
  split; intros Hsel Hm Hin;
    apply (selects_iff toLocaleString) in Hsel as [H1 H2];
    apply (filter_pass_member host toLocaleString p bound s Hb) in Hin;
    destruct Hin as [_ Hin];
    destruct (proj1 (passes_iff toLocaleString (controls p) bound s) Hin)
      as (_ & _ & Hc & Hd).
  - exact (Hmiss _ _ Hm H1 (Hc H1 H2)).
  - exact (Hmiss _ _ Hm H1 (Hd H1 H2)).
Qed.

Lemma lower_unit_twice (c : ascii) : lower_unit (lower_unit c) = lower_unit c.
Proof. destruct c as [[] [] [] [] [] [] [] []]; reflexivity. Qed.

Lemma toLowerCase_twice (s : string) :
  toLowerCase (toLowerCase s) = toLowerCase s.
Proof.
  induction s as [|c s IH]; cbn; [reflexivity|].
  now rewrite lower_unit_twice, IH.
Qed.

Lemma toLowerCase_replace (in_run : bool) (s : string) :
  toLowerCase (replace_space_runs "-" in_run s)
  = replace_space_runs "-" in_run (toLowerCase s).
Proof.
  revert in_run. induction s as [|c s IH]; intros in_run; cbn; [reflexivity|].
  rewrite is_space_lower_unit.
  destruct (is_space c); [destruct in_run|]; cbn; now rewrite IH.
Qed.

Lemma replace_all_space (in_run : bool) (ws : string) :
  every is_space ws = true ->
  replace_space_runs "-" true ws = "".
Proof.
  induction ws as [|c ws IH]; cbn; [reflexivity|].
  intros H. apply andb_true_iff in H as [Hc Hws]. rewrite Hc. now apply IH.
Qed.

(** X11.  White space at the ends of a category.  [categoryToSlug] turns a
    run of white space at the start into one leading hyphen and a run at
    the end into one trailing hyphen (nothing is trimmed), so a category
    of white space only gets the class [badge--]; and a slug is its own
    slug. *)
Theorem slug_of_outer_white_space :
  (forall ws y b,
     ws <> "" -> every is_space ws = true -> is_space y = false ->
     categoryToSlug (ws ++ String y b) = "-" ++ categoryToSlug (String y b))
  /\ (forall a x ws,
        ws <> "" -> every is_space ws = true -> is_space x = false ->
        categoryToSlug (a ++ String x ws)
        = categoryToSlug (a ++ String x "") ++ "-")
  /\ (forall ws item,
        ws <> "" -> every is_space ws = true ->
        category item = Text ws ->
        badge_class (card_of item) = "badge--")
  /\ (forall cat, categoryToSlug (categoryToSlug cat) = categoryToSlug cat).
Proof.
  assert (Hall : forall ws, ws <> "" -> every is_space ws = true ->
                 replace_space_runs "-" false (toLowerCase ws) = "-").
  { intros [|c ws] Hne Hws; [contradiction|].
    cbn in Hws |- *. apply andb_true_iff in Hws as [Hc Hws].
    rewrite is_space_lower_unit, Hc.
    rewrite (replace_all_space true) by now rewrite every_space_toLowerCase.
    reflexivity. }
  split; [|split; [|split]].
  - intros [|c ws] y b Hne Hws Hy; [contradiction|].
    unfold categoryToSlug. cbn in Hws. apply andb_true_iff in Hws as [Hc Hws].
    cbn [append toLowerCase replace_space_runs].
    rewrite is_space_lower_unit, Hc.
    rewrite toLowerCase_app. cbn [toLowerCase].
    rewrite replace_in_run;
      [reflexivity | now rewrite every_space_toLowerCase
                   | now rewrite is_space_lower_unit].
  - intros a x ws Hne Hws Hx. unfold categoryToSlug.
    rewrite !toLowerCase_app. cbn [toLowerCase].
    rewrite replace_after_unit by now rewrite is_space_lower_unit.
    f_equal. now apply Hall.
  - intros ws item Hne Hws Hcat. unfold Dashboard.card_of. cbn [badge_class].
    rewrite Hcat. unfold or_default.
    replace (truthy ws) with true by (destruct ws; [contradiction|reflexivity]).
    unfold categoryToSlug. now rewrite Hall.
  - intros cat. unfold categoryToSlug.
    rewrite toLowerCase_replace, toLowerCase_twice.
    apply replace_without_space.
    pose proof (replace_leaves_no_space (toLowerCase cat) false) as H.
    exact H.
Qed.

(** *** The district options *)

Lemma in_truthy_values (d : string) (a : list Value) :
  In d (truthy_values a) <-> In (Text d) a /\ d <> "".
Proof.
  induction a as [|v a IH]; cbn; [tauto|].
  destruct v as [| |t]; rewrite ?IH.
  - split; [tauto|]. intros [[H|H] Hd]; [discriminate H | tauto].
  - split; [tauto|]. intros [[H|H] Hd]; [discriminate H | tauto].
  - destruct (truthy t) eqn:Ht.
    + assert (t <> "") by (intros ->; discriminate Ht).
      cbn. rewrite IH. split.
      * intros [->|H']; [tauto | tauto].
      * intros [[H'|H'] Hd]; [left; congruence | tauto].
    + apply truthy_empty in Ht. subst t. rewrite IH.
      split; [tauto|]. intros [[H|H] Hd]; [|tauto].
      injection H as <-. contradiction.
Qed.

Lemma existsb_eqb_In (x : string) (l : list string) :
  existsb (String.eqb x) l = true <-> In x l.
Proof.
  rewrite existsb_exists. split.
  - intros (y & Hy & E). apply String.eqb_eq in E. now subst y.
  - intros H. exists x. split; [exact H | apply String.eqb_refl].
Qed.

Lemma in_unique (x : string) (seen a : list string) :
  In x (unique seen a) <-> In x a /\ ~ In x seen.
Proof.
  revert seen. induction a as [|y a IH]; intros seen; cbn; [tauto|].
  destruct (existsb (String.eqb y) seen) eqn:E.
  - apply existsb_eqb_In in E. rewrite IH. split; [tauto|].
    intros [[->|H] Hn]; tauto.
  - assert (Hy : ~ In y seen)
      by (intros H; apply existsb_eqb_In in H; congruence).
    cbn. rewrite IH. cbn. split.
    + intros [->|[H Hn]]; [tauto|]. tauto.
    + intros [[->|H] Hn]; [tauto|].
      destruct (string_dec y x) as [->|Hne]; [tauto|]. right. tauto.
Qed.

Lemma NoDup_unique (seen a : list string) : List.NoDup (unique seen a).
Proof.
  revert seen. induction a as [|y a IH]; intros seen; cbn; [apply List.NoDup_nil|].
  destruct (existsb (String.eqb y) seen); [apply IH|].
  apply List.NoDup_cons; [|apply IH].
  rewrite in_unique. cbn. tauto.
Qed.

Lemma insert_sorted_perm (x : string) (a : list string) :
  Permutation (insert_sorted x a) (x :: a).
Proof.
  induction a as [|y a IH]; cbn; [reflexivity|].
  destruct (String.leb x y); [reflexivity|].
  rewrite IH. apply perm_swap.
Qed.

Lemma sort_perm (a : list string) : Permutation (sort a) a.
Proof.
  induction a as [|x a IH]; cbn; [reflexivity|].
  fold (sort a). rewrite insert_sorted_perm. now rewrite IH.
Qed.

Lemma insert_sorted_ascending (x : string) (a : list string) :
  Sorted (fun u v => String.leb u v = true) a ->
  Sorted (fun u v => String.leb u v = true) (insert_sorted x a).
Proof.
  induction 1 as [|y a Hs IH Hhd]; cbn; [repeat constructor|].
  destruct (String.leb x y) eqn:E.
  - repeat constructor; assumption.
  - constructor; [exact IH|].
    assert (Hyx : String.leb y x = true)
      by (destruct (String.leb_total x y); congruence).
    destruct Hhd as [|z a Hz]; cbn; [constructor; exact Hyx|].
    destruct (String.leb x z); constructor; assumption.
Qed.

Lemma sort_ascending (a : list string) :
  Sorted (fun u v => String.leb u v = true) (sort a).
Proof.
  induction a as [|x a IH]; cbn; [constructor|].
  now apply insert_sorted_ascending.
Qed.

Lemma leb_ne_ltb (u v : string) :
  String.leb u v = true -> u <> v -> String.ltb u v = true.
Proof.
  unfold String.leb, String.ltb.
  destruct (String.compare u v) eqn:E; try discriminate; [|reflexivity].
  apply String.compare_eq_iff in E. contradiction.
Qed.

Lemma ascending_distinct (a : list string) :
  Sorted (fun u v => String.leb u v = true) a ->
  List.NoDup a ->
  Sorted (fun u v => String.ltb u v = true) a.
Proof.
  induction 1 as [|x a Hs IH Hhd]; intros Hnd; [constructor|].
  apply List.NoDup_cons_iff in Hnd as [Hx Hnd].
  constructor; [now apply IH|].
  destruct Hhd as [|y a Hy]; constructor.
  apply leb_ne_ltb; [exact Hy|]. intros ->. apply Hx. now left.
Qed.

Lemma has_option_app (v : string) (o l : list string) (w : string) :
  has_option v {| options := o; value := w |} = true ->
  has_option v {| options := o ++ l; value := w |} = true.
Proof.
  unfold has_option. cbn [options]. rewrite existsb_app. intros ->.
  reflexivity.
Qed.

(** Once an option is appended, an option is selected. *)
Lemma appendOption_selected (d : string) (s : Select) :
  has_option (value (appendOption d s)) (appendOption d s) = true.
Proof.
  destruct s as [o v]. unfold appendOption. cbn [options value].
  destruct (has_option v {| options := o; value := v |}) eqn:E.
  - apply (has_option_app v o [d]) in E. exact E.
  - unfold has_option. cbn [options]. rewrite existsb_app.
    destruct o as [|x o]; cbn; now rewrite String.eqb_refl.
Qed.

Lemma value_after_selected (s : Select) (l : list string) :
  has_option (value s) s = true -> value_after s l = value s.
Proof. intros H. unfold value_after. destruct l; [reflexivity | now rewrite H]. Qed.

Lemma forEach_appendOption (l : list string) (p : Page) :
  forEach l (fun d =>
      write (on_controls (fun c =>
        with_district_select (appendOption d (district_select c)) c)))
    p
  = (inr tt,
     with_controls
       (with_district_select
          {| options := options (district_select (controls p)) ++ l;
             value := value_after (district_select (controls p)) l |}
          (controls p))
       p).
Proof.
  revert p. induction l as [|d l IH]; intros p.
  - destruct p as [? ? ? ? [? ? ? [? ?] ?] ? ?]. cbn.
    rewrite app_nil_r. reflexivity.
  - cbn [forEach]. unfold bind at 1, write at 1. rewrite IH.
    destruct p as [? ? ? ? [? ? ? ds ?] ? ?].
    cbn [controls on_controls with_controls district_select
         with_district_select start_date end_date category_select
         items_per_page].
    rewrite (value_after_selected _ l (appendOption_selected d ds)).
    unfold appendOption at 1 2. cbn [options value value_after].
    rewrite <- app_assoc. reflexivity.
Qed.

Lemma initialiseFilters_controls (p : Page) :
  initialiseFilters p
  = (inr tt,
     with_controls
       (with_items_per_page (set_value "50" (items_per_page (controls p)))
         (with_district_select
            {| options :=
                 options (district_select (controls p))
                 ++ sort (unique [] (truthy_values (map district (stories p))));
               value :=
                 value_after (district_select (controls p))
                   (sort (unique [] (truthy_values (map district (stories p)))))
            |}
            (controls p)))
       p).
Proof.
  unfold initialiseFilters. unfold bind at 1, read at 1. unfold bind at 1.
  rewrite forEach_appendOption.
  unfold write. destruct p as [? ? ? ? [? ? ? [? ?] ?] ? ?]. reflexivity.
Qed.

Lemma district_options_helper (data : list Story) (p : Page) :
  exists c,
    initialiseFilters (with_stories data p)
    = (inr tt, with_controls c (with_stories data p))
    /\ start_date c = start_date (controls p)
    /\ end_date c = end_date (controls p)
    /\ category_select c = category_select (controls p)
    /\ value (district_select c)
       = value_after (district_select (controls p))
           (sort (unique [] (truthy_values (map district data)))).
Proof.
  eexists. split; [apply initialiseFilters_controls|].
  repeat split.
Qed.

(** X4.  The district options.  [initialiseFilters] always completes.  After
    the options the district select already has, it appends the non-empty
    districts of the collection, each of them once, in ascending order of
    their code units; a story with no district, or an empty one, adds
    nothing.  The district chosen stays when it is one of the options
    the select had, or when nothing is appended; in a drop-down where
    none was selected the first option of the new list becomes the
    choice, so without options in the markup the choice is the first
    district appended.  The dates and the category select are not
    touched, the items select is set to 50, and neither the collection,
    the filtered stories nor the container change. *)
Theorem district_options_sorted_distinct (p : Page) :
  let p' := run initialiseFilters p in
  completes initialiseFilters p
  /\ (exists added,
        options (district_select (controls p'))
        = (options (district_select (controls p)) ++ added)%list
        /\ List.NoDup added
        /\ Sorted (fun u v => String.ltb u v = true) added
        /\ (forall d, In d added
                      <-> d <> "" /\ exists s, In s (stories p)
                                               /\ district s = Text d)
        /\ value (district_select (controls p'))
           = value_after (district_select (controls p)) added
        /\ (added = [] ->
            value (district_select (controls p'))
            = value (district_select (controls p)))
        /\ (forall first rest,
              options (district_select (controls p)) = [] ->
              added = first :: rest ->
              value (district_select (controls p')) = first))
  /\ (has_option (value (district_select (controls p)))
                 (district_select (controls p)) = true ->
      value (district_select (controls p'))
      = value (district_select (controls p)))
  /\ start_date (controls p') = start_date (controls p)
  /\ end_date (controls p') = end_date (controls p)
  /\ category_select (controls p') = category_select (controls p)
  /\ items_per_page (controls p') = set_value "50" (items_per_page (controls p))
  /\ stories p' = stories p
  /\ filteredStories p' = filteredStories p
  /\ news_container p' = news_container p.
Proof.
  intros p'.
  set (added := sort (unique [] (truthy_values (map district (stories p))))).
  assert (Hrun : initialiseFilters p
    = (inr tt,
       with_controls
         (with_items_per_page (set_value "50" (items_per_page (controls p)))
           (with_district_select
              {| options := options (district_select (controls p)) ++ added;
                 value := value_after (district_select (controls p)) added |}
              (controls p)))
         p)) by apply initialiseFilters_controls.
  subst p'. unfold run, completes. rewrite Hrun. cbn [fst snd].
  cbn [controls with_controls district_select with_district_select
       with_items_per_page value options start_date end_date
       category_select items_per_page stories filteredStories
       news_container].
  split; [now exists tt|]. split; [|split; [|repeat split]].
  2: { intros Hsel. now apply value_after_selected. }
  exists added. split; [reflexivity|].
  assert (Hnd : List.NoDup added).
  { subst added.
    eapply Permutation_NoDup; [symmetry; apply sort_perm | apply NoDup_unique]. }
  split; [exact Hnd|]. split; [|split; [|split; [reflexivity|split]]].
  3: { intros ->. reflexivity. }
  3: { intros first rest Hnone ->. unfold value_after, has_option.
       rewrite Hnone. reflexivity. }
  - apply ascending_distinct; [apply sort_ascending | exact Hnd].
  - intros d. subst added.
    assert (Hperm : forall l, In d (sort l) <-> In d l).
    { intros l. split; apply Permutation_in;
        [apply sort_perm | symmetry; apply sort_perm]. }
    rewrite Hperm, in_unique, in_truthy_values, in_map_iff. cbn. split.
    + intros [[(s & Hs & Hin) Hd] _]. eauto.
    + intros [Hd (s & Hin & Hs)]. split; [|tauto]. split; [|exact Hd].
      now exists s.
Qed.

(** *** Page size, current page and buttons through a session *)

Lemma num_or_nonzero (n : Number) (d : Z) :
  d <> 0 -> num_or n d <> Num 0 /\ num_or n d <> NaN.
Proof.
  intros Hd. unfold num_or. destruct n as [|v|negative].
  - split; [congruence | discriminate].
  - destruct (Z.eqb_spec v 0); split; congruence || discriminate.
  - split; discriminate.
Qed.

Lemma page_links_positive (T c : Z) (b : Button) :
  In b (page_links T c) -> 1 <= btn_text b.
Proof. intros H. now destruct (page_links_active T c b H) as [[? _] _]. Qed.

Lemma painted_positive (k : Z) (q : Page) :
  (itemsPerPage q <> Num 0 /\ itemsPerPage q <> NaN) ->
  1 <= currentPage q ->
  (itemsPerPage (painted toLocaleString k q) <> Num 0
   /\ itemsPerPage (painted toLocaleString k q) <> NaN)
  /\ 1 <= currentPage (painted toLocaleString k q)
  /\ (forall b, In b (pagination (painted toLocaleString k q)) ->
        1 <= btn_text b).
Proof.
  intros H1 H2. split; [exact H1|]. split; [exact H2|].
  intros b Hb. exact (page_links_positive _ _ b Hb).
Qed.

Lemma applyFilters_positive (q : Page) :
  (itemsPerPage q <> Num 0 /\ itemsPerPage q <> NaN) ->
  1 <= currentPage q ->
  (forall b, In b (pagination q) -> 1 <= btn_text b) ->
  (itemsPerPage (run applyFilters q) <> Num 0
   /\ itemsPerPage (run applyFilters q) <> NaN)
  /\ 1 <= currentPage (run applyFilters q)
  /\ (forall b, In b (pagination (run applyFilters q)) -> 1 <= btn_text b).
Proof.
  intros H1 H2 H3. unfold run. rewrite applyFilters_runs.
  destruct (end_bound host (end_date (controls q))) as [e|bound]; cbn [snd].
  - auto.
  - unfold filtered_page. apply painted_positive; [exact H1 | cbn; lia].
Qed.

Lemma dispatch_positive (e : Event) (p : Page) :
  (itemsPerPage p <> Num 0 /\ itemsPerPage p <> NaN) ->
  1 <= currentPage p ->
  (forall b, In b (pagination p) -> 1 <= btn_text b) ->
  let q := dispatch host toLocaleString e p in
  (itemsPerPage q <> Num 0 /\ itemsPerPage q <> NaN)
  /\ 1 <= currentPage q
  /\ (forall b, In b (pagination q) -> 1 <= btn_text b).
Proof.
  intros H1 H2 H3 q. subst q.
  destruct e as [v|v|v|v|v|now| |i].
  - exact (applyFilters_positive (on_controls (with_start_date v) p) H1 H2 H3).
  - exact (applyFilters_positive (on_controls (with_end_date v) p) H1 H2 H3).
  - exact (applyFilters_positive
             (on_controls (fun c =>
                with_category_select (set_value v (category_select c)) c) p)
             H1 H2 H3).
  - exact (applyFilters_positive
             (on_controls (fun c =>
                with_district_select (set_value v (district_select c)) c) p)
             H1 H2 H3).
  - set (q1 := on_controls (fun c =>
                 with_items_per_page (set_value v (items_per_page c)) c) p).
    apply (applyFilters_positive
             (with_currentPage 1
               (with_itemsPerPage
                 (num_or (parseInt (value (items_per_page (controls q1)))) 50)
                 q1))).
    + apply num_or_nonzero. discriminate.
    + cbn. lia.
    + exact H3.
  - unfold dispatch, run. cbn [fire]. rewrite todayBtn_click_runs. cbn [snd].
    apply painted_positive; cbn; [split; discriminate | lia].
  - unfold dispatch, run. cbn [fire]. rewrite resetBtn_click_result. cbn [snd].
    apply painted_positive; cbn; [split; discriminate | lia].
  - rewrite ClickPage_runs.
    destruct (existsb _ (pagination p)) eqn:E; [|auto].
    apply existsb_exists in E as (b & Hb & Hi). apply Z.eqb_eq in Hi.
    apply painted_positive; [exact H1|]. cbn. rewrite <- Hi. now apply H3.
Qed.

(** X8.  Over a whole session, the load followed by any events, handlers
    that throw included, the page size is never zero (line 169 never
    divides by zero) and never [NaN], the current page is at least 1 and
    every pagination button carries a number of at least 1. *)
Theorem page_size_never_zero (c : Controls) (response : Error + list Story)
    (events : list Event) :
  let p := session host toLocaleString c response events in
  itemsPerPage p <> Num 0
  /\ itemsPerPage p <> NaN
  /\ 1 <= currentPage p
  /\ (forall b, In b (pagination p) -> 1 <= btn_text b).
Proof.
  intros p.
  enough ((itemsPerPage p <> Num 0 /\ itemsPerPage p <> NaN)
          /\ 1 <= currentPage p
          /\ (forall b, In b (pagination p) -> 1 <= btn_text b)) by tauto.
  subst p. unfold session.
  assert (Hload : let p0 := load host toLocaleString response (initial c) in
            (itemsPerPage p0 <> Num 0 /\ itemsPerPage p0 <> NaN)
            /\ 1 <= currentPage p0
            /\ (forall b, In b (pagination p0) -> 1 <= btn_text b)).
  { destruct response as [err|data]; cbn [load].
    - cbn. repeat split; [discriminate | discriminate | lia | contradiction].
    - destruct (on_data_runs host toLocaleString data (initial c)) as [c' Hc'].
      rewrite Hc', applyFilters_runs.
      destruct (end_bound _ _) as [err|bound].
      + cbn. repeat split; [discriminate | discriminate | lia | contradiction].
      + unfold filtered_page.
        apply painted_positive; cbn; [split; discriminate | lia]. }
  cbv zeta in Hload. revert Hload.
  generalize (load host toLocaleString response (initial c)).
  induction events as [|e events IH]; intros p (H1 & H2 & H3).
  - cbn. auto.
  - cbn [fold_left]. apply IH. now apply dispatch_positive.
Qed.

(** *** What the load leaves *)

Lemma on_data_controls (data : list Story) (p : Page) :
  exists c,
    on_data host toLocaleString data p
    = applyFilters (with_controls c (with_stories data p))
    /\ start_date c = start_date (controls p)
    /\ end_date c = end_date (controls p)
    /\ category_select c = category_select (controls p)
    /\ value (district_select c)
       = value_after (district_select (controls p))
           (sort (unique [] (truthy_values (map district data)))).
Proof.
  destruct (district_options_helper data p) as (c & Hc & H).
  exists c. split; [|exact H].
  unfold on_data. unfold bind at 1, write at 1. unfold bind at 1.
  now rewrite Hc.
Qed.

Lemma end_bound_error (endDate : string) (err : Error) :
  end_bound host endDate = inl err -> err = RangeError "Invalid time value".
Proof.
  unfold end_bound, isoNext. destruct (truthy endDate); [|discriminate].
  destruct (setDate _ _ _); cbn; congruence.
Qed.

Lemma passes_same_choices (c c' : Controls) (bound : option string) (s : Story) :
  start_date c' = start_date c ->
  category_select c' = category_select c ->
  value (district_select c') = value (district_select c) ->
  passes c' bound s = passes c bound s.
Proof. intros H1 H2 H3. unfold passes. now rewrite H1, H2, H3. Qed.

(** X13.  A failed load shows one message.  Whatever error the fetch is
    rejected with, the [ok] test throws or the parsing of the body
    settles with reaches [catch], which replaces the text of the
    container by the notice with the message of the error and changes
    nothing else; a response that is not [ok] gives the message
    [Failed to load news data].  The same handler also catches what the
    first filter pass throws: with an end date in the controls for which
    the pass throws, the collection is loaded, nothing is filtered in or
    paginated, and the notice reads [Invalid time value]. *)
Theorem load_error_shown (c : Controls) :
  (forall fetched err,
     first_then fetched = inl err ->
     load host toLocaleString (first_then fetched) (initial c)
     = with_news_container (set_innerHTML (error_notice err)) (initial c))
  /\ (forall response,
        ok response = false ->
        first_then (inr response) = inl (PlainError "Failed to load news data"))
  /\ (forall data err,
        end_bound host (end_date c) = inl err ->
        let p := load host toLocaleString (inr data) (initial c) in
        stories p = data
        /\ filteredStories p = []
        /\ news_container p
           = set_innerHTML (error_notice (RangeError "Invalid time value"))
        /\ pagination p = []).
Proof.
  split; [|split].
  - intros fetched err ->. reflexivity.
  - intros response H. cbn. now rewrite H.
  - intros data err Herr p. subst p. cbn [load].
    destruct (on_data_controls data (initial c)) as (c' & Hrun & _ & He & _).
    rewrite Hrun, applyFilters_runs.
    cbn [controls with_controls]. rewrite He. cbn [controls initial].
    rewrite Herr. rewrite (end_bound_error _ _ Herr).
    repeat split.
Qed.

(** X14.  A successful load.  When the end-date bound of the controls
    computes, the load stores the document as the collection, filters it
    by the controls as the set-up leaves them, and shows the first page
    of the result at 50 stories a page with the buttons of page 1.  The
    set-up leaves the dates and the category as the document delivered
    them, and the district too when an option of the district select is
    selected: then the filter is that of the controls delivered, and
    with no dates and no selection the filtered stories are the whole
    document.  With a district select without options, the first
    district appended is the choice, and the first view holds the
    stories of that district only. *)
Theorem load_shows_first_page (c : Controls) (data : list Story)
    (bound : option string) :
  end_bound host (end_date c) = inr bound ->
  let p := load host toLocaleString (inr data) (initial c) in
  let districts := sort (unique [] (truthy_values (map district data))) in
  stories p = data
  /\ start_date (controls p) = start_date c
  /\ end_date (controls p) = end_date c
  /\ category_select (controls p) = category_select c
  /\ value (district_select (controls p))
     = value_after (district_select c) districts
  /\ filteredStories p = List.filter (passes (controls p) bound) data
  /\ currentPage p = 1
  /\ itemsPerPage p = Num 50
  /\ news_container p
     = shows toLocaleString (slice (filteredStories p) 0 50)
  /\ pagination p = page_links (totalPages p) 1
  /\ (has_option (value (district_select c)) (district_select c) = true ->
      filteredStories p = List.filter (passes c bound) data
      /\ (start_date c = "" -> bound = None ->
          selects (value (category_select c)) = false ->
          selects (value (district_select c)) = false ->
          filteredStories p = data))
  /\ (forall first rest,
        options (district_select c) = [] ->
        districts = first :: rest ->
        first <> "All" ->
        start_date c = "" -> bound = None ->
        selects (value (category_select c)) = false ->
        filteredStories p
        = List.filter (fun s => strict_eq (district s) first) data).
Proof.
  intros Hb p districts. subst p. cbn [load].
  destruct (on_data_controls data (initial c)) as (c' & Hrun & Hs & He & Hc & Hd).
  cbn [controls initial] in Hs, He, Hc, Hd. fold districts in Hd.
  rewrite Hrun, applyFilters_runs. cbn [controls with_controls].
  rewrite He, Hb. unfold filtered_page.
  cbn [controls stories with_controls with_stories initial].
  set (kept := List.filter (passes c' bound) data).
  set (q := with_currentPage 1 _).
  assert (Hkept : filteredStories (painted toLocaleString 1 q) = kept)
    by reflexivity.
  assert (Hcontrols : controls (painted toLocaleString 1 q) = c')
    by reflexivity.
  rewrite Hkept, Hcontrols.
  split; [reflexivity|]. split; [exact Hs|]. split; [exact He|].
  split; [exact Hc|]. split; [exact Hd|]. split; [reflexivity|].
  split; [reflexivity|]. split; [reflexivity|]. split; [reflexivity|].
  split; [reflexivity|]. split.
  - intros Hsel.
    assert (Hsame : kept = List.filter (passes c bound) data).
    { apply List.filter_ext. intros s. apply passes_same_choices;
        [exact Hs | exact Hc |].
      rewrite Hd. now apply value_after_selected. }
    split; [exact Hsame|]. intros Hstart -> Hcat Hdist. rewrite Hsame.
    rewrite (List.filter_ext _ (fun _ => true)); [apply filter_all|].
    intros s. unfold passes. now rewrite Hstart, Hcat, Hdist.
  - intros first rest Hnone Hfirst HAll Hstart -> Hcat.
    assert (Hvalue : value (district_select c') = first).
    { rewrite Hd, Hfirst. unfold value_after, has_option.
      rewrite Hnone. reflexivity. }
    assert (Hin : In first districts) by (rewrite Hfirst; now left).
    assert (Hne : first <> "").
    { subst districts.
      apply (Permutation_in _ (sort_perm _)) in Hin.
      apply in_unique in Hin as [Hin _].
      apply in_truthy_values in Hin. tauto. }
    apply List.filter_ext. intros s. unfold passes.
    rewrite Hs, Hstart, Hc, Hcat, Hvalue.
    assert (Hsel : selects first = true)
      by (apply (selects_iff toLocaleString); tauto).
    rewrite Hsel. reflexivity.
Qed.

(** *** The page size read from the select *)

Lemma digit_value_digit_unit (d : Z) :
  0 <= d <= 9 -> digit_value (digit_unit d) = Some d.
Proof.
  intros H.
  assert (Hd : d = 0 \/ d = 1 \/ d = 2 \/ d = 3 \/ d = 4 \/ d = 5 \/ d = 6
               \/ d = 7 \/ d = 8 \/ d = 9) by lia.
  repeat (destruct Hd as [-> | Hd]; [reflexivity|]). now subst d.
Qed.

Lemma pad_mod (k : nat) (n : Z) : pad k (n mod 10 ^ Z.of_nat k) = pad k n.
Proof.
  revert n. induction k as [|k IH]; intros n; [reflexivity|].
  cbn [pad]. rewrite Nat2Z.inj_succ, Z.pow_succ_r by lia.
  assert (Hpos : 0 < 10 ^ Z.of_nat k) by (apply Z.pow_pos_nonneg; lia).
  rewrite <- (IH (n mod (10 * 10 ^ Z.of_nat k) / 10)), <- (IH (n / 10)).
  f_equal.
  - f_equal. rewrite Z.rem_mul_r by lia.
    rewrite (Z.mul_comm 10), Z.div_add by lia.
    rewrite (Z.div_small (n mod 10) 10) by (apply Z.mod_pos_bound; lia).
    cbn. apply Z.mod_mod. lia.
  - f_equal. unfold digit_unit. do 3 f_equal.
    rewrite Z.rem_mul_r by lia.
    rewrite (Z.mul_comm 10), Z.mod_add by lia. apply Z.mod_mod. lia.
Qed.

Lemma read_digits_pad (w : nat) (n acc : Z) (seen : bool) (rest : string) :
  0 <= n < 10 ^ Z.of_nat w ->
  no_leading_digit rest ->
  (w <> O \/ seen = true) ->
  read_digits acc seen (pad w n ++ rest) = Some (acc * 10 ^ Z.of_nat w + n).
Proof.
  revert n acc seen. induction w as [|w IH]; intros n acc seen Hn Hrest Hw.
  - cbn in Hn. assert (n = 0) by lia. subst n.
    destruct Hw as [Hw | ->]; [contradiction|].
    cbn [pad append Z.of_nat]. rewrite Z.pow_0_r, Z.mul_1_r, Z.add_0_r.
    destruct rest as [|c r]; [reflexivity|]. cbn in Hrest |- *.
    now rewrite Hrest.
  - rewrite pad_left. cbn [append read_digits].
    rewrite Nat2Z.inj_succ, Z.pow_succ_r in Hn |- * by lia.
    assert (Hpos : 0 < 10 ^ Z.of_nat w) by (apply Z.pow_pos_nonneg; lia).
    assert (Hq : 0 <= n / 10 ^ Z.of_nat w <= 9).
    { split; [apply Z.div_pos; lia|].
      apply Z.lt_succ_r. apply Z.div_lt_upper_bound; lia. }
    rewrite (digit_value_digit_unit _ Hq), <- pad_mod.
    rewrite IH; [| apply Z.mod_pos_bound; lia | exact Hrest | now right].
    f_equal. pose proof (Z.div_mod n (10 ^ Z.of_nat w) ltac:(lia)). nia.
Qed.

Lemma parseInt_unsigned (c : ascii) (r : string) :
  is_space c = false -> c <> "-"%char -> c <> "+"%char ->
  parseInt (String c r) = number_of 1 (read_digits 0 false (String c r)).
Proof.
  intros Hs Hm Hp. unfold parseInt. cbn [skip_spaces]. rewrite Hs.
  destruct c as [[] [] [] [] [] [] [] []]; try reflexivity;
    exfalso; (now apply Hm) || (now apply Hp).
Qed.

Lemma digit_unit_plain (d : Z) :
  is_space (digit_unit d) = false
  /\ digit_unit d <> "-"%char /\ digit_unit d <> "+"%char.
Proof.
  unfold digit_unit. pose proof (Z.mod_pos_bound d 10 eq_refl) as H.
  assert (Hd : d mod 10 = 0 \/ d mod 10 = 1 \/ d mod 10 = 2 \/ d mod 10 = 3
               \/ d mod 10 = 4 \/ d mod 10 = 5 \/ d mod 10 = 6
               \/ d mod 10 = 7 \/ d mod 10 = 8 \/ d mod 10 = 9) by lia.
  repeat (destruct Hd as [Hd|Hd];
          [rewrite Hd; repeat split; discriminate|]).
  rewrite Hd; repeat split; discriminate.
Qed.

Lemma parseInt_pad (k : nat) (n : Z) (rest : string) :
  0 <= n < 10 ^ Z.of_nat (S k) ->
  no_leading_digit rest ->
  parseInt (pad (S k) n ++ rest) = to_double n.
Proof.
  intros Hn Hrest.
  pose proof (read_digits_pad (S k) n 0 false rest Hn Hrest
                (or_introl (Nat.neq_succ_0 k))) as H.
  rewrite Z.mul_0_l, Z.add_0_l in H.
  rewrite pad_left in H |- *. cbn [append] in H |- *.
  destruct (digit_unit_plain (n / 10 ^ Z.of_nat k)) as (H1 & H2 & H3).
  rewrite (parseInt_unsigned _ _ H1 H2 H3), H.
  unfold number_of. now rewrite Z.mul_1_l.
Qed.

Lemma parseInt_minus_pad (k : nat) (n : Z) (rest : string) :
  0 <= n < 10 ^ Z.of_nat (S k) ->
  no_leading_digit rest ->
  parseInt (String "-" (pad (S k) n ++ rest)) = to_double (- n).
Proof.
  intros Hn Hrest.
  pose proof (read_digits_pad (S k) n 0 false rest Hn Hrest
                (or_introl (Nat.neq_succ_0 k))) as H.
  rewrite Z.mul_0_l, Z.add_0_l in H.
  unfold parseInt. cbn [skip_spaces is_space]. 
  change (is_space "-") with false. cbv iota.
  rewrite H. unfold number_of. f_equal; lia.
Qed.

(** Below 2^53 the double of an integer is the integer. *)
Lemma to_double_exact (n : Z) : Z.abs n < 2 ^ 53 -> to_double n = Num n.
Proof.
  intros H. unfold to_double.
  destruct (Z.ltb_spec (Z.abs n) (2 ^ 53)) as [_|Hge]; [reflexivity | lia].
Qed.

(** From 2^1024 on it is an infinity. *)
Lemma to_double_infinite (n : Z) :
  2 ^ 1024 <= n -> to_double n = Infinity false.
Proof.
  intros H. unfold to_double.
  assert (Hpow : 2 ^ 53 <= 2 ^ 1024) by (apply Z.pow_le_mono_r; lia).
  assert (Hpos : 0 < n).
  { assert (0 < 2 ^ 1024) by (apply Z.pow_pos_nonneg; lia). lia. }
  rewrite (Z.abs_eq n) by lia.
  destruct (Z.ltb_spec n (2 ^ 53)) as [Hlt|_]; [lia|].
  cbv zeta.
  set (e := Z.log2 n).
  assert (He : 1024 <= e).
  { subst e. rewrite <- (Z.log2_pow2 1024) by lia. now apply Z.log2_le_mono. }
  destruct (Z.log2_spec n Hpos) as [Hlow Hup]. fold e in Hlow, Hup.
  set (shift := e - 52).
  assert (Hshift : 0 < 2 ^ shift) by (apply Z.pow_pos_nonneg; lia).
  assert (Hq : 2 ^ 52 <= n / 2 ^ shift).
  { apply Z.div_le_lower_bound; [exact Hshift|].
    rewrite Z.mul_comm, <- Z.pow_add_r by lia.
    replace (52 + shift) with e by (subst shift; lia). exact Hlow. }
  set (q := n / 2 ^ shift) in *.
  match goal with
  | |- context [if ?b then q else q + 1] =>
      set (q' := if b then q else q + 1);
      assert (Hq' : q <= q') by (subst q'; destruct b; lia)
  end.
  assert (Hm : 2 ^ 1024 <= q' * 2 ^ shift).
  { transitivity (2 ^ e); [apply Z.pow_le_mono_r; lia|].
    replace e with (52 + shift) by (subst shift; lia).
    rewrite Z.pow_add_r by lia. nia. }
  destruct (Z.ltb_spec (q' * 2 ^ shift) (2 ^ 1024)) as [Hlt|_]; [lia|].
  destruct (Z.ltb_spec n 0); [lia | reflexivity].
Qed.

Lemma itemsSelect_change_size (p : Page) :
  let q := run (itemsSelect_change host toLocaleString) p in
  itemsPerPage q
  = num_or (parseInt (value (items_per_page (controls p)))) 50
  /\ currentPage q = 1.
Proof.
  intros q. subst q. unfold run. rewrite itemsSelect_change_runs.
  rewrite applyFilters_runs.
  destruct (end_bound host _) as [e|bound]; split; reflexivity.
Qed.

(** X15.  The page size read from the items select.  The change listener
    always leaves [currentPage] at 1 and a page size that is a number
    other than zero.  A text that starts with the decimal digits of [n]
    (leading zeros allowed, anything but a digit after them) gives the
    double of [n] as the page size, except that 0 gives 50: [n] itself
    below 2^53, an infinity from 2^1024 on; after a minus sign it gives
    the double of [-n].  An empty text, and a text that starts with
    neither a digit, a sign nor white space, give 50. *)
Theorem page_size_from_text (p : Page) :
  let text := value (items_per_page (controls p)) in
  let q := run (itemsSelect_change host toLocaleString) p in
  currentPage q = 1
  /\ itemsPerPage q <> Num 0
  /\ itemsPerPage q <> NaN
  /\ (forall (k : nat) (n : Z) (rest : string),
        text = pad (S k) n ++ rest ->
        0 <= n < 10 ^ Z.of_nat (S k) ->
        no_leading_digit rest ->
        itemsPerPage q = num_or (to_double n) 50
        /\ (n < 2 ^ 53 -> itemsPerPage q = Num (if n =? 0 then 50 else n))
        /\ (2 ^ 1024 <= n -> itemsPerPage q = Infinity false))
  /\ (forall (k : nat) (n : Z) (rest : string),
        text = String "-" (pad (S k) n ++ rest) ->
        0 <= n < 10 ^ Z.of_nat (S k) ->
        no_leading_digit rest ->
        itemsPerPage q = num_or (to_double (- n)) 50
        /\ (n < 2 ^ 53 -> itemsPerPage q = Num (if n =? 0 then 50 else - n)))
  /\ (text = "" -> itemsPerPage q = Num 50)
  /\ (forall c r,
        text = String c r ->
        digit_value c = None -> is_space c = false ->
        c <> "-"%char -> c <> "+"%char ->
        itemsPerPage q = Num 50).
Proof.
  intros text q.
  destruct (itemsSelect_change_size p) as [Hsize Hcur].
  fold q in Hsize, Hcur. fold text in Hsize.
  split; [exact Hcur|].
  split; [rewrite Hsize; apply num_or_nonzero; discriminate|].
  split; [rewrite Hsize; apply num_or_nonzero; discriminate|].
  split; [|split; [|split]].
  - intros k n rest Ht Hn Hrest. rewrite Hsize, Ht.
    rewrite (parseInt_pad k n rest Hn Hrest).
    split; [reflexivity|]. split.
    + intros Hsmall. rewrite to_double_exact by lia. unfold num_or.
      now destruct (n =? 0).
    + intros Hbig. now rewrite to_double_infinite.
  - intros k n rest Ht Hn Hrest. rewrite Hsize, Ht.
    rewrite (parseInt_minus_pad k n rest Hn Hrest).
    split; [reflexivity|].
    intros Hsmall. rewrite to_double_exact by lia. unfold num_or.
    destruct (Z.eqb_spec (- n) 0), (Z.eqb_spec n 0); try lia; reflexivity.
  - intros Ht. rewrite Hsize, Ht. reflexivity.
  - intros c r Ht Hd Hs Hm Hp. rewrite Hsize, Ht.
    rewrite (parseInt_unsigned c r Hs Hm Hp). cbn. now rewrite Hd.
Qed.

(** *** The page on show and the variables *)

Lemma painted_in_step (i : Z) (q : Page) :
  currentPage q = i ->
  1 <= i <= Z.max 1 (totalPages q) ->
  in_step toLocaleString (painted toLocaleString i q).
Proof.
  intros Hc Hi. unfold in_step, painted.
  cbn [news_container pagination currentPage with_pagination
       with_news_container].
  rewrite Hc. repeat split; solve [reflexivity | apply Hi].
Qed.

Lemma applyFilters_in_step (q : Page) :
  completes applyFilters q -> in_step toLocaleString (run applyFilters q).
Proof.
  intros H. apply applyFilters_completes in H as [bound Hb].
  rewrite (applyFilters_result host toLocaleString q bound Hb).
  unfold filtered_page. apply painted_in_step; [reflexivity | lia].
Qed.

Lemma fire_in_step (e : Event) (p : Page) :
  completes (fire host toLocaleString e) p ->
  in_step toLocaleString p ->
  in_step toLocaleString (dispatch host toLocaleString e p).
Proof.
  intros Hdone Hp.
  destruct e as [v|v|v|v|v|now| |i].
  - exact (applyFilters_in_step _ Hdone).
  - exact (applyFilters_in_step _ Hdone).
  - exact (applyFilters_in_step _ Hdone).
  - exact (applyFilters_in_step _ Hdone).
  - exact (applyFilters_in_step _ Hdone).
  - unfold dispatch, run. cbn [fire]. rewrite todayBtn_click_runs. cbn [snd].
    apply painted_in_step; [reflexivity | lia].
  - unfold dispatch, run. cbn [fire]. rewrite resetBtn_click_result. cbn [snd].
    apply painted_in_step; [reflexivity | lia].
  - rewrite ClickPage_runs.
    destruct (existsb _ (pagination p)) eqn:E; [|exact Hp].
    apply existsb_button in E.
    destruct Hp as (_ & Hb & _). rewrite Hb, page_links_texts in E.
    destruct (totalPages p <=? 1); [contradiction|].
    apply in_count_from in E.
    apply painted_in_step; [reflexivity|].
    change (totalPages (with_currentPage i p)) with (totalPages p). lia.
Qed.

Lemma slice_nil {A} (start end_ : Z) : slice (@nil A) start end_ = [].
Proof. unfold slice. now rewrite drop_nil, take_nil. Qed.

Lemma pageItems_nonempty (p : Page) (perPage i : Z) :
  itemsPerPage p = Num perPage ->
  1 <= perPage ->
  filteredStories p <> [] ->
  1 <= i <= Z.max 1 (totalPages p) ->
  pageItems p i <> [].
Proof.
  intros Hnum Hk Hne Hi.
  destruct (totalPages_bounds p perPage Hnum Hk) as (_ & _ & Hlast).
  specialize (Hlast Hne).
  assert (Hlen : (0 < length (filteredStories p))%nat).
  { destruct (filteredStories p); [contradiction | cbn; lia]. }
  assert (Hbefore : (i - 1) * perPage
                    < Z.of_nat (length (filteredStories p))) by nia.
  replace i with (1 + Z.of_nat (Z.to_nat (i - 1))) by lia.
  rewrite (pageItems_chunk p perPage _ Hnum Hk).
  intros E. apply (f_equal (@length Story)) in E.
  rewrite length_take, length_drop in E. cbn [length] in E.
  assert (Hnat : (Z.to_nat (i - 1) * Z.to_nat perPage
                  < length (filteredStories p))%nat).
  { apply Nat2Z.inj_lt. rewrite Nat2Z.inj_mul, !Z2Nat.id by lia. exact Hbefore. }
  lia.
Qed.

Lemma in_step_notice (p : Page) (perPage : Z) :
  in_step toLocaleString p ->
  itemsPerPage p = Num perPage ->
  1 <= perPage ->
  news_container p = set_innerHTML no_match_notice <-> filteredStories p = [].
Proof.
  intros (Hshown & _ & Hpage) Hnum Hk. rewrite Hshown, shows_notice_iff.
  split.
  - intros E. destruct (filteredStories p) as [|s l] eqn:Ef; [reflexivity|].
    exfalso.
    apply (pageItems_nonempty p perPage (currentPage p) Hnum Hk);
      [|exact Hpage|exact E].
    rewrite Ef. discriminate.
  - intros E. unfold pageItems, slice_at. rewrite E. apply slice_nil.
Qed.

Lemma session_in_step (events : list Event) (p : Page) :
  all_complete host toLocaleString events p ->
  in_step toLocaleString p ->
  in_step toLocaleString
    (fold_left (fun p e => dispatch host toLocaleString e p) events p).
Proof.
  revert p. induction events as [|e events IH]; intros p Hall Hp; [exact Hp|].
  destruct Hall as [He Hrest]. cbn [fold_left].
  apply IH; [exact Hrest|]. now apply fire_in_step.
Qed.

Lemma load_in_step (c : Controls) (data : list Story) :
  completes (on_data host toLocaleString data) (initial c) ->
  in_step toLocaleString (load host toLocaleString (inr data) (initial c)).
Proof.
  intros Hdone. cbn [load].
  destruct (on_data_runs host toLocaleString data (initial c)) as [c' Hrun].
  unfold completes in Hdone. rewrite Hrun in Hdone |- *.
  pose proof (applyFilters_in_step _ Hdone) as H.
  unfold run in H.
  destruct (applyFilters (with_controls c' (with_stories data (initial c))))
    as [[err|[]] q]; cbn [fst snd] in *.
  - destruct Hdone as [a Ha]. discriminate Ha.
  - exact H.
Qed.

(** X16.  The page on show keeps in step with the variables.  Over a session
    whose load succeeds and in which every listener returns, after every
    event the container holds the slice of [filteredStories] of the page
    [currentPage], the buttons are those of [totalPages] with
    [currentPage] marked, and [currentPage] is one of the pages (1 when
    there is none).  So, with an integer page size of at least one, the
    notice of no match is on show exactly when nothing is filtered in,
    and otherwise at least one card is: no click leads to an empty page.
    With an infinite page size the notice is on show, without buttons,
    whatever is filtered in. *)
Theorem shown_page_in_step (c : Controls) (data : list Story)
    (events : list Event) :
  completes (on_data host toLocaleString data) (initial c) ->
  all_complete host toLocaleString events
    (load host toLocaleString (inr data) (initial c)) ->
  let p := session host toLocaleString c (inr data) events in
  in_step toLocaleString p
  /\ (forall perPage : Z,
        itemsPerPage p = Num perPage ->
        1 <= perPage ->
        (news_container p = set_innerHTML no_match_notice
         <-> filteredStories p = [])
        /\ (filteredStories p <> [] ->
            cards (news_container p)
            = map card_of (pageItems p (currentPage p))
            /\ cards (news_container p) <> []))
  /\ (forall negative : bool,
        itemsPerPage p = Infinity negative ->
        news_container p = set_innerHTML no_match_notice
        /\ pagination p = []).
Proof.
  intros Hload Hall p.
  assert (Hp : in_step toLocaleString p).
  { subst p. unfold session. apply session_in_step; [exact Hall|].
    now apply load_in_step. }
  split; [exact Hp|]. split.
  - intros perPage Hnum Hk.
    split; [now apply (in_step_notice p perPage)|].
    intros Hne. destruct Hp as (Hshown & _ & Hpage).
    pose proof (pageItems_nonempty p perPage (currentPage p) Hnum Hk Hne Hpage)
      as Hitems.
    rewrite Hshown. unfold shows.
    destruct (pageItems p (currentPage p)) as [|s l]; [contradiction|].
    cbn [cards]. split; [reflexivity | discriminate].
  - intros negative Hinf. destruct Hp as (Hshown & Hbuttons & _).
    rewrite Hshown, Hbuttons.
    rewrite (pageItems_infinite p _ negative Hinf).
    rewrite (totalPages_infinite p negative Hinf).
    split; reflexivity.
Qed.

(** *** A listener that throws *)

Lemma applyFilters_throws (q : Page) :
  ~ completes applyFilters q -> run applyFilters q = q.
Proof.
  intros H. unfold run, completes in *. rewrite applyFilters_runs in *.
  destruct (end_bound host (end_date (controls q))); [reflexivity|].
  exfalso. apply H. now exists tt.
Qed.

(** X17.  A listener that throws.  Only a listener of a change event can
    throw, and only because the filter pass throws over the end date the
    controls then hold.  The collection, the filtered stories, the cards
    and the buttons stay as they were; the page size and the current
    page stay too, except after a change of the items select, whose two
    assignments of lines 64 and 65 are already made: the page size is
    the new one and the current page is 1, while the page on show is the
    old one. *)
Theorem thrown_event_leaves_page (e : Event) (p : Page) :
  ~ completes (fire host toLocaleString e) p ->
  let p' := dispatch host toLocaleString e p in
  changes_control e = true
  /\ (exists err, end_bound host (end_date (controls p')) = inl err)
  /\ stories p' = stories p
  /\ filteredStories p' = filteredStories p
  /\ news_container p' = news_container p
  /\ pagination p' = pagination p
  /\ match e with
     | ChangeItemsPerPage v =>
         itemsPerPage p'
         = num_or (parseInt (value (items_per_page (controls p')))) 50
         /\ currentPage p' = 1
     | _ => itemsPerPage p' = itemsPerPage p /\ currentPage p' = currentPage p
     end.
Proof.
  intros Hthrown p'. subst p'.
  assert (Hbound : forall q,
            ~ completes applyFilters q ->
            exists err, end_bound host (end_date (controls q)) = inl err).
  { intros q Hq. rewrite applyFilters_completes in Hq.
    destruct (end_bound host (end_date (controls q))) as [err|bound];
      [now exists err|].
    exfalso. apply Hq. now exists bound. }
  destruct e as [v|v|v|v|v|now| |i].
  - pose (q := on_controls (with_start_date v) p).
    change (~ completes applyFilters q) in Hthrown.
    change (dispatch host toLocaleString (ChangeStartDate v) p)
      with (run applyFilters q).
    rewrite (applyFilters_throws q Hthrown).
    split; [reflexivity|]. split; [exact (Hbound q Hthrown)|]. repeat split.
  - pose (q := on_controls (with_end_date v) p).
    change (~ completes applyFilters q) in Hthrown.
    change (dispatch host toLocaleString (ChangeEndDate v) p)
      with (run applyFilters q).
    rewrite (applyFilters_throws q Hthrown).
    split; [reflexivity|]. split; [exact (Hbound q Hthrown)|]. repeat split.
  - pose (q := on_controls (fun c =>
                 with_category_select (set_value v (category_select c)) c) p).
    change (~ completes applyFilters q) in Hthrown.
    change (dispatch host toLocaleString (ChangeCategory v) p)
      with (run applyFilters q).
    rewrite (applyFilters_throws q Hthrown).
    split; [reflexivity|]. split; [exact (Hbound q Hthrown)|]. repeat split.
  - pose (q := on_controls (fun c =>
                 with_district_select (set_value v (district_select c)) c) p).
    change (~ completes applyFilters q) in Hthrown.
    change (dispatch host toLocaleString (ChangeDistrict v) p)
      with (run applyFilters q).
    rewrite (applyFilters_throws q Hthrown).
    split; [reflexivity|]. split; [exact (Hbound q Hthrown)|]. repeat split.
  - pose (q0 := on_controls (fun c =>
                  with_items_per_page (set_value v (items_per_page c)) c) p).
    pose (q := with_currentPage 1
                 (with_itemsPerPage
                    (num_or (parseInt (value (items_per_page (controls q0)))) 50)
                    q0)).
    change (~ completes applyFilters q) in Hthrown.
    change (dispatch host toLocaleString (ChangeItemsPerPage v) p)
      with (run applyFilters q).
    rewrite (applyFilters_throws q Hthrown).
    split; [reflexivity|]. split; [exact (Hbound q Hthrown)|]. repeat split.
  - exfalso. apply Hthrown. unfold completes. cbn [fire].
    rewrite todayBtn_click_runs. now exists tt.
  - exfalso. apply Hthrown. unfold completes. cbn [fire].
    rewrite resetBtn_click_result. now exists tt.
  - exfalso. apply Hthrown. unfold completes.
    cbv beta iota delta [fire bind read].
    destruct (existsb _ (pagination p)); [|now exists tt].
    rewrite pageBtn_click_runs. now exists tt.
Qed.

(** *** A negative page size *)

(** X18.  A negative page size is not refused.  With [itemsPerPage] at -k,
    [renderPage 1] shows the filtered stories without their last k (the
    negative end index of [slice] counts from the end) on one page
    without buttons, the number of pages being at most 0; every later
    page is empty. *)
Theorem negative_page_size (p : Page) (perPage : Z) :
  itemsPerPage p = Num perPage ->
  perPage <= -1 ->
  let n := length (filteredStories p) in
  let k := Z.to_nat (- perPage) in
  let p' := run (renderPage 1) p in
  totalPages p <= 0
  /\ pagination p' = []
  /\ pageItems p 1 = take (n - k) (filteredStories p)
  /\ cards (news_container p') = map card_of (take (n - k) (filteredStories p))
  /\ (forall page, 2 <= page -> pageItems p page = []).
Proof.
  intros Hnum Hk n k p'.
  assert (HT : totalPages p <= 0).
  { rewrite (totalPages_finite p perPage Hnum). unfold ceil_div.
    pose proof (Zle_0_nat (length (filteredStories p))) as Hlen.
    Z.div_mod_to_equations. nia. }
  assert (Hfirst : pageItems p 1 = take (n - k) (filteredStories p)).
  { rewrite (pageItems_finite p 1 perPage Hnum).
    unfold slice, clamp_index. fold n.
    replace ((1 - 1) * perPage) with 0 by lia.
    cbn [Z.ltb Z.compare]. rewrite Z.add_0_l.
    destruct (Z.ltb_spec perPage 0); [|lia].
    rewrite Z.min_l by lia. cbn [Z.to_nat drop].
    f_equal. subst k n. lia. }
  split; [exact HT|]. split; [|split; [exact Hfirst|split]].
  - subst p'. rewrite renderPage_pagination. unfold page_links.
    destruct (Z.leb_spec (totalPages p) 1); [reflexivity | lia].
  - subst p'. now rewrite renderPage_cards, Hfirst.
  - intros page Hpage. rewrite (pageItems_finite p page perPage Hnum).
    unfold slice, clamp_index. fold n.
    destruct (Z.ltb_spec ((page - 1) * perPage) 0); [|nia].
    destruct (Z.ltb_spec ((page - 1) * perPage + perPage) 0);
      [|nia].
    replace (Z.to_nat _) with 0%nat by lia. apply take_0.
Qed.

(** *** An infinite page size *)

(** X19.  An infinite page size shows nothing.  With [itemsPerPage] an
    infinity, as [parseInt] reads it from a run of digits from 2^1024
    on, the start index of page 1 is [NaN] (zero times infinity) and
    [renderPage] shows the notice of no match and no button, for every
    page and whatever is filtered in; so does the listener of the items
    select when it returns after reading such a text. *)
Theorem infinite_page_size (p : Page) (negative : bool) :
  (itemsPerPage p = Infinity negative ->
   forall page,
     let p' := run (renderPage page) p in
     times (page - 1) (itemsPerPage p)
     = (if page =? 1 then NaN
        else Infinity (xorb negative (page - 1 <? 0)))
     /\ pageItems p page = []
     /\ news_container p' = set_innerHTML no_match_notice
     /\ pagination p' = [])
  /\ (forall (k : nat) (n : Z) (rest : string),
        value (items_per_page (controls p)) = pad (S k) n ++ rest ->
        0 <= n < 10 ^ Z.of_nat (S k) ->
        no_leading_digit rest ->
        2 ^ 1024 <= n ->
        let q := run (itemsSelect_change host toLocaleString) p in
        itemsPerPage q = Infinity false
        /\ (completes (itemsSelect_change host toLocaleString) p ->
            news_container q = set_innerHTML no_match_notice
            /\ pagination q = [])).
Proof.
  split.
  - intros Hinf page p'.
    pose proof (pageItems_infinite p page negative Hinf) as Hitems.
    split; [|split; [exact Hitems|split]].
    + rewrite Hinf. unfold times.
      destruct (Z.eqb_spec (page - 1) 0), (Z.eqb_spec page 1);
        try lia; reflexivity.
    + subst p'. unfold run. rewrite renderPage_runs. cbn [snd].
      cbn [painted news_container with_pagination with_news_container].
      now rewrite Hitems.
    + subst p'. rewrite renderPage_pagination.
      now rewrite (totalPages_infinite p negative Hinf).
  - intros k n rest Ht Hn Hrest Hbig q.
    destruct (itemsSelect_change_size p) as [Hsize _]. fold q in Hsize.
    rewrite Ht, (parseInt_pad k n rest Hn Hrest) in Hsize.
    rewrite (to_double_infinite n Hbig) in Hsize. cbn [num_or] in Hsize.
    split; [exact Hsize|]. intros Hdone.
    assert (Hstep : in_step toLocaleString q).
    { subst q. unfold run, completes in *.
      rewrite itemsSelect_change_runs in *.
      now apply applyFilters_in_step. }
    destruct Hstep as (Hshown & Hbuttons & _).
    rewrite Hshown, Hbuttons.
    rewrite (pageItems_infinite q _ false Hsize).
    rewrite (totalPages_infinite q false Hsize).
    split; reflexivity.
Qed.

End Further.

(** *** The further properties at concrete pages *)

Lemma long_page_pages :
  count_from 1 (Z.to_nat (totalPages long_page)) = [1; 2; 3].
Proof. reflexivity. Qed.

Lemma filter_pass_throws_only_on_end_date_witness :
  ~ completes (applyFilters india as_written) end_date_misread
  /\ applyFilters india as_written end_date_misread
     = (inl (RangeError "Invalid time value"), end_date_misread).
Proof.
  assert (H : ~ completes (applyFilters india as_written) end_date_misread).
  { intros [a Ha]. vm_compute in Ha. discriminate Ha. }
  split; [exact H|].
  exact (proj1 (proj2 (filter_pass_throws_only_on_end_date
                         india as_written end_date_misread)) H).
Defined.

Lemma filter_pass_forgets_history_witness :
  stories governance_in_lucknow = stories governance_in_lucknow_used
  /\ controls governance_in_lucknow = controls governance_in_lucknow_used
  /\ itemsPerPage governance_in_lucknow
     = itemsPerPage governance_in_lucknow_used
  /\ completes (applyFilters india as_written) governance_in_lucknow
  /\ run (applyFilters india as_written) governance_in_lucknow
     = run (applyFilters india as_written) governance_in_lucknow_used.
Proof.
  assert (H : completes (applyFilters india as_written) governance_in_lucknow)
    by (exists tt; reflexivity).
  do 3 (split; [reflexivity|]). split; [exact H|].
  exact (proj1 (proj2 (filter_pass_forgets_history india as_written
                         governance_in_lucknow governance_in_lucknow_used
                         eq_refl eq_refl eq_refl) H)).
Defined.

Lemma district_options_sorted_distinct_witness :
  options (district_select
             (controls (run initialiseFilters
                            (page_of no_district_options mixed_stories []))))
  = ["Agra"; "Lucknow"]
  /\ value (district_select
              (controls (run initialiseFilters
                             (page_of no_district_options mixed_stories []))))
     = "Agra".
Proof.
  pose proof (district_options_sorted_distinct as_written
                (page_of no_district_options mixed_stories [])) as H.
  cbv zeta in H.
  destruct H as (_ & (added & Hoptions & _ & _ & _ & _ & _ & Hfirst) & _).
  assert (Hadded : added = ["Agra"; "Lucknow"]).
  { symmetry. etransitivity; [|exact Hoptions]. reflexivity. }
  split; [rewrite Hoptions, Hadded; reflexivity|].
  exact (Hfirst "Agra" ["Lucknow"] eq_refl Hadded).
Defined.

Lemma pages_partition_filtered_witness :
  itemsPerPage long_page = Num 50
  /\ 1 <= 50
  /\ concat (map (pageItems long_page) [1; 2; 3]) = filteredStories long_page
  /\ length (pageItems long_page 2) = Z.to_nat 50.
Proof.
  assert (H0 : itemsPerPage long_page = Num 50) by reflexivity.
  assert (H1 : 1 <= 50) by lia.
  split; [exact H0|]. split; [exact H1|].
  pose proof (pages_partition_filtered as_written long_page 50 H0 H1) as H.
  cbv zeta in H. rewrite long_page_pages in H.
  destruct H as (_ & Hall & _ & _ & Hfull).
  split; [exact Hall|].
  apply Hfull; [right; left; reflexivity | reflexivity].
Defined.

Lemma pagination_buttons_witness :
  itemsPerPage long_page = Num 50
  /\ 1 <= 50
  /\ map btn_text (pagination (run (renderPage as_written 2) long_page))
     = [1; 2; 3]
  /\ 2 <= totalPages long_page.
Proof.
  assert (H0 : itemsPerPage long_page = Num 50) by reflexivity.
  assert (H1 : 1 <= 50) by lia.
  split; [exact H0|]. split; [exact H1|].
  pose proof (pagination_buttons as_written long_page 2 50 H0 H1) as H.
  cbv zeta in H. destruct H as (_ & H & _).
  assert (Hmany : 50 < Z.of_nat (length (filteredStories long_page)))
    by reflexivity.
  destruct (H Hmany) as (Htexts & Htwo & _).
  rewrite long_page_pages in Htexts.
  split; [exact Htexts | exact Htwo].
Defined.

Lemma page_click_shows_that_page_witness :
  pagination long_page_shown
  = page_links (totalPages long_page_shown) (currentPage long_page_shown)
  /\ In 2 (map btn_text (pagination long_page_shown))
  /\ currentPage (dispatch india as_written (ClickPage 2) long_page_shown) = 2
  /\ news_container (dispatch india as_written (ClickPage 2) long_page_shown)
     = shows as_written (pageItems long_page_shown 2).
Proof.
  assert (H1 : pagination long_page_shown
               = page_links (totalPages long_page_shown)
                            (currentPage long_page_shown))
    by reflexivity.
  assert (H2 : In 2 (map btn_text (pagination long_page_shown)))
    by (vm_compute; right; left; reflexivity).
  split; [exact H1|]. split; [exact H2|].
  pose proof (page_click_shows_that_page india as_written 2 long_page_shown H1)
    as H.
  cbv zeta in H. destruct H as (_ & H).
  destruct (H H2) as (Hpage & _ & _ & _ & _ & Hshown & _).
  split; [exact Hpage | exact Hshown].
Defined.

Lemma no_match_shows_notice_witness :
  completes (applyFilters india as_written) opposition_only
  /\ itemsPerPage opposition_only = Num 50
  /\ 1 <= 50
  /\ news_container (run (applyFilters india as_written) opposition_only)
     = set_innerHTML no_match_notice
  /\ pagination (run (applyFilters india as_written) opposition_only) = [].
Proof.
  assert (H1 : completes (applyFilters india as_written) opposition_only)
    by (exists tt; reflexivity).
  assert (H0 : itemsPerPage opposition_only = Num 50) by reflexivity.
  assert (H2 : 1 <= 50) by lia.
  split; [exact H1|]. split; [exact H0|]. split; [exact H2|].
  pose proof (no_match_shows_notice india as_written opposition_only 50
                H1 H0 H2) as H.
  cbv zeta in H. destruct H as (Hnotice & Hnone & _).
  split; [apply Hnotice; reflexivity | apply Hnone; reflexivity].
Defined.

Lemma slug_of_outer_white_space_witness :
  categoryToSlug (" " ++ String "N" "DA")
  = "-" ++ categoryToSlug (String "N" "DA").
Proof.
  apply (proj1 (slug_of_outer_white_space as_written));
    [discriminate | reflexivity | reflexivity].
Defined.

Lemma unlabelled_hidden_by_selection_witness :
  completes (applyFilters india as_written) governance_in_lucknow
  /\ ~ In unlabelled
       (filteredStories (run (applyFilters india as_written)
                             governance_in_lucknow)).
Proof.
  assert (H : completes (applyFilters india as_written) governance_in_lucknow)
    by (exists tt; reflexivity).
  split; [exact H|].
  exact (proj1 (unlabelled_hidden_by_selection india as_written
                  governance_in_lucknow unlabelled H)
           eq_refl (or_introl eq_refl)).
Defined.

Lemma load_error_shown_witness :
  ok not_found = false
  /\ first_then (inr not_found) = inl (PlainError "Failed to load news data")
  /\ load india as_written (first_then (inr not_found)) (initial plain_controls)
     = with_news_container
         (set_innerHTML "<p>Error loading news: Failed to load news data</p>")
         (initial plain_controls).
Proof.
  assert (H1 : ok not_found = false) by reflexivity.
  destruct (load_error_shown india as_written plain_controls)
    as (Hshown & Hrefused & _).
  pose proof (Hrefused not_found H1) as H2.
  split; [exact H1|]. split; [exact H2|].
  exact (Hshown (inr not_found) _ H2).
Defined.

Lemma load_shows_first_page_witness :
  end_bound india (end_date plain_controls) = inr None
  /\ filteredStories
       (load india as_written (inr mixed_stories) (initial plain_controls))
     = mixed_stories
  /\ end_bound india (end_date no_district_options) = inr None
  /\ value (district_select
              (controls (load india as_written (inr mixed_stories)
                              (initial no_district_options))))
     = "Agra"
  /\ filteredStories
       (load india as_written (inr mixed_stories)
             (initial no_district_options))
     = [governance_agra].
Proof.
  assert (H : end_bound india (end_date plain_controls) = inr None)
    by reflexivity.
  split; [exact H|].
  pose proof (load_shows_first_page india as_written plain_controls
                mixed_stories None H) as H'.
  cbv zeta in H'.
  destruct H' as (_ & _ & _ & _ & _ & _ & _ & _ & _ & _ & Hsel & _).
  split; [apply (Hsel eq_refl); reflexivity|].
  assert (H0 : end_bound india (end_date no_district_options) = inr None)
    by reflexivity.
  split; [exact H0|].
  pose proof (load_shows_first_page india as_written no_district_options
                mixed_stories None H0) as H1.
  cbv zeta in H1.
  destruct H1 as (_ & _ & _ & _ & Hvalue & _ & _ & _ & _ & _ & _ & Hfirst).
  split; [exact Hvalue|].
  exact (Hfirst "Agra" ["Lucknow"] eq_refl eq_refl ltac:(discriminate)
           eq_refl eq_refl eq_refl).
Defined.

Lemma page_size_from_text_witness :
  value (items_per_page (controls twenty_five_chosen)) = pad 2 25 ++ ""
  /\ 0 <= 25 < 10 ^ Z.of_nat 2
  /\ no_leading_digit ""
  /\ itemsPerPage (run (itemsSelect_change india as_written) twenty_five_chosen)
     = Num 25
  /\ value (items_per_page (controls beyond_exact_chosen))
     = pad 16 9007199254740993 ++ ""
  /\ 0 <= 9007199254740993 < 10 ^ Z.of_nat 16
  /\ itemsPerPage (run (itemsSelect_change india as_written)
                       beyond_exact_chosen)
     = Num 9007199254740992.
Proof.
  assert (H1 : value (items_per_page (controls twenty_five_chosen))
               = pad 2 25 ++ "") by reflexivity.
  assert (H2 : 0 <= 25 < 10 ^ Z.of_nat 2) by (cbn; lia).
  assert (H3 : no_leading_digit "") by exact I.
  split; [exact H1|]. split; [exact H2|]. split; [exact H3|].
  pose proof (page_size_from_text india as_written twenty_five_chosen) as H.
  cbv zeta in H. destruct H as (_ & _ & _ & H & _).
  split; [exact (proj1 (proj2 (H 1%nat 25 "" H1 H2 H3)) eq_refl)|].
  assert (H4 : value (items_per_page (controls beyond_exact_chosen))
               = pad 16 9007199254740993 ++ "") by reflexivity.
  assert (H5 : 0 <= 9007199254740993 < 10 ^ Z.of_nat 16) by (cbn; lia).
  split; [exact H4|]. split; [exact H5|].
  pose proof (page_size_from_text india as_written beyond_exact_chosen) as H'.
  cbv zeta in H'. destruct H' as (_ & _ & _ & H' & _).
  exact (proj1 (H' 15%nat 9007199254740993 "" H4 H5 H3)).
Defined.

Lemma shown_page_in_step_witness :
  completes (on_data india as_written (map numbered (seq 0 125)))
            (initial plain_controls)
  /\ all_complete india as_written a_visit
       (load india as_written (inr (map numbered (seq 0 125)))
             (initial plain_controls))
  /\ in_step as_written
       (session india as_written plain_controls
                (inr (map numbered (seq 0 125))) a_visit).
Proof.
  assert (H1 : completes (on_data india as_written (map numbered (seq 0 125)))
                         (initial plain_controls))
    by (exists tt; vm_compute; reflexivity).
  assert (H2 : all_complete india as_written a_visit
                 (load india as_written (inr (map numbered (seq 0 125)))
                       (initial plain_controls))).
  { cbn [all_complete a_visit].
    do 4 (split; [exists tt; vm_compute; reflexivity|]). exact I. }
  split; [exact H1|]. split; [exact H2|].
  exact (proj1 (shown_page_in_step india as_written plain_controls
                  (map numbered (seq 0 125)) a_visit H1 H2)).
Defined.

Lemma thrown_event_leaves_page_witness :
  ~ completes (fire india as_written (ChangeItemsPerPage "25")) end_date_misread
  /\ itemsPerPage
       (dispatch india as_written (ChangeItemsPerPage "25") end_date_misread)
     = Num 25
  /\ news_container
       (dispatch india as_written (ChangeItemsPerPage "25") end_date_misread)
     = news_container end_date_misread.
Proof.
  assert (H : ~ completes (fire india as_written (ChangeItemsPerPage "25"))
                          end_date_misread).
  { intros [a Ha]. vm_compute in Ha. discriminate Ha. }
  split; [exact H|].
  pose proof (thrown_event_leaves_page india as_written
                (ChangeItemsPerPage "25") end_date_misread H) as H'.
  cbv zeta in H'. destruct H' as (_ & _ & _ & _ & Hshown & _ & Hsize & _).
  split; [exact Hsize | exact Hshown].
Defined.

Lemma negative_page_size_witness :
  itemsPerPage minus_five_a_page = Num (-5)
  /\ -5 <= -1
  /\ pageItems minus_five_a_page 1 = take 120 (filteredStories minus_five_a_page)
  /\ pagination (run (renderPage as_written 1) minus_five_a_page) = [].
Proof.
  assert (H0 : itemsPerPage minus_five_a_page = Num (-5)) by reflexivity.
  assert (H : -5 <= -1) by lia.
  split; [exact H0|]. split; [exact H|].
  pose proof (negative_page_size as_written minus_five_a_page (-5) H0 H) as H'.
  cbv zeta in H'. destruct H' as (_ & Hnone & Hfirst & _).
  split; [exact Hfirst | exact Hnone].
Defined.

Lemma infinite_page_size_witness :
  value (items_per_page (controls endless_chosen))
  = pad 309 (2 ^ 1024) ++ ""
  /\ 0 <= 2 ^ 1024 < 10 ^ Z.of_nat 309
  /\ completes (itemsSelect_change india as_written) endless_chosen
  /\ filteredStories (run (itemsSelect_change india as_written) endless_chosen)
     = map numbered (seq 0 125)
  /\ itemsPerPage (run (itemsSelect_change india as_written) endless_chosen)
     = Infinity false
  /\ news_container (run (itemsSelect_change india as_written) endless_chosen)
     = set_innerHTML no_match_notice.
Proof.
  assert (H1 : value (items_per_page (controls endless_chosen))
               = pad 309 (2 ^ 1024) ++ "")
    by (vm_compute; reflexivity).
  assert (H2 : 0 <= 2 ^ 1024 < 10 ^ Z.of_nat 309)
    by (split; [apply Z.leb_le | apply Z.ltb_lt]; vm_compute; reflexivity).
  assert (H3 : completes (itemsSelect_change india as_written) endless_chosen)
    by (exists tt; vm_compute; reflexivity).
  assert (H4 : 2 ^ 1024 <= 2 ^ 1024) by apply Z.le_refl.
  split; [exact H1|]. split; [exact H2|]. split; [exact H3|].
  split; [vm_compute; reflexivity|].
  destruct (proj2 (infinite_page_size india as_written endless_chosen false)
              308%nat (2 ^ 1024) "" H1 H2 I H4) as (Hsize & Hshown).
  split; [exact Hsize | exact (proj1 (Hshown H3))].
Defined.
